(** * Scheduling grid engine: timeline, booking layout, row flattening,
      selection and drag-relocation

    Shallow embedding of the scheduler's core:
    - [utils/dateUtils.js]: [generateDateRange], [getDateIndex];
    - [components/BookingBlock.jsx] (the row-based booking layout), the
      earlier copy of [BookingBlock] kept in the repository, and
      [GridBookingCell] with the [cellRenderer] of
      [components/VirtualizedScheduler.jsx] (the grid-based layout);
    - the [visibleRows] computation (filters and flattening);
    - the pointer handlers [handleCellMouseDown], [handleCellMouseEnter],
      [onMouseUp] and [handleBookingDragEnd].

    Representation of day keys.  The program manipulates calendar days as
    strings ['YYYY-MM-DD'].  Such a key is represented here by its day number
    (an integer count of days from a fixed origin): [===] on keys is equality
    of day numbers, the JavaScript string comparisons [<] and [>] on
    zero-padded ISO keys are the order of day numbers, [dayjs(k).add(n, 'day')]
    and [dayjs(k).subtract(n, 'day')] add and subtract [n], and
    [new Date(k).getTime()] is the day number times the number of
    milliseconds in a day (a date-only ISO string is parsed as UTC midnight).
    [undefined] array elements are [None]. *)

From Stdlib Require Import ZArith Lia Bool Ascii.
From stdpp Require Import base list strings pretty gmap.

#[local] Open Scope Z_scope.

(** ** utils/dateUtils.js *)

Module DateUtils.

Definition DayKey : Type := Z.

(** [24 * 60 * 60 * 1000] *)
Definition MS_PER_DAY : Z := 24 * 60 * 60 * 1000.

(** [new Date(key).getTime()] *)
Definition getTime (key : DayKey) : Z := key * MS_PER_DAY.

(** [new Date(ms).toISOString().split('T')[0]]: the UTC day that contains
    the instant [ms]. *)
Definition toISODate (ms : Z) : DayKey := ms / MS_PER_DAY.

(** [dayjs(key).add(n, 'day').format('YYYY-MM-DD')] *)
Definition addDays (key : DayKey) (n : Z) : DayKey := key + n.

(** [dayjs(key).subtract(n, 'day').format('YYYY-MM-DD')] *)
Definition subtractDays (key : DayKey) (n : Z) : DayKey := key - n.

(** The loop [for (let i = 0; i < days; i++) dates.push(start.add(i, 'day'))]
    with [left] iterations still to run and loop counter [i]. *)
Fixpoint generateDateRange_loop (start : DayKey) (i : Z) (left : nat) : list DayKey :=
  match left with
  | O => []
  | S left' => addDays start i :: generateDateRange_loop start (i + 1) left'
  end.

(** [generateDateRange(days, startDate)]; when the caller passes no start
    date the program takes today's date, which is the [start] given here. *)
Definition generateDateRange (days : Z) (start : DayKey) : list DayKey :=
  generateDateRange_loop start 0 (Z.to_nat days).

(** [Array.prototype.findIndex]: index of the first element satisfying [p],
    or [-1]. *)
Fixpoint findIndex_from {A : Type} (p : A → bool) (l : list A) (i : Z) : Z :=
  match l with
  | [] => -1
  | x :: l' => if p x then i else findIndex_from p l' (i + 1)
  end.

Definition findIndex {A : Type} (p : A → bool) (l : list A) : Z :=
  findIndex_from p l 0.

(** [getDateIndex(dateStr, dates) = dates.findIndex(d => d === dateStr)] *)
Definition getDateIndex (dateStr : DayKey) (dates : list DayKey) : Z :=
  findIndex (fun d => d =? dateStr) dates.

(** [dates.indexOf(dateStr)] (strict equality, first match, [-1] if none). *)
Definition indexOf (dates : list DayKey) (dateStr : DayKey) : Z :=
  findIndex (fun d => d =? dateStr) dates.

(** [dates[i]] for an integer [i]: [undefined] outside the array. *)
Definition at_index {A : Type} (l : list A) (i : Z) : option A :=
  if i <? 0 then None else l !! Z.to_nat i.

(** [dates.length] *)
Definition len {A : Type} (l : list A) : Z := Z.of_nat (length l).

(** [a < b] and [a > b] where [b] may be [undefined]: a comparison with
    [undefined] is [false]. *)
Definition lt_undef (a : DayKey) (b : option DayKey) : bool :=
  match b with Some b' => a <? b' | None => false end.

Definition gt_undef (a : DayKey) (b : option DayKey) : bool :=
  match b with Some b' => b' <? a | None => false end.

(** [a === b] where either side may be [undefined]. *)
Definition eq_undef (a b : option DayKey) : bool :=
  match a, b with
  | Some a', Some b' => a' =? b'
  | None, None => true
  | _, _ => false
  end.

End DateUtils.

(** ** The data model

    Each record lives in a module of its own so that the fields keep the
    names they have in the program ([id], [name], [startDate], ...). *)

(** A booking.  [booking_id] is the result of [booking.booking_id.toString()];
    it is [None] when the field is absent (bookings created through
    [handleBookingCreate] of [app/page.js] carry [id] but no [booking_id]),
    in which case the method call throws. *)
Module Booking.
Record t : Type := mk {
  id : string;
  booking_id : option string;
  resourceId : string;
  startDate : DateUtils.DayKey;
  endDate : DateUtils.DayKey;
  text : string;
  notes : string
}.
End Booking.

(** A leaf resource [{ id, name }]. *)
Module Resource.
Record t : Type := mk {
  id : string;
  name : string
}.
End Resource.

(** A resource group [{ id, name, expanded, children }]; [children] is
    [None] when the field is absent. *)
Module ResourceGroup.
Record t : Type := mk {
  id : string;
  name : string;
  expanded : bool;
  children : option (list Resource.t)
}.
End ResourceGroup.

(** The range selection [{ resourceId, startDate, endDate }]. *)
Module Selection.
Record t : Type := mk {
  resourceId : string;
  startDate : DateUtils.DayKey;
  endDate : DateUtils.DayKey
}.
End Selection.

(** ** Booking layout *)

Module Layout.
Import DateUtils.

(** What [BookingBlock] renders: the clipped column indices and the pixel
    geometry of the block. *)
Record Block : Type := mkBlock {
  visibleStartIndex : Z;
  visibleEndIndex : Z;
  left_px : Z;
  span : Z;
  width_px : Z
}.

(** [components/BookingBlock.jsx], lines 130-151.  [None] is [return null]. *)
Definition BookingBlock (booking : Booking.t) (dates : list DayKey) (cellWidth : Z)
  : option Block :=
  let displayEndDate := subtractDays (Booking.endDate booking) 1 in
  let startIndex := getDateIndex (Booking.startDate booking) dates in
  let endIndex := getDateIndex displayEndDate dates in
  let bookingStartsBeforeRange :=
    (startIndex =? -1) && lt_undef (Booking.startDate booking) (at_index dates 0) in
  let bookingEndsAfterRange :=
    (endIndex =? -1) && gt_undef displayEndDate (at_index dates (len dates - 1)) in
  let bookingSpansEntireRange := bookingStartsBeforeRange && bookingEndsAfterRange in
  let bookingOverlapsRange :=
    negb (startIndex =? -1) || negb (endIndex =? -1) || bookingSpansEntireRange in
  if negb bookingOverlapsRange then None
  else
    let visibleStartIndex := Z.max 0 (if startIndex =? -1 then 0 else startIndex) in
    let visibleEndIndex :=
      Z.min (len dates - 1) (if endIndex =? -1 then len dates - 1 else endIndex) in
    let left := visibleStartIndex * cellWidth in
    let span := visibleEndIndex - visibleStartIndex + 1 in
    let width := span * cellWidth in
    Some (mkBlock visibleStartIndex visibleEndIndex left span width).

(** The earlier [BookingBlock] that the repository still carries as a
    source file of its own (lines 24-36 there; the same text is kept as a
    comment block at the head of [components/BookingBlock.jsx]): the indices
    are those of [startDate] and [endDate] themselves. *)
Definition BookingBlock_legacy (booking : Booking.t) (dates : list DayKey) (cellWidth : Z)
  : option Block :=
  let startIndex := getDateIndex (Booking.startDate booking) dates in
  let endIndex := getDateIndex (Booking.endDate booking) dates in
  if (startIndex =? -1) && (endIndex =? -1) then None
  else
    let visibleStartIndex := Z.max 0 startIndex in
    let visibleEndIndex := Z.min (len dates - 1) endIndex in
    let left := visibleStartIndex * cellWidth in
    let span := visibleEndIndex - visibleStartIndex + 1 in
    let width := span * cellWidth in
    Some (mkBlock visibleStartIndex visibleEndIndex left span width).

(** The columns a block lies on: [span] columns from [visibleStartIndex]
    (the block starts at pixel [visibleStartIndex * cellWidth] and is
    [span * cellWidth] pixels wide). *)
Definition covers (blk : Block) (column : Z) : bool :=
  (visibleStartIndex blk <=? column) && (column <? visibleStartIndex blk + span blk).

(** The date columns a booking lies on in the row-based rendering. *)
Definition row_covers (dates : list DayKey) (cellWidth : Z) (booking : Booking.t)
    (column : Z) : Prop :=
  ∃ blk, BookingBlock booking dates cellWidth = Some blk ∧ covers blk column = true.

(** The same for the earlier [BookingBlock]. *)
Definition legacy_covers (dates : list DayKey) (cellWidth : Z) (booking : Booking.t)
    (column : Z) : Prop :=
  ∃ blk, BookingBlock_legacy booking dates cellWidth = Some blk
         ∧ covers blk column = true.

(** What [GridBookingCell] renders inside the grid cell that hosts it:
    the clipped indices, [duration] and [width = duration * cellWidth] (the
    element is styled [width - 2] pixels wide). *)
Record GridBlock : Type := mkGridBlock {
  visibleStartIdx : Z;
  visibleEndIdx : Z;
  duration : Z;
  grid_width : Z
}.

(** [GridBookingCell]: same rule as [BookingBlock], with the last occupied
    day computed through [Date] arithmetic in milliseconds. *)
Definition GridBookingCell (booking : Booking.t) (dates : list DayKey) (cellWidth : Z)
  : option GridBlock :=
  let displayEndDate := toISODate (getTime (Booking.endDate booking) - 24 * 60 * 60 * 1000) in
  let startIdx := indexOf dates (Booking.startDate booking) in
  let endIdx := indexOf dates displayEndDate in
  let bookingStartsBeforeRange :=
    (startIdx =? -1) && lt_undef (Booking.startDate booking) (at_index dates 0) in
  let bookingEndsAfterRange :=
    (endIdx =? -1) && gt_undef displayEndDate (at_index dates (len dates - 1)) in
  let bookingSpansEntireRange := bookingStartsBeforeRange && bookingEndsAfterRange in
  let bookingOverlapsRange :=
    negb (startIdx =? -1) || negb (endIdx =? -1) || bookingSpansEntireRange in
  if negb bookingOverlapsRange then None
  else
    let visibleStartIdx := Z.max 0 (if startIdx =? -1 then 0 else startIdx) in
    let visibleEndIdx :=
      Z.min (len dates - 1) (if endIdx =? -1 then len dates - 1 else endIdx) in
    let duration := visibleEndIdx - visibleStartIdx + 1 in
    let width := duration * cellWidth in
    Some (mkGridBlock visibleStartIdx visibleEndIdx duration width).

(** [cellRenderer] of [components/VirtualizedScheduler.jsx], lines 199-232:
    the second [filter] (does the booking overlap the window). *)
Definition cellFilter_overlaps (dates : list DayKey) (booking : Booking.t) : bool :=
  let displayEndDate := toISODate (getTime (Booking.endDate booking) - 24 * 60 * 60 * 1000) in
  let startIdx := indexOf dates (Booking.startDate booking) in
  let endIdx := indexOf dates displayEndDate in
  let bookingStartsBeforeRange :=
    (startIdx =? -1) && lt_undef (Booking.startDate booking) (at_index dates 0) in
  let bookingEndsAfterRange :=
    (endIdx =? -1) && gt_undef displayEndDate (at_index dates (len dates - 1)) in
  let bookingSpansEntireRange := bookingStartsBeforeRange && bookingEndsAfterRange in
  let bookingOverlapsRange :=
    negb (startIdx =? -1) || negb (endIdx =? -1) || bookingSpansEntireRange in
  bookingOverlapsRange.

(** The third [filter]: the cell of date [date] is the first visible day of
    the booking. *)
Definition cellFilter_firstVisible (dates : list DayKey) (date : option DayKey)
    (booking : Booking.t) : bool :=
  let startIdx := indexOf dates (Booking.startDate booking) in
  let visibleStartIdx := Z.max 0 (if startIdx =? -1 then 0 else startIdx) in
  eq_undef (at_index dates visibleStartIdx) date.

(** The bookings [cellRenderer] draws in the timeline cell of row [rowId]
    and grid column [columnIndex] (grid column 0 is the resource column, so
    the cell shows [dates[columnIndex - 1]]), each with what
    [GridBookingCell] renders for it. *)
Definition cellRenderer_bookings (dates : list DayKey) (bookings : list Booking.t)
    (cellWidth : Z) (rowId : string) (columnIndex : Z)
  : list (Booking.t * option GridBlock) :=
  let date := at_index dates (columnIndex - 1) in
  map (fun booking => (booking, GridBookingCell booking dates cellWidth))
    (List.filter (cellFilter_firstVisible dates date)
       (List.filter (cellFilter_overlaps dates)
          (List.filter (fun b => String.eqb (Booking.resourceId b) rowId) bookings))).

(** The date columns (0-based, as in [dates]) a booking lies on in the grid:
    it is drawn in the cell of date column [c0] and is [duration] columns
    wide from there. *)
Definition grid_covers (dates : list DayKey) (bookings : list Booking.t)
    (cellWidth : Z) (booking : Booking.t) (column : Z) : Prop :=
  ∃ c0 g,
    (booking, Some g) ∈ cellRenderer_bookings dates bookings cellWidth
                          (Booking.resourceId booking) (c0 + 1)
    ∧ 0 ≤ c0 < len dates
    ∧ c0 ≤ column < c0 + duration g.

End Layout.

(** ** JavaScript strings *)

Module JsString.

#[local] Open Scope nat_scope.

(** [if (s)]: a string is truthy when it is not empty. *)
Definition truthy (s : string) : bool :=
  match s with
  | EmptyString => false
  | String _ _ => true
  end.

(** Lower-casing of one character: ['A'..'Z'] go to ['a'..'z'], every other
    byte is kept (strings are taken as sequences of 8-bit characters; the
    case mapping of characters outside ASCII is not modelled). *)
Definition lower_char (c : ascii) : ascii :=
  let n := nat_of_ascii c in
  if (65 <=? n) && (n <=? 90) then ascii_of_nat (n + 32) else c.

(** [s.toLowerCase()] *)
Fixpoint toLowerCase (s : string) : string :=
  match s with
  | EmptyString => EmptyString
  | String c s' => String (lower_char c) (toLowerCase s')
  end.

(** [s.includes(sub)]: [sub] occurs in [s] at some position. *)
Fixpoint includes (s sub : string) : bool :=
  String.prefix sub s
  || match s with
     | EmptyString => false
     | String _ s' => includes s' sub
     end.

End JsString.

(** ** Filtering and flattening: [visibleRows] *)

Module Rows.
Import DateUtils JsString.

(** A visible row: [{ ...parent, type: 'parent' }] carries every field of
    the group it was made from; [{ ...child, parentId, type: 'child' }]
    carries the fields of the child and the id of its group. *)
Inductive VisibleRow : Type :=
| ParentRow (parent : ResourceGroup.t)
| ChildRow (child : Resource.t) (parentId : string).

(** [parent.children || []] *)
Definition children_or_empty (parent : ResourceGroup.t) : list Resource.t :=
  match ResourceGroup.children parent with
  | Some cs => cs
  | None => []
  end.

(** [bookings.filter(booking =>
       booking.booking_id.toString().includes(selectedBookingId))].
    The callback runs on every booking; it throws on one without
    [booking_id], and then the whole computation fails ([None]). *)
Fixpoint matchingBookings (selectedBookingId : string) (bookings : list Booking.t)
  : option (list Booking.t) :=
  match bookings with
  | [] => Some []
  | booking :: rest =>
      match Booking.booking_id booking with
      | None => None
      | Some s =>
          match matchingBookings selectedBookingId rest with
          | None => None
          | Some kept =>
              Some (if includes s selectedBookingId then booking :: kept else kept)
          end
      end
  end.

(** [new Set(matchingBookings.map(b => b.resourceId))] *)
Definition matchingResourceIds (matching : list Booking.t) : gset string :=
  list_to_set (map Booking.resourceId matching).

(** [resources.map(parent => ({ ...parent, expanded: true,
       children: (parent.children || []).filter(child =>
         matchingResourceIds.has(child.id)) }))
     .filter(parent => parent.children.length > 0)].
    The [map] always sets [children], so the [None] case of the length test
    is never reached. *)
Definition filterByBookingId (ids : gset string) (resources : list ResourceGroup.t)
  : list ResourceGroup.t :=
  List.filter
    (fun parent =>
       match ResourceGroup.children parent with
       | Some cs => (0 <? len cs)%Z
       | None => false
       end)
    (map
       (fun parent =>
          ResourceGroup.mk (ResourceGroup.id parent) (ResourceGroup.name parent) true
            (Some (List.filter (fun child => bool_decide (Resource.id child ∈ ids))
                     (children_or_empty parent))))
       resources).

(** [filteredResources.filter(parent => parentMatches || childMatches)] *)
Definition filterBySearchTerm (searchTerm : string) (resources : list ResourceGroup.t)
  : list ResourceGroup.t :=
  List.filter
    (fun parent =>
       let parentMatches :=
         includes (toLowerCase (ResourceGroup.name parent)) (toLowerCase searchTerm) in
       let childMatches :=
         existsb
           (fun child =>
              includes (toLowerCase (Resource.name child)) (toLowerCase searchTerm))
           (children_or_empty parent) in
       parentMatches || childMatches)
    resources.

(** The callback of the final [flatMap]. *)
Definition rowsOfParent (searchTerm : string) (parent : ResourceGroup.t)
  : list VisibleRow :=
  let parentRow := ParentRow parent in
  if negb (ResourceGroup.expanded parent) then [parentRow]
  else
    let children :=
      map (fun child => ChildRow child (ResourceGroup.id parent))
        (List.filter
           (fun child =>
              negb (truthy searchTerm)
              || includes (toLowerCase (Resource.name child)) (toLowerCase searchTerm))
           (children_or_empty parent)) in
    parentRow :: children.

(** [visibleRows] of [components/VirtualizedScheduler.jsx], lines 32-70, as
    a function of the values the memo depends on.  [None]: the computation
    threw. *)
Definition visibleRows (resources : list ResourceGroup.t) (bookings : list Booking.t)
    (searchTerm selectedBookingId : string) : option (list VisibleRow) :=
  match
    (if truthy selectedBookingId then
       match matchingBookings selectedBookingId bookings with
       | None => None
       | Some matching =>
           Some (filterByBookingId (matchingResourceIds matching) resources)
       end
     else Some resources)
  with
  | None => None
  | Some filteredResources =>
      let filteredResources :=
        if truthy searchTerm then filterBySearchTerm searchTerm filteredResources
        else filteredResources in
      Some (flat_map (rowsOfParent searchTerm) filteredResources)
  end.

(** The two filter inputs of the component, and the actions of the filter
    bar on them ([setSearchTerm], [setSelectedBookingId], and
    [onClearFilters], which sets both to the empty string).  The resource
    tree and the bookings are props: no filter action touches them. *)
Record FilterState : Type := mkFilterState {
  searchTerm : string;
  selectedBookingId : string
}.

Inductive FilterAction : Type :=
| SetSearchTerm (s : string)
| SetSelectedBookingId (s : string)
| ClearFilters.

Definition applyFilterAction (st : FilterState) (a : FilterAction) : FilterState :=
  match a with
  | SetSearchTerm s => mkFilterState s (selectedBookingId st)
  | SetSelectedBookingId s => mkFilterState (searchTerm st) s
  | ClearFilters => mkFilterState "" ""
  end.

Definition visibleRows_in (resources : list ResourceGroup.t) (bookings : list Booking.t)
    (st : FilterState) : option (list VisibleRow) :=
  visibleRows resources bookings (searchTerm st) (selectedBookingId st).

(** The unfiltered flattening as the design describes it: for each group in
    order, emit a parent row; if [expanded] is false, emit nothing further
    for that group; if true, emit one child row per child, in order, tagged
    with the parent's id.  An absent [children] field counts as no
    children. *)
Fixpoint spec_flatten (groups : list ResourceGroup.t) : list VisibleRow :=
  match groups with
  | [] => []
  | g :: rest =>
      ParentRow g
      :: (if ResourceGroup.expanded g
          then map (fun c => ChildRow c (ResourceGroup.id g))
                 (match ResourceGroup.children g with Some cs => cs | None => [] end)
          else [])
      ++ spec_flatten rest
  end.

(** The child rows that directly follow the head of [rows]. *)
Fixpoint leadingChildren (rows : list VisibleRow) : list VisibleRow :=
  match rows with
  | ChildRow c p :: rest => ChildRow c p :: leadingChildren rest
  | _ => []
  end.

(** The child rows shown under the group [g]: those that follow the first
    parent row made from a group with the id of [g]. *)
Fixpoint childRowsOf (gid : string) (rows : list VisibleRow) : list VisibleRow :=
  match rows with
  | [] => []
  | ParentRow p :: rest =>
      if String.eqb (ResourceGroup.id p) gid then leadingChildren rest
      else childRowsOf gid rest
  | ChildRow _ _ :: rest => childRowsOf gid rest
  end.

(** Every parent row of [rows] is immediately followed by a child row. *)
Definition parentsFollowedByChild (rows : list VisibleRow) : Prop :=
  ∀ (i : nat) p, rows !! i = Some (ParentRow p) →
    ∃ c pid, rows !! S i = Some (ChildRow c pid).

(** The booking's stringified [booking_id] contains [selectedBookingId]. *)
Definition bookingMatches (selectedBookingId : string) (booking : Booking.t) : Prop :=
  ∃ s, Booking.booking_id booking = Some s ∧ includes s selectedBookingId = true.

(** Some child of the group has a name that contains the search term,
    case-insensitively. *)
Definition someChildMatches (searchTerm : string) (parent : ResourceGroup.t) : bool :=
  existsb
    (fun child => includes (toLowerCase (Resource.name child)) (toLowerCase searchTerm))
    (children_or_empty parent).

End Rows.

(** ** Range selection: the pointer handlers of
       [components/VirtualizedScheduler.jsx] *)

Module Scheduler.
Import DateUtils.

(** The state the handlers read and write: the refs [mouseDownRef],
    [startDateRef], [startResourceIdRef], the React state [selection],
    [selectedBooking], [isSelecting], [modalOpen], and the number of
    [setTimeout(() => setModalOpen(true), 80)] callbacks scheduled and not
    yet run.  The handlers are taken after the re-render that follows each
    state update, so each one sees the current state. *)
Record State : Type := mkState {
  mouseDownRef : bool;
  startDateRef : option DayKey;
  startResourceIdRef : option string;
  selection : option Selection.t;
  selectedBooking : option Booking.t;
  isSelecting : bool;
  modalOpen : bool;
  pendingModalTimers : nat
}.

(** The state of a freshly mounted component. *)
Definition initialState : State :=
  mkState false None None None None false false 0.

(** [handleCellMouseDown(date, resourceId, e)], lines 72-80. *)
Definition handleCellMouseDown (date : DayKey) (resourceId : string) (st : State) : State :=
  mkState true (Some date) (Some resourceId)
    (Some (Selection.mk resourceId date date))
    (selectedBooking st) true (modalOpen st) (pendingModalTimers st).

(** [resourceId !== startResourceIdRef.current] *)
Definition differs_from_ref (resourceId : string) (ref : option string) : bool :=
  match ref with
  | Some r => negb (String.eqb resourceId r)
  | None => true
  end.

(** [handleCellMouseEnter(date, resourceId)], lines 82-87. *)
Definition handleCellMouseEnter (date : DayKey) (resourceId : string) (st : State) : State :=
  if negb (mouseDownRef st) || negb (isSelecting st) then st
  else if differs_from_ref resourceId (startResourceIdRef st) then st
  else
    mkState (mouseDownRef st) (startDateRef st) (startResourceIdRef st)
      (match selection st with
       | Some prev =>
           Some (Selection.mk (Selection.resourceId prev) (Selection.startDate prev) date)
       | None => None
       end)
      (selectedBooking st) (isSelecting st) (modalOpen st) (pendingModalTimers st).

(** [onMouseUp], lines 104-120, for the date window [dates]: nothing
    happens when [!mouseDownRef.current || !selection]. *)
Definition onMouseUp (dates : list DayKey) (st : State) : State :=
  match negb (mouseDownRef st), selection st with
  | false, Some sel =>
      let startIdx := getDateIndex (Selection.startDate sel) dates in
      let endIdx := getDateIndex (Selection.endDate sel) dates in
      mkState false (startDateRef st) (startResourceIdRef st)
        (Some (Selection.mk (Selection.resourceId sel)
                 (if startIdx <=? endIdx then Selection.startDate sel
                  else Selection.endDate sel)
                 (if startIdx <=? endIdx then Selection.endDate sel
                  else Selection.startDate sel)))
        (selectedBooking st) false (modalOpen st) (S (pendingModalTimers st))
  | _, _ => st
  end.

(** One scheduled [() => setModalOpen(true)] runs. *)
Definition modalTimerFires (st : State) : State :=
  match pendingModalTimers st with
  | O => st
  | S n =>
      mkState (mouseDownRef st) (startDateRef st) (startResourceIdRef st)
        (selection st) (selectedBooking st) (isSelecting st) true n
  end.

(** [handleModalClose], lines 126-132. *)
Definition handleModalClose (st : State) : State :=
  mkState false (startDateRef st) (startResourceIdRef st) None None false false
    (pendingModalTimers st).

End Scheduler.

(** ** Drag relocation: the handlers of the scheduler variant with
       drag-and-drop *)

Module Drag.
Import DateUtils JsString.

(** [{ date, resourceId }] *)
Record DropTarget : Type := mkDropTarget {
  date : DayKey;
  resourceId : string
}.

(** [{ isDragging, draggedBooking, dragOffset: { x, y }, dropTarget }] *)
Record DragState : Type := mkDragState {
  isDragging : bool;
  draggedBooking : option Booking.t;
  dragOffset : Z * Z;
  dropTarget : option DropTarget
}.

(** The state every path of the handlers resets to. *)
Definition idleDragState : DragState := mkDragState false None (0, 0) None.

(** [handleBookingDragStart(booking, e)] *)
Definition handleBookingDragStart (booking : Booking.t) : DragState :=
  mkDragState true (Some booking) (0, 0) None.

(** The [to] object of the ['Booking moved:'] message. *)
Record MovedTo : Type := mkMovedTo {
  to_resourceId : string;
  to_startDate : DayKey;
  to_endDate : DayKey
}.

(** [Math.ceil(x / d)] for integers [x] and [d > 0]. *)
Definition ceil_div (x d : Z) : Z := - ((- x) / d).

(** [handleBookingDragEnd(targetDate, targetResourceId)], lines 188-218.
    [targetDate] is [None] when the argument is falsy.  The result is the
    ['Booking moved:'] message ([from], [to]) if one is written, and the new
    drag state. *)
Definition handleBookingDragEnd (dragState : DragState)
    (targetDate : option DayKey) (targetResourceId : string)
  : option (Booking.t * MovedTo) * DragState :=
  if negb (isDragging dragState) then (None, dragState)
  else
    match draggedBooking dragState with
    | None => (None, dragState)
    | Some draggedBooking =>
        let moved :=
          match targetDate with
          | Some targetDate =>
              if truthy targetResourceId then
                let startDate := getTime (Booking.startDate draggedBooking) in
                let endDate := getTime (Booking.endDate draggedBooking) in
                let duration := ceil_div (endDate - startDate) (1000 * 60 * 60 * 24) in
                let newStartDate := targetDate in
                let newEndDate :=
                  toISODate (getTime targetDate + duration * 24 * 60 * 60 * 1000) in
                Some (draggedBooking, mkMovedTo targetResourceId newStartDate newEndDate)
              else None
          | None => None
          end in
        (moved, idleDragState)
    end.

(** The drag branch of [onMouseUp], lines 235-266: the drop target recorded
    during the move, or else the date cell found under the pointer at
    release ([underPointer], [None] if there is none), decides. *)
Definition onMouseUp_dragging (dragState : DragState) (underPointer : option DropTarget)
  : option (Booking.t * MovedTo) * DragState :=
  let finalDropTarget :=
    match dropTarget dragState with
    | Some t => Some t
    | None => underPointer
    end in
  match finalDropTarget with
  | Some t => handleBookingDragEnd dragState (Some (date t)) (resourceId t)
  | None => (None, idleDragState)
  end.

End Drag.

(** ** Expand / collapse *)

Module Expand.

(** [handleToggleExpand(parentId)] of [components/VirtualizedScheduler.jsx],
    lines 95-101: the tree handed to [onResourcesChange], which the page
    stores as the new [resources]. *)
Definition handleToggleExpand (parentId : string) (resources : list ResourceGroup.t)
  : list ResourceGroup.t :=
  map
    (fun r =>
       if String.eqb (ResourceGroup.id r) parentId
       then ResourceGroup.mk (ResourceGroup.id r) (ResourceGroup.name r)
              (negb (ResourceGroup.expanded r)) (ResourceGroup.children r)
       else r)
    resources.

End Expand.

(** ** How a selection is shown: [SelectionOverlay], [isDateInSelection] and
       their use in [components/ResourceRow.jsx] *)

Module SelectionView.
Import DateUtils.

(** What [SelectionOverlay] renders. *)
Record Overlay : Type := mkOverlay {
  minIndex : Z;
  maxIndex : Z;
  overlay_span : Z;
  overlay_left : Z;
  overlay_width : Z
}.

(** [SelectionOverlay({ selection, dates, cellWidth })].  The guard
    [!selection.startDate || !selection.endDate] never fires on day keys,
    which are non-empty strings. *)
Definition SelectionOverlay (selection : option Selection.t) (dates : list DayKey)
    (cellWidth : Z) : option Overlay :=
  match selection with
  | None => None
  | Some selection =>
      let startIndex := getDateIndex (Selection.startDate selection) dates in
      let endIndex := getDateIndex (Selection.endDate selection) dates in
      if (startIndex =? -1) || (endIndex =? -1) then None
      else
        let minIndex := Z.min startIndex endIndex in
        let maxIndex := Z.max startIndex endIndex in
        let span := maxIndex - minIndex + 1 in
        let left := minIndex * cellWidth in
        let width := span * cellWidth in
        Some (mkOverlay minIndex maxIndex span left width)
  end.

(** [[a, b].sort()] on two day keys: the default sort compares strings and
    is stable. *)
Definition sort2 (a b : DayKey) : DayKey * DayKey :=
  if b <? a then (b, a) else (a, b).

(** [isDateInSelection(date, selection)] of [components/ResourceRow.jsx],
    lines 83-88. *)
Definition isDateInSelection (date : DayKey) (selection : option Selection.t) : bool :=
  match selection with
  | None => false
  | Some selection =>
      let dates := sort2 (Selection.startDate selection) (Selection.endDate selection) in
      (fst dates <=? date) && (date <=? snd dates)
  end.

(** [hasSelection = selection && selection.resourceId === resource.id] *)
Definition hasSelection (resourceId : string) (selection : option Selection.t) : bool :=
  match selection with
  | None => false
  | Some selection => String.eqb (Selection.resourceId selection) resourceId
  end.

(** The [isSelected] prop [ResourceRow] gives the [DateCell] of [date]. *)
Definition cell_isSelected (resourceId : string) (selection : option Selection.t)
    (date : DayKey) : bool :=
  hasSelection resourceId selection && isDateInSelection date selection.

(** The overlay [ResourceRow] draws: [hasSelection && <SelectionOverlay/>]. *)
Definition row_overlay (resourceId : string) (selection : option Selection.t)
    (dates : list DayKey) (cellWidth : Z) : option Overlay :=
  if hasSelection resourceId selection then SelectionOverlay selection dates cellWidth
  else None.

(** [daysBetween(startDate, endDate)] of [utils/dateUtils.js], lines 41-43:
    [dayjs(endDate).diff(dayjs(startDate), 'day') + 1]. *)
Definition daysBetween (startDate endDate : DayKey) : Z := (endDate - startDate) + 1.

End SelectionView.

(** ** The booking form: [components/BookingModal.jsx] and its wiring in
       [components/VirtualizedScheduler.jsx] and [app/page.js] *)

(** The object [BookingModal] hands to [onConfirm]:
    [{ ...(booking || {}), resourceId, startDate, endDate, text, notes }].
    [id] and [booking_id] are present only when an existing booking is
    spread into it. *)
Module BookingData.
Record t : Type := mk {
  id : option string;
  booking_id : option string;
  resourceId : string;
  startDate : DateUtils.DayKey;
  endDate : DateUtils.DayKey;
  text : string;
  notes : string
}.
End BookingData.

Module Modal.
Import DateUtils JsString Rows Scheduler.

(** White space removed by [String.prototype.trim], among 8-bit characters
    below 128: tab, line feed, vertical tab, form feed, carriage return and
    space. *)
Definition isWhiteSpace (c : ascii) : bool :=
  let n := nat_of_ascii c in
  ((9 <=? n) && (n <=? 13))%nat || (n =? 32)%nat.

Fixpoint trimStart (s : string) : string :=
  match s with
  | EmptyString => EmptyString
  | String c s' => if isWhiteSpace c then trimStart s' else s
  end.

Fixpoint trimEnd (s : string) : string :=
  match s with
  | EmptyString => EmptyString
  | String c s' =>
      match trimEnd s' with
      | EmptyString => if isWhiteSpace c then EmptyString else String c EmptyString
      | t => String c t
      end
  end.

(** [s.trim()] *)
Definition trim (s : string) : string := trimEnd (trimStart s).

(** [modalData = booking || selection], read through the three fields the
    form uses: [resourceId], [startDate], [endDate]. *)
Definition modalData (booking : option Booking.t) (selection : option Selection.t)
  : option (string * DayKey * DayKey) :=
  match booking with
  | Some b => Some (Booking.resourceId b, Booking.startDate b, Booking.endDate b)
  | None =>
      match selection with
      | Some s =>
          Some (Selection.resourceId s, Selection.startDate s, Selection.endDate s)
      | None => None
      end
  end.

(** The form is drawn unless [!isOpen || !modalData || !resource]. *)
Definition rendered (isOpen : bool) (booking : option Booking.t)
    (selection : option Selection.t) (resource : option VisibleRow) : bool :=
  isOpen
  && (match modalData booking selection with Some _ => true | None => false end)
  && (match resource with Some _ => true | None => false end).

(** [dayCount = daysBetween(modalData.startDate, modalData.endDate)] *)
Definition dayCount (booking : option Booking.t) (selection : option Selection.t)
  : option Z :=
  match modalData booking selection with
  | Some (_, startDate, endDate) => Some (SelectionView.daysBetween startDate endDate)
  | None => None
  end.

(** [handleConfirm], lines 37-50: what is handed to [onConfirm], if
    anything ([onClose] is called right after, in the same case). *)
Definition handleConfirm (booking : option Booking.t) (selection : option Selection.t)
    (bookingName notes : string) : option BookingData.t :=
  if truthy (trim bookingName) then
    match modalData booking selection with
    | Some (resourceId, startDate, endDate) =>
        Some (BookingData.mk
                (match booking with Some b => Some (Booking.id b) | None => None end)
                (match booking with Some b => Booking.booking_id b | None => None end)
                resourceId startDate endDate bookingName notes)
    | None => None
    end
  else None.

(** [row.id] of a visible row. *)
Definition rowId (r : VisibleRow) : string :=
  match r with
  | ParentRow p => ResourceGroup.id p
  | ChildRow c _ => Resource.id c
  end.

(** [selectedBooking?.resourceId || selection?.resourceId] *)
Definition shownResourceId (selectedBooking : option Booking.t)
    (selection : option Selection.t) : option string :=
  match selectedBooking with
  | Some b =>
      if truthy (Booking.resourceId b) then Some (Booking.resourceId b)
      else
        match selection with
        | Some s => Some (Selection.resourceId s)
        | None => None
        end
  | None =>
      match selection with
      | Some s => Some (Selection.resourceId s)
      | None => None
      end
  end.

(** The [resource] prop:
    [visibleRows.find(r => r.id === (selectedBooking?.resourceId
                                     || selection?.resourceId))]. *)
Definition shownResource (rows : list VisibleRow) (selectedBooking : option Booking.t)
    (selection : option Selection.t) : option VisibleRow :=
  match shownResourceId selectedBooking selection with
  | Some rid => List.find (fun r => String.eqb (rowId r) rid) rows
  | None => None
  end.

(** [handleBookingClick(booking)] of [components/VirtualizedScheduler.jsx],
    lines 89-93. *)
Definition handleBookingClick (booking : Booking.t) (st : State) : State :=
  mkState (mouseDownRef st) (startDateRef st) (startResourceIdRef st)
    None (Some booking) (isSelecting st) true (pendingModalTimers st).

(** A press on the confirm button of the drawn form: [handleConfirm], then
    [handleBookingConfirm(data)] ([onBookingCreate?.(data)] followed by
    [handleModalClose()]) and the form's own [onClose()].  The result is
    the data handed to [onBookingCreate], if any, and the new state. *)
Definition confirmPressed (bookingName notes : string) (st : State)
  : option BookingData.t * State :=
  match handleConfirm (selectedBooking st) (selection st) bookingName notes with
  | Some data => (Some data, handleModalClose (handleModalClose st))
  | None => (None, st)
  end.

End Modal.

(** ** [app/page.js] *)

Module Page.
Import Rows.

(** [handleBookingCreate(bookingData)], lines 13-19:
    [{ id: bookings.length + 1, ...bookingData }] appended to the bookings.
    The numeric id is written in decimal; an [id] in [bookingData] takes its
    place. *)
Definition handleBookingCreate (bookings : list Booking.t) (bookingData : BookingData.t)
  : list Booking.t :=
  bookings
  ++ [Booking.mk
        (match BookingData.id bookingData with
         | Some i => i
         | None => pretty (length bookings + 1)%nat
         end)
        (BookingData.booking_id bookingData)
        (BookingData.resourceId bookingData)
        (BookingData.startDate bookingData)
        (BookingData.endDate bookingData)
        (BookingData.text bookingData)
        (BookingData.notes bookingData)].

(** The set [resourceIds] built by the two nested [forEach] of
    [validBookings], lines 74-85. *)
Definition leafIds (resources : list ResourceGroup.t) : gset string :=
  foldl
    (fun acc parent =>
       foldl (fun acc child => {[Resource.id child]} ∪ acc) acc (children_or_empty parent))
    ∅ resources.

(** [validBookings], lines 74-85. *)
Definition validBookings (resourcesLoaded : bool) (resources : list ResourceGroup.t)
    (bookings : list Booking.t) : list Booking.t :=
  if negb resourcesLoaded then []
  else
    let resourceIds := leafIds resources in
    List.filter (fun b => bool_decide (Booking.resourceId b ∈ resourceIds)) bookings.

End Page.

(** ** The booking-ID suggestions of [components/FilterBar.jsx] *)

Module Suggestions.
Import JsString Rows.

(** One suggestion [{ id: booking.booking_id, name, resourceId }]: [id] is
    kept in the string form the click handler passes on
    ([suggestion.id.toString()]); the display label [booking.name ||
    booking.text] is not part of the model. *)
Record Suggestion : Type := mkSuggestion {
  suggestion_id : string;
  suggestion_resourceId : string
}.

(** [bookingSuggestions], lines 7-17.  [None]: the filter callback threw on
    a booking without [booking_id]. *)
Definition bookingSuggestions (selectedBookingId : string) (bookings : list Booking.t)
  : option (list Suggestion) :=
  if negb (truthy selectedBookingId) then Some []
  else
    match matchingBookings selectedBookingId bookings with
    | None => None
    | Some matching =>
        Some (map
                (fun booking =>
                   mkSuggestion
                     (match Booking.booking_id booking with
                      | Some s => s
                      | None => EmptyString (* not reached: the filter kept it *)
                      end)
                     (Booking.resourceId booking))
                (take 10 matching))
    end.

(** A click on a suggestion: [onBookingIdChange(suggestion.id.toString())]. *)
Definition pickSuggestion (s : Suggestion) (st : FilterState) : FilterState :=
  applyFilterAction st (SetSelectedBookingId (suggestion_id s)).

End Suggestions.

(** ** Click or drag: [handleMouseDown] of [components/BookingBlock.jsx] *)

Module ClickOrDrag.

(** What the two document listeners installed by [handleMouseDown] receive:
    a [mousemove] or a [mouseup], with the value of [Date.now()] when the
    listener runs and, for a move, the pointer position.  Positions are
    whole pixels. *)
Inductive Event : Type :=
| MouseMove (now : Z) (clientX clientY : Z)
| MouseUp (now : Z).

(** The callbacks a gesture may invoke. *)
Inductive Callback : Type :=
| BookingDragStart
| BookingClick.

(** The closure of one [handleMouseDown]: [startTime], [startPos], and
    whether its two listeners are still installed. *)
Record Gesture : Type := mkGesture {
  startTime : Z;
  startPos : Z * Z;
  listening : bool
}.

(** [handleMouseDown(e)], lines 153-189, at time [now]. *)
Definition handleMouseDown (now : Z) (clientX clientY : Z) : Gesture :=
  mkGesture now (clientX, clientY) true.

(** [document.removeEventListener] of both listeners. *)
Definition removeListeners (g : Gesture) : Gesture :=
  mkGesture (startTime g) (startPos g) false.

(** [handleMouseMove(moveEvent)].  [distance > 5] for
    [distance = Math.sqrt(dx^2 + dy^2)] is [dx^2 + dy^2 > 25]: on whole
    pixels the sum is exact and the square root is monotone with
    [Math.sqrt(25) = 5]. *)
Definition handleMouseMove (g : Gesture) (now : Z) (clientX clientY : Z)
  : Gesture * list Callback :=
  let timeDiff := now - startTime g in
  let distance2 :=
    (clientX - fst (startPos g)) * (clientX - fst (startPos g))
    + (clientY - snd (startPos g)) * (clientY - snd (startPos g)) in
  if (25 <? distance2) || (200 <? timeDiff)
  then (removeListeners g, [BookingDragStart])
  else (g, []).

(** [handleMouseUp()] *)
Definition handleMouseUp (g : Gesture) (now : Z) : Gesture * list Callback :=
  let timeDiff := now - startTime g in
  (removeListeners g, if timeDiff <? 200 then [BookingClick] else []).

(** One document event reaches the listeners only while they are
    installed. *)
Definition dispatch (g : Gesture) (ev : Event) : Gesture * list Callback :=
  if listening g then
    match ev with
    | MouseMove now x y => handleMouseMove g now x y
    | MouseUp now => handleMouseUp g now
    end
  else (g, []).

(** The callbacks invoked over a sequence of document events. *)
Fixpoint run (g : Gesture) (evs : list Event) : list Callback :=
  match evs with
  | [] => []
  | ev :: evs' =>
      let '(g', out) := dispatch g ev in
      out ++ run g' evs'
  end.

(** A move that stays within both thresholds of the gesture [g]: at most
    5 pixels from the start and at most 200 ms after it. *)
Definition withinThresholds (g : Gesture) (ev : Event) : Prop :=
  match ev with
  | MouseMove now x y =>
      (x - fst (startPos g)) * (x - fst (startPos g))
      + (y - snd (startPos g)) * (y - snd (startPos g)) ≤ 25
      ∧ now - startTime g ≤ 200
  | MouseUp _ => False
  end.

End ClickOrDrag.

(** ** The scheduler variant with drag-and-drop: all pointer handlers
       together *)

Module DragScheduler.
Import DateUtils JsString Scheduler Drag.

(** The selection state of [Scheduler.State], the drag state, and
    [dragStartPosRef]. *)
Record State : Type := mkState {
  sel : Scheduler.State;
  dragState : DragState;
  dragStartPosRef : Z * Z
}.

(** A handler's effect: the new state and the ['Booking moved:'] messages
    it wrote. *)
Definition Result : Type := State * list (Booking.t * MovedTo).

(** [handleCellMouseDown], lines 113-125. *)
Definition handleCellMouseDown (date : DayKey) (resourceId : string) (st : State) : State :=
  mkState (Scheduler.handleCellMouseDown date resourceId (sel st))
    (dragState st) (dragStartPosRef st).

(** [handleCellMouseEnter], lines 127-143. *)
Definition handleCellMouseEnter (date : DayKey) (resourceId : string) (st : State) : State :=
  if isDragging (dragState st) then
    mkState (sel st)
      (mkDragState (isDragging (dragState st)) (draggedBooking (dragState st))
         (dragOffset (dragState st)) (Some (mkDropTarget date resourceId)))
      (dragStartPosRef st)
  else
    mkState (Scheduler.handleCellMouseEnter date resourceId (sel st))
      (dragState st) (dragStartPosRef st).

(** [handleBookingDragStart(booking, e)], lines 148-159. *)
Definition handleBookingDragStart (booking : Booking.t) (clientX clientY : Z)
    (st : State) : State :=
  mkState (sel st) (Drag.handleBookingDragStart booking) (clientX, clientY).

(** [handleBookingDragMove(e)], lines 161-186; [underMouse] is the date
    cell that [document.elementFromPoint(...).closest(...)] finds, if any. *)
Definition handleBookingDragMove (clientX clientY : Z) (underMouse : option DropTarget)
    (st : State) : State :=
  if negb (isDragging (dragState st)) then st
  else
    let deltaX := clientX - fst (dragStartPosRef st) in
    let deltaY := clientY - snd (dragStartPosRef st) in
    mkState (sel st)
      (mkDragState (isDragging (dragState st)) (draggedBooking (dragState st))
         (deltaX, deltaY) underMouse)
      (dragStartPosRef st).

(** [handleBookingClick(booking)], lines 223-228. *)
Definition handleBookingClick (booking : Booking.t) (st : State) : State :=
  if isDragging (dragState st) then st
  else mkState (Modal.handleBookingClick booking (sel st)) (dragState st)
         (dragStartPosRef st).

(** [onMouseUp(e)], lines 234-283. *)
Definition onMouseUp (dates : list DayKey) (underPointer : option DropTarget)
    (st : State) : Result :=
  if isDragging (dragState st) then
    let '(moved, dragState') := onMouseUp_dragging (dragState st) underPointer in
    (mkState (sel st) dragState' (dragStartPosRef st),
     match moved with Some m => [m] | None => [] end)
  else
    (mkState (Scheduler.onMouseUp dates (sel st)) (dragState st) (dragStartPosRef st),
     []).

(** The pointer events of this variant. *)
Inductive Event : Type :=
| CellMouseDown (date : DayKey) (resourceId : string)
| CellMouseEnter (date : DayKey) (resourceId : string)
| BookingMouseDown (booking : Booking.t) (clientX clientY : Z)
| MouseMoved (clientX clientY : Z) (underMouse : option DropTarget)
| BookingClicked (booking : Booking.t)
| MouseReleased (underPointer : option DropTarget).

Definition step (dates : list DayKey) (st : State) (ev : Event) : Result :=
  match ev with
  | CellMouseDown date resourceId => (handleCellMouseDown date resourceId st, [])
  | CellMouseEnter date resourceId => (handleCellMouseEnter date resourceId st, [])
  | BookingMouseDown booking x y => (handleBookingDragStart booking x y st, [])
  | MouseMoved x y underMouse => (handleBookingDragMove x y underMouse st, [])
  | BookingClicked booking => (handleBookingClick booking st, [])
  | MouseReleased underPointer => onMouseUp dates underPointer st
  end.

Fixpoint run (dates : list DayKey) (st : State) (evs : list Event) : Result :=
  match evs with
  | [] => (st, [])
  | ev :: evs' =>
      let '(st', out) := step dates st ev in
      let '(st'', out') := run dates st' evs' in
      (st'', out ++ out')
  end.

(** The events that can occur while the mouse button is held. *)
Definition whileHeld (ev : Event) : bool :=
  match ev with
  | CellMouseEnter _ _ | MouseMoved _ _ _ | BookingClicked _ => true
  | CellMouseDown _ _ | BookingMouseDown _ _ _ | MouseReleased _ => false
  end.

(** The same events on the scheduler without drag-and-drop
    ([components/VirtualizedScheduler.jsx]), which has no handler for
    pointer moves or for a press on a booking. *)
Definition plainStep (dates : list DayKey) (st : Scheduler.State) (ev : Event)
  : Scheduler.State :=
  match ev with
  | CellMouseDown date resourceId => Scheduler.handleCellMouseDown date resourceId st
  | CellMouseEnter date resourceId => Scheduler.handleCellMouseEnter date resourceId st
  | BookingClicked booking => Modal.handleBookingClick booking st
  | MouseReleased _ => Scheduler.onMouseUp dates st
  | BookingMouseDown _ _ _ | MouseMoved _ _ _ => st
  end.

Definition isBookingMouseDown (ev : Event) : bool :=
  match ev with
  | BookingMouseDown _ _ _ => true
  | _ => false
  end.

End DragScheduler.

(** ** The grid cell of the drag-and-drop variant *)

Module LegacyGrid.
Import DateUtils.

(** What the cell draws for one booking: [duration = endIdx - startIdx]
    and [width = duration * cellWidth] (the element is styled [width - 2]
    pixels wide). *)
Record CellBlock : Type := mkCellBlock {
  cell_duration : Z;
  cell_width : Z
}.

(** The bookings drawn in the timeline cell of row [rowId] and grid column
    [columnIndex], lines 401-436:
    [bookings.filter(b => b.resourceId === row.id && b.startDate === date)
             .map(...)]. *)
Definition cellRenderer_bookings (dates : list DayKey) (bookings : list Booking.t)
    (cellWidth : Z) (rowId : string) (columnIndex : Z)
  : list (Booking.t * CellBlock) :=
  let date := at_index dates (columnIndex - 1) in
  map
    (fun booking =>
       let startIdx := indexOf dates (Booking.startDate booking) in
       let endIdx := indexOf dates (Booking.endDate booking) in
       let duration := endIdx - startIdx in
       let width := duration * cellWidth in
       (booking, mkCellBlock duration width))
    (List.filter
       (fun b =>
          String.eqb (Booking.resourceId b) rowId
          && eq_undef (Some (Booking.startDate b)) date)
       bookings).

(** The date columns a booking lies on in this grid: it is drawn in the
    cell of date column [c0] and is [duration] columns wide from there. *)
Definition grid_covers (dates : list DayKey) (bookings : list Booking.t)
    (cellWidth : Z) (booking : Booking.t) (column : Z) : Prop :=
  ∃ c0 blk,
    (booking, blk) ∈ cellRenderer_bookings dates bookings cellWidth
                       (Booking.resourceId booking) (c0 + 1)
    ∧ 0 ≤ c0 < len dates
    ∧ c0 ≤ column < c0 + cell_duration blk.

End LegacyGrid.

(** ** The debounced selection of [OptimizedScheduler] *)

Module Debounced.
Import DateUtils.

(** The refs and state of [OptimizedScheduler].  [pendingEnter] is the date
    captured by the [setTimeout(..., 16)] that [debounceRef.current] names,
    while that timeout has neither run nor been cleared.  Each handler is
    taken to run after the re-render that follows the previous state
    update, so the cleanup of the mouse-up effect, which also clears
    [debounceRef.current], only ever meets a timeout that has already
    run. *)
Record State : Type := mkState {
  mouseDownRef : bool;
  startDateRef : option DayKey;
  startResourceIdRef : option string;
  selection : option Selection.t;
  isSelecting : bool;
  modalOpen : bool;
  pendingEnter : option DayKey;
  pendingModalTimers : nat
}.

(** [handleCellMouseDown], lines 273-285. *)
Definition handleCellMouseDown (date : DayKey) (resourceId : string) (st : State) : State :=
  mkState true (Some date) (Some resourceId)
    (Some (Selection.mk resourceId date date))
    true (modalOpen st) (pendingEnter st) (pendingModalTimers st).

(** [handleCellMouseEnter], lines 251-271: the previous timeout is cleared
    and a new one is scheduled. *)
Definition handleCellMouseEnter (date : DayKey) (resourceId : string) (st : State) : State :=
  if negb (mouseDownRef st) || negb (isSelecting st) then st
  else if Scheduler.differs_from_ref resourceId (startResourceIdRef st) then st
  else
    mkState (mouseDownRef st) (startDateRef st) (startResourceIdRef st)
      (selection st) (isSelecting st) (modalOpen st) (Some date)
      (pendingModalTimers st).

(** The scheduled timeout runs:
    [setSelection(prev => prev ? { ...prev, endDate: date } : null)]. *)
Definition debounceFires (st : State) : State :=
  match pendingEnter st with
  | None => st
  | Some date =>
      mkState (mouseDownRef st) (startDateRef st) (startResourceIdRef st)
        (match selection st with
         | Some prev =>
             Some (Selection.mk (Selection.resourceId prev)
                     (Selection.startDate prev) date)
         | None => None
         end)
        (isSelecting st) (modalOpen st) None (pendingModalTimers st)
  end.

(** [handleMouseUp], lines 289-316. *)
Definition handleMouseUp (dates : list DayKey) (st : State) : State :=
  match mouseDownRef st && isSelecting st, selection st with
  | true, Some sel =>
      let startIndex := getDateIndex (Selection.startDate sel) dates in
      let endIndex := getDateIndex (Selection.endDate sel) dates in
      let finalStartDate :=
        if startIndex <=? endIndex then Selection.startDate sel
        else Selection.endDate sel in
      let finalEndDate :=
        if startIndex <=? endIndex then Selection.endDate sel
        else Selection.startDate sel in
      mkState false (startDateRef st) (startResourceIdRef st)
        (Some (Selection.mk (Selection.resourceId sel) finalStartDate finalEndDate))
        false (modalOpen st) None (S (pendingModalTimers st))
  | _, _ => st
  end.

End Debounced.

(** ** Reading the order of a row list *)

Module RowOrder.
Import Rows.

(** The identity of a row: a parent row by the id of its group, a child row
    by the id of its group and its own id. *)
Definition rowKey (r : VisibleRow) : string + string * string :=
  match r with
  | ParentRow p => inl (ResourceGroup.id p)
  | ChildRow c parentId => inr (parentId, Resource.id c)
  end.

(** The resource tree with every group expanded. *)
Definition expandAll (resources : list ResourceGroup.t) : list ResourceGroup.t :=
  map
    (fun g =>
       ResourceGroup.mk (ResourceGroup.id g) (ResourceGroup.name g) true
         (ResourceGroup.children g))
    resources.

(** [g'] stands for the group [g] with some of its children left out. *)
Definition trimmed (g' g : ResourceGroup.t) : Prop :=
  ResourceGroup.id g' = ResourceGroup.id g
  ∧ children_or_empty g' `sublist_of` children_or_empty g.

(** [gs'] is [gs] with some groups left out and the others trimmed. *)
Inductive subtree : list ResourceGroup.t → list ResourceGroup.t → Prop :=
| subtree_nil : subtree [] []
| subtree_skip g gs' gs : subtree gs' gs → subtree gs' (g :: gs)
| subtree_keep g' g gs' gs :
    trimmed g' g → subtree gs' gs → subtree (g' :: gs') (g :: gs).

End RowOrder.

(** * Properties *)

(** ** The timeline *)

(** Case analysis on every integer comparison in the goal and in the
    hypotheses, then linear arithmetic. *)
Ltac zcases_step :=
  match goal with
  | |- context [?a <=? ?b] => destruct (Z.leb_spec a b)
  | |- context [?a <? ?b] => destruct (Z.ltb_spec a b)
  | |- context [?a =? ?b] => destruct (Z.eqb_spec a b)
  | _ : context [?a <=? ?b] |- _ => destruct (Z.leb_spec a b)
  | _ : context [?a <? ?b] |- _ => destruct (Z.ltb_spec a b)
  | _ : context [?a =? ?b] |- _ => destruct (Z.eqb_spec a b)
  end.

Ltac zcases :=
  cbn [andb orb negb] in *;
  repeat (zcases_step; cbn [andb orb negb] in *; try lia);
  try reflexivity; try lia.

Module DateFacts.
Import DateUtils.

Lemma MS_PER_DAY_pos : 0 < MS_PER_DAY.
Proof. unfold MS_PER_DAY. lia. Qed.

(** Going to milliseconds and back is the identity on day keys. *)
Lemma toISODate_getTime (d : DayKey) : toISODate (getTime d) = d.
Proof.
  unfold toISODate, getTime. apply Z.div_mul. pose proof MS_PER_DAY_pos. lia.
Qed.

(** Shifting an instant at midnight by whole days shifts the day key. *)
Lemma toISODate_shift (d k : Z) :
  toISODate (getTime d + k * MS_PER_DAY) = d + k.
Proof.
  unfold getTime. rewrite <- Z.mul_add_distr_r. apply (toISODate_getTime (d + k)).
Qed.

Lemma toISODate_yesterday (d : DayKey) :
  toISODate (getTime d - 24 * 60 * 60 * 1000) = d - 1.
Proof.
  replace (getTime d - 24 * 60 * 60 * 1000) with (getTime d + (-1) * MS_PER_DAY)
    by (unfold MS_PER_DAY; lia).
  rewrite toISODate_shift. lia.
Qed.

Lemma loop_length (start : DayKey) (left : nat) :
  ∀ i, length (generateDateRange_loop start i left) = left.
Proof. induction left as [|left IH]; intros i; simpl; [reflexivity | by rewrite IH]. Qed.

Lemma loop_lookup (start : DayKey) (left : nat) :
  ∀ i (k : nat), (k < left)%nat →
    generateDateRange_loop start i left !! k = Some (start + (i + Z.of_nat k)).
Proof.
  induction left as [|left IH]; intros i k Hk; [lia |].
  destruct k as [|k]; simpl.
  - unfold addDays. f_equal. lia.
  - rewrite IH by lia. f_equal. lia.
Qed.

Lemma loop_findIndex (start d : DayKey) (left : nat) :
  ∀ i k,
    findIndex_from (fun x => x =? d) (generateDateRange_loop start i left) k
    = if (start + i <=? d) && (d <? start + i + Z.of_nat left)
      then k + (d - (start + i)) else -1.
Proof.
  induction left as [|left IH]; intros i k.
  - cbn [generateDateRange_loop findIndex_from]. zcases.
  - cbn [generateDateRange_loop findIndex_from]. unfold addDays.
    rewrite IH. zcases.
Qed.

(** The window [generateDateRange days start] is [start, start+1, ...,
    start+days-1]: its length, its elements, and the index of a key in it. *)
Lemma len_generateDateRange (days : Z) (start : DayKey) :
  len (generateDateRange days start) = Z.max 0 days.
Proof. unfold len, generateDateRange. rewrite loop_length. lia. Qed.

Lemma at_index_generateDateRange (days : Z) (start : DayKey) (i : Z) :
  at_index (generateDateRange days start) i
  = if (0 <=? i) && (i <? days) then Some (start + i) else None.
Proof.
  unfold at_index, generateDateRange.
  destruct (Z.ltb_spec i 0), (Z.leb_spec 0 i); try lia; cbn [andb]; [reflexivity |].
  destruct (Z.ltb_spec i days).
  - rewrite loop_lookup by lia. f_equal. lia.
  - apply lookup_ge_None. rewrite loop_length. lia.
Qed.

Lemma getDateIndex_generateDateRange (days : Z) (start d : DayKey) :
  getDateIndex d (generateDateRange days start)
  = if (start <=? d) && (d <? start + days) then d - start else -1.
Proof.
  unfold getDateIndex, findIndex, generateDateRange. rewrite loop_findIndex.
  zcases.
Qed.

Lemma indexOf_generateDateRange (days : Z) (start d : DayKey) :
  indexOf (generateDateRange days start) d
  = if (start <=? d) && (d <? start + days) then d - start else -1.
Proof. apply getDateIndex_generateDateRange. Qed.

End DateFacts.

(** ** Booking layout on a window of consecutive days *)

Module LayoutFacts.
Import DateUtils DateFacts Layout.

(** Rewrites the index computations on a generated window into integer
    comparisons. *)
Ltac on_window :=
  cbv zeta;
  rewrite ?getDateIndex_generateDateRange, ?indexOf_generateDateRange,
    ?at_index_generateDateRange, ?len_generateDateRange, ?toISODate_yesterday;
  unfold subtractDays, lt_undef, gt_undef, eq_undef.

(** The grid component computes the same clipped indices as the row
    component. *)
Lemma GridBookingCell_BookingBlock (b : Booking.t) (dates : list DayKey) (cw : Z) :
  GridBookingCell b dates cw
  = match BookingBlock b dates cw with
    | Some blk =>
        Some (mkGridBlock (visibleStartIndex blk) (visibleEndIndex blk)
                (span blk) (width_px blk))
    | None => None
    end.
Proof.
  unfold GridBookingCell, BookingBlock, indexOf, getDateIndex, subtractDays.
  cbv zeta. rewrite toISODate_yesterday.
  destruct (negb _); reflexivity.
Qed.

(** The filter of [cellRenderer] agrees with the visibility test of
    [BookingBlock]. *)
Lemma cellFilter_overlaps_BookingBlock (b : Booking.t) (dates : list DayKey) (cw : Z) :
  cellFilter_overlaps dates b = true ↔ is_Some (BookingBlock b dates cw).
Proof.
  unfold cellFilter_overlaps, BookingBlock, indexOf, getDateIndex, subtractDays.
  cbv zeta. rewrite toISODate_yesterday.
  match goal with |- ?x = true ↔ _ => destruct x end; cbn [negb].
  - split; [eauto | reflexivity].
  - split; [discriminate | intros [? ?]; discriminate].
Qed.

(** Which bookings [cellRenderer] draws in a cell. *)
Lemma cellRenderer_bookings_elem (dates : list DayKey) (bookings : list Booking.t)
    (cw : Z) (rowId : string) (col : Z) (b : Booking.t) (g : option GridBlock) :
  (b, g) ∈ cellRenderer_bookings dates bookings cw rowId col
  ↔ b ∈ bookings
    ∧ Booking.resourceId b = rowId
    ∧ cellFilter_overlaps dates b = true
    ∧ cellFilter_firstVisible dates (at_index dates (col - 1)) b = true
    ∧ g = GridBookingCell b dates cw.
Proof.
  unfold cellRenderer_bookings. rewrite list_elem_of_fmap. split.
  - intros [b' [Heq Hin]]. inversion Heq; subst b' g; clear Heq.
    apply list_elem_of_In in Hin.
    apply filter_In in Hin as [Hin H3]. apply filter_In in Hin as [Hin H2].
    apply filter_In in Hin as [Hin H1]. apply String.eqb_eq in H1.
    apply list_elem_of_In in Hin. auto.
  - intros (Hin & H1 & H2 & H3 & ->). exists b. split; [reflexivity |].
    apply list_elem_of_In. apply list_elem_of_In in Hin.
    repeat (apply filter_In; split); auto. by apply String.eqb_eq.
Qed.

(** On a window of [days] consecutive days from [start], the row layout of a
    booking with [startDate < endDate]: it is drawn exactly when some day of
    [startDate .. endDate - 1] is in the window, and then it lies on the
    columns of these days. *)
Lemma BookingBlock_window (days : Z) (start : DayKey) (cw : Z) (b : Booking.t) :
  0 < days → Booking.startDate b < Booking.endDate b →
  BookingBlock b (generateDateRange days start) cw
  = if (Booking.startDate b <? start + days) && (start <? Booking.endDate b)
    then
      let vs := Z.max 0 (Booking.startDate b - start) in
      let ve := Z.min (days - 1) (Booking.endDate b - 1 - start) in
      Some (mkBlock vs ve (vs * cw) (ve - vs + 1) ((ve - vs + 1) * cw))
    else None.
Proof.
  intros Hdays Hlt. unfold BookingBlock. on_window.
  rewrite (Z.max_r 0 days) by lia.
  zcases; cbv zeta; repeat (f_equal; try lia).
Qed.

(** Row-based rendering: the booking lies on column [c] exactly when the
    day of that column is one of [startDate .. endDate - 1]. *)
Lemma row_covers_window (days : Z) (start : DayKey) (cw : Z) (b : Booking.t) (c : Z) :
  0 < days → Booking.startDate b < Booking.endDate b →
  row_covers (generateDateRange days start) cw b c
  ↔ 0 ≤ c < days ∧ Booking.startDate b ≤ start + c < Booking.endDate b.
Proof.
  intros Hdays Hlt. unfold row_covers. rewrite BookingBlock_window by assumption.
  destruct (Z.ltb_spec (Booking.startDate b) (start + days)) as [H1|H1],
           (Z.ltb_spec start (Booking.endDate b)) as [H2|H2]; cbn [andb].
  - split.
    + intros [blk [Heq Hc]]. inversion Heq; subst blk; clear Heq.
      unfold covers in Hc; cbn in Hc. apply andb_true_iff in Hc as [Ha Hb].
      apply Z.leb_le in Ha. apply Z.ltb_lt in Hb. lia.
    + intros [Hc Hd]. eexists. split; [reflexivity |].
      unfold covers; cbn. apply andb_true_iff. split.
      * apply Z.leb_le. lia.
      * apply Z.ltb_lt. lia.
  - split; [intros [? [? ?]]; discriminate | lia].
  - split; [intros [? [? ?]]; discriminate | lia].
  - split; [intros [? [? ?]]; discriminate | lia].
Qed.

(** The cell that hosts a booking in the grid is the one of its first
    visible day. *)
Lemma cellFilter_firstVisible_window (days : Z) (start : DayKey) (b : Booking.t) (c0 : Z) :
  0 ≤ c0 < days → Booking.startDate b < start + days →
  cellFilter_firstVisible (generateDateRange days start)
    (at_index (generateDateRange days start) (c0 + 1 - 1)) b = true
  ↔ c0 = Z.max 0 (Booking.startDate b - start).
Proof.
  intros Hc Hs. unfold cellFilter_firstVisible. on_window.
  replace (c0 + 1 - 1) with c0 by lia.
  zcases; split; intros; try discriminate; try lia; try reflexivity.
Qed.

(** Grid-based rendering: the same columns as [row_covers_window]. *)
Lemma grid_covers_window (days : Z) (start : DayKey) (cw : Z) (b : Booking.t)
    (bookings : list Booking.t) (c : Z) :
  0 < days → Booking.startDate b < Booking.endDate b → b ∈ bookings →
  grid_covers (generateDateRange days start) bookings cw b c
  ↔ 0 ≤ c < days ∧ Booking.startDate b ≤ start + c < Booking.endDate b.
Proof.
  intros Hdays Hlt Hin. unfold grid_covers. split.
  - intros (c0 & g & Hel & Hc0 & Hc).
    apply cellRenderer_bookings_elem in Hel as (_ & _ & Hov & Hfirst & Hg).
    rewrite len_generateDateRange in Hc0.
    apply (cellFilter_overlaps_BookingBlock _ _ cw) in Hov.
    rewrite GridBookingCell_BookingBlock in Hg.
    rewrite BookingBlock_window in Hov, Hg by assumption.
    destruct (Z.ltb_spec (Booking.startDate b) (start + days)) as [H1|H1],
             (Z.ltb_spec start (Booking.endDate b)) as [H2|H2];
      cbn [andb] in Hov, Hg; try (destruct Hov; discriminate).
    apply cellFilter_firstVisible_window in Hfirst; [| lia | lia].
    inversion Hg; subst g; clear Hg. cbn in Hc. lia.
  - intros [Hc Hd].
    exists (Z.max 0 (Booking.startDate b - start)).
    assert (Hbb : BookingBlock b (generateDateRange days start) cw
                  = Some (let vs := Z.max 0 (Booking.startDate b - start) in
                          let ve := Z.min (days - 1) (Booking.endDate b - 1 - start) in
                          mkBlock vs ve (vs * cw) (ve - vs + 1) ((ve - vs + 1) * cw))).
    { rewrite BookingBlock_window by assumption.
      destruct (Z.ltb_spec (Booking.startDate b) (start + days)),
               (Z.ltb_spec start (Booking.endDate b)); cbn [andb]; try lia.
      reflexivity. }
    eexists. split; [| split].
    + apply cellRenderer_bookings_elem. split; [exact Hin |].
      split; [reflexivity |]. split.
      * apply (cellFilter_overlaps_BookingBlock _ _ cw). rewrite Hbb. eauto.
      * split.
        -- apply cellFilter_firstVisible_window; [lia | lia | reflexivity].
        -- rewrite GridBookingCell_BookingBlock, Hbb. reflexivity.
    + rewrite len_generateDateRange. lia.
    + cbn. lia.
Qed.

(** Both current rendering paths keep a booking off its checkout day and
    off every later day, and off every day before its start. *)
Lemma current_paths_exclude_checkout_day (days : Z) (start : DayKey) (cw : Z)
    (b : Booking.t) (bookings : list Booking.t) (c : Z) :
  0 < days → Booking.startDate b < Booking.endDate b → b ∈ bookings →
  (row_covers (generateDateRange days start) cw b c
   ∨ grid_covers (generateDateRange days start) bookings cw b c) →
  ∃ d, at_index (generateDateRange days start) c = Some d
       ∧ Booking.startDate b ≤ d < Booking.endDate b.
Proof.
  intros Hdays Hlt Hin [H|H].
  - apply row_covers_window in H as [Hc Hd]; [| assumption | assumption].
    exists (start + c). rewrite at_index_generateDateRange. split; [zcases | lia].
  - apply grid_covers_window in H as [Hc Hd]; [| assumption | assumption | assumption].
    exists (start + c). rewrite at_index_generateDateRange. split; [zcases | lia].
Qed.

(** The current layout reports a booking that lies wholly before or wholly
    after the window invisible, in the row component, in the grid component
    and in the filter of [cellRenderer]. *)
Lemma current_paths_off_window_invisible (days : Z) (start : DayKey) (cw : Z)
    (b : Booking.t) :
  0 < days → Booking.startDate b < Booking.endDate b →
  Booking.endDate b ≤ start ∨ Booking.startDate b > start + (days - 1) →
  BookingBlock b (generateDateRange days start) cw = None
  ∧ GridBookingCell b (generateDateRange days start) cw = None
  ∧ cellFilter_overlaps (generateDateRange days start) b = false.
Proof.
  intros Hdays Hlt Hoff.
  assert (Hnone : BookingBlock b (generateDateRange days start) cw = None).
  { rewrite BookingBlock_window by assumption. zcases. }
  split; [exact Hnone |]. split.
  - rewrite GridBookingCell_BookingBlock, Hnone. reflexivity.
  - destruct (cellFilter_overlaps _ b) eqn:E; [| reflexivity].
    apply (cellFilter_overlaps_BookingBlock _ _ cw) in E.
    rewrite Hnone in E. destruct E; discriminate.
Qed.

(** C1. Layout clipping: on a window of 30 consecutive days [D0 .. D29], a
    booking with [startDate = D0] and [endDate = D5] is laid out by
    [BookingBlock] with clipped indices 0 and 4, a span of 5 columns, on
    exactly the columns 0..4; and the grid ([cellRenderer] with
    [GridBookingCell]) shows it on exactly the columns 0..4 too.  Column 5
    is in neither. *)
Theorem C1_layout_clipping (D0 : DayKey) (cellWidth : Z) (booking : Booking.t)
    (bookings : list Booking.t) :
  Booking.startDate booking = D0 →
  Booking.endDate booking = D0 + 5 →
  booking ∈ bookings →
  let dates := generateDateRange 30 D0 in
  (∃ blk, BookingBlock booking dates cellWidth = Some blk
          ∧ visibleStartIndex blk = 0 ∧ visibleEndIndex blk = 4 ∧ span blk = 5
          ∧ left_px blk = 0 ∧ width_px blk = 5 * cellWidth
          ∧ (∀ c, covers blk c = true ↔ 0 ≤ c ≤ 4)
          ∧ covers blk 5 = false)
  ∧ (∀ c, grid_covers dates bookings cellWidth booking c ↔ 0 ≤ c ≤ 4)
  ∧ ¬ grid_covers dates bookings cellWidth booking 5.
Proof.
  intros Hs He Hin dates. subst dates.
  assert (Hlt : Booking.startDate booking < Booking.endDate booking) by lia.
  split; [| split].
  - rewrite BookingBlock_window by lia. rewrite Hs, He.
    replace (D0 <? D0 + 30) with true by (symmetry; apply Z.ltb_lt; lia).
    replace (D0 <? D0 + 5) with true by (symmetry; apply Z.ltb_lt; lia).
    cbn [andb]. cbv zeta.
    replace (D0 - D0) with 0 by lia. replace (D0 + 5 - 1 - D0) with 4 by lia.
    eexists. split; [reflexivity |]. cbn.
    repeat split; unfold covers in *; cbn in *; zcases.
  - intros c. rewrite grid_covers_window by (assumption || lia). lia.
  - rewrite grid_covers_window by (assumption || lia). lia.
Qed.

Lemma C1_layout_clipping_witness :
  let booking := Booking.mk "b1" (Some "1001") "R1" 10 15 "Smith" "" in
  let dates := generateDateRange 30 10 in
  (∃ blk, BookingBlock booking dates 100 = Some blk
          ∧ visibleStartIndex blk = 0 ∧ visibleEndIndex blk = 4 ∧ span blk = 5
          ∧ left_px blk = 0 ∧ width_px blk = 5 * 100
          ∧ (∀ c, covers blk c = true ↔ 0 ≤ c ≤ 4)
          ∧ covers blk 5 = false)
  ∧ (∀ c, grid_covers dates [booking] 100 booking c ↔ 0 ≤ c ≤ 4)
  ∧ ¬ grid_covers dates [booking] 100 booking 5.
Proof.
  intros booking.
  apply (C1_layout_clipping 10 100 booking [booking]).
  - reflexivity.
  - reflexivity.
  - apply list_elem_of_singleton. reflexivity.
Defined.

(** C3. A booking that starts before [D0] and ends after [D29] is visible on
    the window [D0 .. D29] and its clipped span is the whole column range
    0..29, in [BookingBlock] and in [GridBookingCell].  (Its last occupied
    day [endDate - 1] is [D29] or later: when it is [D29] itself the end
    index is found in the window, otherwise the spans-entire-range test
    applies.) *)
Theorem C3_spans_entire_window (D0 : DayKey) (cellWidth : Z) (booking : Booking.t) :
  Booking.startDate booking < D0 →
  Booking.endDate booking > D0 + 29 →
  let dates := generateDateRange 30 D0 in
  (∃ blk, BookingBlock booking dates cellWidth = Some blk
          ∧ visibleStartIndex blk = 0 ∧ visibleEndIndex blk = 29 ∧ span blk = 30
          ∧ (∀ c, covers blk c = true ↔ 0 ≤ c ≤ 29))
  ∧ (∃ g, GridBookingCell booking dates cellWidth = Some g
          ∧ visibleStartIdx g = 0 ∧ visibleEndIdx g = 29 ∧ duration g = 30).
Proof.
  intros Hs He dates. subst dates.
  assert (Hbb : BookingBlock booking (generateDateRange 30 D0) cellWidth
                = Some (mkBlock 0 29 (0 * cellWidth) 30 (30 * cellWidth))).
  { rewrite BookingBlock_window by lia.
    replace (Booking.startDate booking <? D0 + 30) with true
      by (symmetry; apply Z.ltb_lt; lia).
    replace (D0 <? Booking.endDate booking) with true
      by (symmetry; apply Z.ltb_lt; lia).
    cbn [andb]. cbv zeta.
    rewrite (Z.max_l 0 (Booking.startDate booking - D0)) by lia.
    rewrite (Z.min_l (30 - 1) (Booking.endDate booking - 1 - D0)) by lia.
    reflexivity. }
  split.
  - eexists. split; [exact Hbb |]. cbn.
    repeat split; unfold covers in *; cbn in *; zcases.
  - rewrite GridBookingCell_BookingBlock, Hbb. eexists. split; [reflexivity |].
    cbn. repeat split.
Qed.

Lemma C3_spans_entire_window_witness :
  let booking := Booking.mk "b2" (Some "1002") "R1" 7 40 "Long stay" "" in
  let dates := generateDateRange 30 10 in
  (∃ blk, BookingBlock booking dates 100 = Some blk
          ∧ visibleStartIndex blk = 0 ∧ visibleEndIndex blk = 29 ∧ span blk = 30
          ∧ (∀ c, covers blk c = true ↔ 0 ≤ c ≤ 29))
  ∧ (∃ g, GridBookingCell booking dates 100 = Some g
          ∧ visibleStartIdx g = 0 ∧ visibleEndIdx g = 29 ∧ duration g = 30).
Proof.
  intros booking.
  apply (C3_spans_entire_window 10 100 booking).
  - cbn. lia.
  - cbn. lia.
Defined.

(** The earlier [BookingBlock] hides a booking that ends before the first
    day of the window or starts after its last day; the case it misses is a
    booking whose checkout day is the first day of the window. *)
Lemma legacy_off_window_invisible (days : Z) (start : DayKey) (cw : Z) (b : Booking.t) :
  0 < days → Booking.startDate b < Booking.endDate b →
  Booking.endDate b < start ∨ Booking.startDate b > start + (days - 1) →
  BookingBlock_legacy b (generateDateRange days start) cw = None.
Proof.
  intros Hdays Hlt Hoff. unfold BookingBlock_legacy. on_window. zcases.
Qed.

(** C2 (evaluation of the earlier [BookingBlock] at a failing input).  On
    the window [D0 .. D29], the booking with [startDate = D0] and
    [endDate = D5] is laid out by the earlier [BookingBlock] with span 6: it
    lies on column 5, whose day is the checkout day, while the current
    [BookingBlock] gives span 5. *)
Theorem C2_legacy_block_covers_checkout_day (D0 : DayKey) (cellWidth : Z) :
  let booking := Booking.mk "b1" (Some "1001") "R1" D0 (D0 + 5) "Smith" "" in
  let dates := generateDateRange 30 D0 in
  BookingBlock_legacy booking dates cellWidth
    = Some (mkBlock 0 5 (0 * cellWidth) 6 (6 * cellWidth))
  ∧ legacy_covers dates cellWidth booking 5
  ∧ at_index dates 5 = Some (Booking.endDate booking)
  ∧ ¬ row_covers dates cellWidth booking 5.
Proof.
  intros booking dates. subst booking dates.
  assert (Hleg : BookingBlock_legacy
                   (Booking.mk "b1" (Some "1001") "R1" D0 (D0 + 5) "Smith" "")
                   (generateDateRange 30 D0) cellWidth
                 = Some (mkBlock 0 5 (0 * cellWidth) 6 (6 * cellWidth))).
  { unfold BookingBlock_legacy. on_window. cbn [Booking.startDate Booking.endDate].
    zcases; repeat (f_equal; try lia). }
  split; [exact Hleg |]. split; [| split].
  - eexists. split; [exact Hleg | reflexivity].
  - rewrite at_index_generateDateRange. reflexivity.
  - rewrite row_covers_window by (cbn; lia). cbn. lia.
Qed.

(** C4 (evaluation of the earlier [BookingBlock] at a failing input).  A
    booking that ends on [D0] (so it lies wholly before the window
    [D0 .. D29]) is still drawn by the earlier [BookingBlock], on column 0;
    the current [BookingBlock] reports it invisible. *)
Theorem C4_legacy_block_draws_booking_ending_on_first_day (D0 : DayKey) (cellWidth : Z) :
  let booking := Booking.mk "b3" (Some "1003") "R1" (D0 - 2) D0 "Early" "" in
  let dates := generateDateRange 30 D0 in
  BookingBlock_legacy booking dates cellWidth
    = Some (mkBlock 0 0 (0 * cellWidth) 1 (1 * cellWidth))
  ∧ legacy_covers dates cellWidth booking 0
  ∧ BookingBlock booking dates cellWidth = None.
Proof.
  intros booking dates. subst booking dates.
  assert (Hleg : BookingBlock_legacy
                   (Booking.mk "b3" (Some "1003") "R1" (D0 - 2) D0 "Early" "")
                   (generateDateRange 30 D0) cellWidth
                 = Some (mkBlock 0 0 (0 * cellWidth) 1 (1 * cellWidth))).
  { unfold BookingBlock_legacy. on_window. cbn [Booking.startDate Booking.endDate].
    zcases; repeat (f_equal; try lia). }
  split; [exact Hleg |]. split.
  - eexists. split; [exact Hleg | reflexivity].
  - apply current_paths_off_window_invisible; cbn; lia.
Qed.

End LayoutFacts.

(** ** Filtering and flattening *)

Module RowsFacts.
Import JsString Rows.

Lemma elem_of_List_filter {A : Type} (f : A → bool) (l : list A) (x : A) :
  x ∈ List.filter f l ↔ x ∈ l ∧ f x = true.
Proof. rewrite !list_elem_of_In. apply filter_In. Qed.

Lemma List_filter_all {A : Type} (f : A → bool) (l : list A) :
  (∀ x, f x = true) → List.filter f l = l.
Proof.
  intros Hf. induction l as [|x l IH]; simpl; [reflexivity |].
  rewrite Hf, IH. reflexivity.
Qed.

(** With no search term, the callback of the final [flatMap] emits the
    parent row and, for an expanded group, all its children. *)
Lemma rowsOfParent_no_search (g : ResourceGroup.t) :
  rowsOfParent "" g
  = ParentRow g
    :: (if ResourceGroup.expanded g
        then map (fun c => ChildRow c (ResourceGroup.id g)) (children_or_empty g)
        else []).
Proof.
  unfold rowsOfParent. destruct (ResourceGroup.expanded g); cbn [negb]; [| reflexivity].
  rewrite List_filter_all by reflexivity. reflexivity.
Qed.

Lemma flat_map_no_search (groups : list ResourceGroup.t) :
  flat_map (rowsOfParent "") groups = spec_flatten groups.
Proof.
  induction groups as [|g groups IH]; [reflexivity |].
  cbn [flat_map spec_flatten]. rewrite IH, rowsOfParent_no_search.
  unfold children_or_empty. reflexivity.
Qed.

(** C6. With the search term and the booking-ID filter both empty,
    [visibleRows] is, element for element, the unfiltered flattening of the
    resource tree; and after any sequence of filter-bar actions followed by
    clearing both filters, [visibleRows] is that same list again (the
    filters never change the resource tree they are given). *)
Theorem C6_filter_round_trip (resources : list ResourceGroup.t)
    (bookings : list Booking.t) (st : FilterState) (actions : list FilterAction) :
  visibleRows resources bookings "" "" = Some (spec_flatten resources)
  ∧ visibleRows_in resources bookings
      (applyFilterAction (foldl applyFilterAction st actions) ClearFilters)
    = Some (spec_flatten resources).
Proof.
  assert (H : visibleRows resources bookings "" "" = Some (spec_flatten resources)).
  { unfold visibleRows. cbn [truthy]. rewrite flat_map_no_search. reflexivity. }
  split; [exact H |].
  unfold visibleRows_in. cbn [applyFilterAction searchTerm selectedBookingId]. exact H.
Qed.

(** With a search term set, the child rows of an expanded group are its
    children whose own name contains the term, whether or not the name of
    the group does. *)
Lemma rowsOfParent_with_search (s : string) (g : ResourceGroup.t) :
  truthy s = true → ResourceGroup.expanded g = true →
  rowsOfParent s g
  = ParentRow g
    :: map (fun c => ChildRow c (ResourceGroup.id g))
         (List.filter
            (fun c => includes (toLowerCase (Resource.name c)) (toLowerCase s))
            (children_or_empty g)).
Proof.
  intros Hs Hexp. unfold rowsOfParent. rewrite Hs, Hexp. reflexivity.
Qed.

(** C5 (evaluation at a failing input).  The group "Deluxe Block 1" is
    expanded and its name contains the search term "deluxe"; its two
    children have names that do not.  [visibleRows] yields the parent row
    alone: no child row is shown under the group. *)
Theorem C5_children_of_matching_group_are_dropped :
  let r1 := Resource.mk "R1" "Room-1 1-B 1-N" in
  let r2 := Resource.mk "R2" "Room-2 2-B 1-N" in
  let g := ResourceGroup.mk "G1" "Deluxe Block 1" true (Some [r1; r2]) in
  includes (toLowerCase (ResourceGroup.name g)) (toLowerCase "deluxe") = true
  ∧ visibleRows [g] [] "deluxe" "" = Some [ParentRow g]
  ∧ childRowsOf "G1" [ParentRow g] = []
  ∧ visibleRows [g] [] "" "" = Some [ParentRow g; ChildRow r1 "G1"; ChildRow r2 "G1"].
Proof. cbv zeta. repeat split; vm_compute; reflexivity. Qed.

(** *** The shape of the flattened list *)

(** The child rows the callback of the final [flatMap] emits after the
    parent row. *)
Lemma rowsOfParent_shape (s : string) (g : ResourceGroup.t) :
  ∃ kids, rowsOfParent s g = ParentRow g :: kids
    ∧ (∀ r, r ∈ kids →
         ∃ c, r = ChildRow c (ResourceGroup.id g) ∧ c ∈ children_or_empty g
              ∧ ResourceGroup.expanded g = true)
    ∧ (ResourceGroup.expanded g = true →
       (truthy s = false ∧ children_or_empty g ≠ []) ∨ someChildMatches s g = true →
       kids ≠ []).
Proof.
  unfold rowsOfParent. destruct (ResourceGroup.expanded g) eqn:Hexp; cbn [negb].
  - eexists. split; [reflexivity |]. split.
    + intros r Hr. apply list_elem_of_fmap in Hr as [c [-> Hc]].
      apply elem_of_List_filter in Hc as [Hc _]. eauto.
    + intros _ Hsome Hnil. apply fmap_nil_inv in Hnil.
      destruct Hsome as [[Hs Hne] | Hm].
      * rewrite Hs in Hnil. cbn [negb orb] in Hnil.
        rewrite List_filter_all in Hnil by reflexivity. contradiction.
      * unfold someChildMatches in Hm. apply existsb_exists in Hm as [c [Hc Hm]].
        assert (Hin : c ∈ List.filter
                  (fun child => negb (truthy s)
                     || includes (toLowerCase (Resource.name child)) (toLowerCase s))
                  (children_or_empty g)).
        { apply elem_of_List_filter. split; [by apply list_elem_of_In |].
          rewrite Hm. apply orb_true_r. }
        rewrite Hnil in Hin. by apply not_elem_of_nil in Hin.
  - exists []. split; [reflexivity |]. split.
    + intros r Hr. by apply not_elem_of_nil in Hr.
    + intros Hf. discriminate.
Qed.

(** Rows of the flattened list come from the groups it was made from. *)
Lemma flat_map_rows_elem (s : string) (gs : list ResourceGroup.t) (r : VisibleRow) :
  r ∈ flat_map (rowsOfParent s) gs →
  ∃ g, g ∈ gs
    ∧ (r = ParentRow g
       ∨ ∃ c, r = ChildRow c (ResourceGroup.id g) ∧ c ∈ children_or_empty g).
Proof.
  intros Hr. apply list_elem_of_In, in_flat_map in Hr as [g [Hg Hr]].
  apply list_elem_of_In in Hg, Hr. exists g. split; [exact Hg |].
  destruct (rowsOfParent_shape s g) as (kids & Heq & Hkids & _).
  rewrite Heq in Hr. apply elem_of_cons in Hr as [-> | Hr]; [by left |].
  right. destruct (Hkids r Hr) as (c & -> & Hc & _). eauto.
Qed.

(** A parent row of the flattened list is followed by a child row as soon
    as its group is expanded and one of its children passes the child
    filter of the final [flatMap]. *)
Lemma flat_map_parent_followed (s : string) (gs : list ResourceGroup.t) :
  ∀ (i : nat) p,
    flat_map (rowsOfParent s) gs !! i = Some (ParentRow p) →
    p ∈ gs
    ∧ (ResourceGroup.expanded p = true →
       (truthy s = false ∧ children_or_empty p ≠ []) ∨ someChildMatches s p = true →
       ∃ c pid, flat_map (rowsOfParent s) gs !! S i = Some (ChildRow c pid)).
Proof.
  induction gs as [|g gs IH]; intros i p Hi; [discriminate |].
  cbn [flat_map] in *.
  destruct (rowsOfParent_shape s g) as (kids & Heq & Hkids & Hne).
  rewrite Heq in *. destruct i as [|j].
  - cbn in Hi. inversion Hi; subst p; clear Hi. split; [apply list_elem_of_here |].
    intros Hexp Hsome. specialize (Hne Hexp Hsome).
    destruct kids as [|k kids]; [contradiction |].
    destruct (Hkids k (list_elem_of_here _ _)) as (c & -> & _).
    cbn. eauto.
  - cbn [app] in Hi |- *. rewrite lookup_cons_ne_0 in Hi by lia. cbn in Hi.
    destruct (decide (j < length kids)%nat) as [Hlt|Hge].
    + rewrite lookup_app_l in Hi by exact Hlt.
      apply list_elem_of_lookup_2 in Hi.
      destruct (Hkids _ Hi) as (c & Habs & _). discriminate.
    + rewrite lookup_app_r in Hi by lia.
      destruct (IH _ _ Hi) as [Hin Hnext]. split; [by apply list_elem_of_further |].
      intros Hexp Hsome. destruct (Hnext Hexp Hsome) as (c & pid & Hc).
      exists c, pid.
      change ((ParentRow g :: kids ++ flat_map (rowsOfParent s) gs) !! S (S j))
        with ((kids ++ flat_map (rowsOfParent s) gs) !! S j).
      rewrite lookup_app_r by lia.
      replace (S j - length kids)%nat with (S (j - length kids)) by lia. exact Hc.
Qed.

(** *** The booking-ID filter *)

Lemma matchingBookings_elem (sel : string) (bookings matching : list Booking.t) :
  matchingBookings sel bookings = Some matching →
  ∀ b, b ∈ matching ↔ b ∈ bookings ∧ bookingMatches sel b.
Proof.
  revert matching. induction bookings as [|b0 bookings IH]; intros matching Hm b.
  - inversion Hm; subst. split.
    + intros H. by apply not_elem_of_nil in H.
    + intros [H _]. by apply not_elem_of_nil in H.
  - cbn [matchingBookings] in Hm.
    destruct (Booking.booking_id b0) as [s0|] eqn:Hid; [| discriminate].
    destruct (matchingBookings sel bookings) as [kept|] eqn:Hk; [| discriminate].
    specialize (IH kept eq_refl b). inversion Hm; subst matching; clear Hm.
    unfold bookingMatches in *. destruct (includes s0 sel) eqn:Hinc.
    + rewrite !elem_of_cons, IH. split.
      * intros [-> | [Hin Hb]]; [split; [by left | eauto] | split; [by right | exact Hb]].
      * intros [[-> | Hin] Hb]; [by left | right; split; assumption].
    + rewrite elem_of_cons, IH. split.
      * intros [Hin Hb]. split; [by right | exact Hb].
      * intros [[-> | Hin] Hb]; [| split; assumption].
        destruct Hb as (s & Hs & Hinc'). congruence.
Qed.

(** The filter is computed exactly when every booking carries a
    [booking_id]. *)
Lemma matchingBookings_is_Some (sel : string) (bookings : list Booking.t) :
  is_Some (matchingBookings sel bookings)
  ↔ ∀ b, b ∈ bookings → is_Some (Booking.booking_id b).
Proof.
  induction bookings as [|b0 bookings IH]; cbn [matchingBookings].
  - split; [| eauto]. intros _ b Hb. by apply not_elem_of_nil in Hb.
  - destruct (Booking.booking_id b0) as [s0|] eqn:Hid.
    + destruct (matchingBookings sel bookings) as [kept|].
      * split; [| eauto]. intros _ b Hb. apply elem_of_cons in Hb as [-> | Hb].
        -- rewrite Hid. eauto.
        -- apply IH; eauto.
      * split.
        -- intros [? ?]; discriminate.
        -- intros H. assert (Hn : is_Some (@None (list Booking.t))).
           { apply IH. intros b Hb. apply H. by apply list_elem_of_further. }
           destruct Hn; discriminate.
    + split.
      * intros [? ?]; discriminate.
      * intros H. specialize (H b0 (list_elem_of_here _ _)). rewrite Hid in H.
        destruct H; discriminate.
Qed.

(** Every group that survives the booking-ID filter is expanded and has at
    least one child, and all its children are referenced by the set. *)
Lemma filterByBookingId_elem (ids : gset string) (resources : list ResourceGroup.t)
    (g : ResourceGroup.t) :
  g ∈ filterByBookingId ids resources →
  ResourceGroup.expanded g = true
  ∧ children_or_empty g ≠ []
  ∧ ∀ c, c ∈ children_or_empty g → Resource.id c ∈ ids.
Proof.
  unfold filterByBookingId. intros Hg.
  apply elem_of_List_filter in Hg as [Hg Hlen].
  apply list_elem_of_fmap in Hg as [g0 [-> _]].
  set (kept := List.filter (fun child => bool_decide (Resource.id child ∈ ids))
                 (children_or_empty g0)) in *.
  change (children_or_empty (ResourceGroup.mk (ResourceGroup.id g0)
            (ResourceGroup.name g0) true (Some kept))) with kept.
  cbn [ResourceGroup.children ResourceGroup.expanded] in *.
  split; [reflexivity |]. split.
  - intros Hnil. rewrite Hnil in Hlen. discriminate.
  - intros c Hc. apply elem_of_List_filter in Hc as [_ Hc].
    by apply bool_decide_eq_true in Hc.
Qed.

Lemma filterBySearchTerm_elem (s : string) (resources : list ResourceGroup.t)
    (g : ResourceGroup.t) :
  g ∈ filterBySearchTerm s resources → g ∈ resources.
Proof. unfold filterBySearchTerm. intros H. by apply elem_of_List_filter in H as [H _]. Qed.

(** The groups that reach the final [flatMap] when the booking-ID filter is
    set all come out of [filterByBookingId]. *)
Lemma visibleRows_with_booking_filter (resources : list ResourceGroup.t)
    (bookings : list Booking.t) (s sel : string) (rows : list VisibleRow) :
  truthy sel = true →
  visibleRows resources bookings s sel = Some rows →
  ∃ matching gs,
    matchingBookings sel bookings = Some matching
    ∧ rows = flat_map (rowsOfParent s) gs
    ∧ ∀ g, g ∈ gs → g ∈ filterByBookingId (matchingResourceIds matching) resources.
Proof.
  intros Hsel Hrows. unfold visibleRows in Hrows. rewrite Hsel in Hrows.
  destruct (matchingBookings sel bookings) as [matching|]; [| discriminate].
  exists matching. destruct (truthy s).
  - eexists. split; [reflexivity |]. split; [by inversion Hrows |].
    intros g Hg. by apply filterBySearchTerm_elem in Hg.
  - eexists. split; [reflexivity |]. split; [by inversion Hrows | auto].
Qed.

(** A resource id in the set built from the matching bookings is the
    resource of a booking whose id matches. *)
Lemma matchingResourceIds_elem (sel : string) (bookings matching : list Booking.t)
    (rid : string) :
  matchingBookings sel bookings = Some matching →
  rid ∈ matchingResourceIds matching →
  ∃ b, b ∈ bookings ∧ Booking.resourceId b = rid ∧ bookingMatches sel b.
Proof.
  intros Hm Hrid. unfold matchingResourceIds in Hrid.
  apply elem_of_list_to_set, list_elem_of_fmap in Hrid as [b [-> Hb]].
  apply (matchingBookings_elem _ _ _ Hm) in Hb as [Hb Hmatch]. eauto.
Qed.

(** What the booking-ID filter guarantees.  With a non-empty booking-ID
    filter, [visibleRows] returns a row list exactly when every booking
    carries a [booking_id], and in the list it returns, whatever the search
    term: every parent row has [expanded = true]; every child row is a
    resource referenced by some booking whose stringified booking id
    contains the filter string; the list is empty if no booking matches; and
    every parent row is immediately followed by a child row when no search
    term is set or when some child of its group matches the search term. *)
Lemma booking_filter_groups (resources : list ResourceGroup.t)
    (bookings : list Booking.t) (searchTerm selectedBookingId : string) :
  truthy selectedBookingId = true →
  (is_Some (visibleRows resources bookings searchTerm selectedBookingId)
   ↔ ∀ b, b ∈ bookings → is_Some (Booking.booking_id b))
  ∧ ∀ rows, visibleRows resources bookings searchTerm selectedBookingId = Some rows →
      (∀ p, ParentRow p ∈ rows → ResourceGroup.expanded p = true)
      ∧ (∀ c pid, ChildRow c pid ∈ rows →
           ∃ b, b ∈ bookings ∧ Booking.resourceId b = Resource.id c
                ∧ bookingMatches selectedBookingId b)
      ∧ ((∀ b, b ∈ bookings → ¬ bookingMatches selectedBookingId b) → rows = [])
      ∧ (∀ (i : nat) p, rows !! i = Some (ParentRow p) →
           truthy searchTerm = false ∨ someChildMatches searchTerm p = true →
           ∃ c pid, rows !! S i = Some (ChildRow c pid))
      ∧ (truthy searchTerm = false → parentsFollowedByChild rows).
Proof.
  intros Hsel. split.
  - rewrite <- (matchingBookings_is_Some selectedBookingId).
    unfold visibleRows. rewrite Hsel.
    destruct (matchingBookings selectedBookingId bookings); split; eauto;
      intros [? ?]; discriminate.
  - intros rows Hrows.
    destruct (visibleRows_with_booking_filter _ _ _ _ _ Hsel Hrows)
      as (matching & gs & Hm & -> & Hgs).
    assert (Hparent : ∀ p, ParentRow p ∈ flat_map (rowsOfParent searchTerm) gs →
              p ∈ filterByBookingId (matchingResourceIds matching) resources).
    { intros p Hp. apply flat_map_rows_elem in Hp as (g & Hg & [Heq | (c & Heq & _)]).
      - inversion Heq; subst. auto.
      - discriminate. }
    assert (Hchild : ∀ c pid, ChildRow c pid ∈ flat_map (rowsOfParent searchTerm) gs →
              ∃ b, b ∈ bookings ∧ Booking.resourceId b = Resource.id c
                   ∧ bookingMatches selectedBookingId b).
    { intros c pid Hc.
      apply flat_map_rows_elem in Hc as (g & Hg & [Heq | (c' & Heq & Hc')]);
        [discriminate |].
      inversion Heq; subst c' pid; clear Heq.
      destruct (filterByBookingId_elem _ _ _ (Hgs g Hg)) as (_ & _ & Hids).
      apply (matchingResourceIds_elem _ _ _ _ Hm). auto. }
    assert (Hnext : ∀ (i : nat) p,
              flat_map (rowsOfParent searchTerm) gs !! i = Some (ParentRow p) →
              truthy searchTerm = false ∨ someChildMatches searchTerm p = true →
              ∃ c pid, flat_map (rowsOfParent searchTerm) gs !! S i
                       = Some (ChildRow c pid)).
    { intros i p Hi Hcond.
      destruct (flat_map_parent_followed _ _ _ _ Hi) as [Hp Hfollow].
      destruct (filterByBookingId_elem _ _ _ (Hgs p Hp)) as (Hexp & Hne & _).
      apply Hfollow; [exact Hexp |]. destruct Hcond; auto. }
    split; [| split; [| split; [| split]]].
    + intros p Hp. by destruct (filterByBookingId_elem _ _ _ (Hparent p Hp)).
    + exact Hchild.
    + intros Hnone.
      destruct (flat_map (rowsOfParent searchTerm) gs) as [|r rows] eqn:E;
        [reflexivity |].
      exfalso. destruct r as [p | c pid].
      * destruct (filterByBookingId_elem _ _ _ (Hparent p (list_elem_of_here _ _)))
          as (_ & Hne & Hids).
        destruct (children_or_empty p) as [|c cs]; [contradiction |].
        destruct (matchingResourceIds_elem _ _ _ _ Hm (Hids c (list_elem_of_here _ _)))
          as (b & Hb & _ & Hmatch).
        exact (Hnone b Hb Hmatch).
      * destruct (Hchild c pid (list_elem_of_here _ _)) as (b & Hb & _ & Hmatch).
        exact (Hnone b Hb Hmatch).
    + exact Hnext.
    + intros Hs i p Hi. apply (Hnext i p Hi). by left.
Qed.

Example booking_filter_groups_example :
  let r1 := Resource.mk "R1" "Room-1 1-B 1-N" in
  let r2 := Resource.mk "R2" "Room-2 2-B 1-N" in
  let g := ResourceGroup.mk "G1" "Deluxe Block 1" false (Some [r1; r2]) in
  let b := Booking.mk "5342061332004864" (Some "5342061332004864") "R1" 0 3 "Smith" "" in
  let rows :=
    [ParentRow (ResourceGroup.mk "G1" "Deluxe Block 1" true (Some [r1]));
     ChildRow r1 "G1"] in
  visibleRows [g] [b] "" "5342" = Some rows
  ∧ (∀ p, ParentRow p ∈ rows → ResourceGroup.expanded p = true)
  ∧ (∀ c pid, ChildRow c pid ∈ rows →
       ∃ b', b' ∈ [b] ∧ Booking.resourceId b' = Resource.id c
             ∧ bookingMatches "5342" b')
  ∧ parentsFollowedByChild rows.
Proof.
  intros r1 r2 g b rows.
  assert (Hrows : visibleRows [g] [b] "" "5342" = Some rows) by (vm_compute; reflexivity).
  split; [exact Hrows |].
  destruct (booking_filter_groups [g] [b] "" "5342" eq_refl) as [_ Hprops].
  destruct (Hprops rows Hrows) as (Hexp & Hchild & _ & _ & Hfollow).
  split; [exact Hexp |]. split; [exact Hchild |]. apply Hfollow. reflexivity.
Qed.

(** C10 (evaluation at a failing input).  The booking-ID filter "5342"
    matches the booking on room R1 of the group "Deluxe Block 1", so the
    filter keeps the group, expanded, with R1 as its only child.  With the
    search term "deluxe" also set (it occurs in the name of the group and
    not in the name of R1), the final [flatMap] of [visibleRows] filters
    R1 away: the result is the parent row alone, a parent row that is not
    followed by any child row.  With the search box empty the same filter
    gives the parent row followed by the row of R1. *)
Theorem C10_search_term_leaves_filtered_group_without_children :
  let r1 := Resource.mk "R1" "Room-1 1-B 1-N" in
  let g := ResourceGroup.mk "G1" "Deluxe Block 1" false (Some [r1]) in
  let g' := ResourceGroup.mk "G1" "Deluxe Block 1" true (Some [r1]) in
  let b := Booking.mk "5342061332004864" (Some "5342061332004864") "R1" 0 3 "Smith" "" in
  truthy "5342" = true
  ∧ bookingMatches "5342" b
  ∧ visibleRows [g] [b] "deluxe" "5342" = Some [ParentRow g']
  ∧ ¬ parentsFollowedByChild [ParentRow g']
  ∧ childRowsOf "G1" [ParentRow g'] = []
  ∧ visibleRows [g] [b] "" "5342" = Some [ParentRow g'; ChildRow r1 "G1"].
Proof.
  cbv zeta. split; [reflexivity |]. split.
  { eexists. split; reflexivity. }
  split; [vm_compute; reflexivity |]. split.
  { intros H. destruct (H 0%nat _ eq_refl) as (c & pid & Habs). discriminate. }
  split; vm_compute; reflexivity.
Qed.

End RowsFacts.

(** ** Range selection *)

Module SchedulerFacts.
Import DateUtils DateFacts Scheduler.

(** C7. Pointer-up on an active selection whose two dates are in the date
    window leaves a selection on the same resource with
    [startDate ≤ endDate]: the two dates as they were if the drag went
    forward, swapped if it went backward; it also clears the pointer-down
    flag and [isSelecting] and schedules the opening of the modal.  In
    particular, on a window [D0 ..] of more than 10 days, pointer-down on
    [D10], pointer-enter on [D5] of the same row and pointer-up leave the
    selection [startDate = D5], [endDate = D10] on that row. *)
Theorem C7_selection_normalization (days : Z) (D0 : DayKey) :
  (∀ (st : State) (sel : Selection.t),
      mouseDownRef st = true →
      selection st = Some sel →
      D0 ≤ Selection.startDate sel < D0 + days →
      D0 ≤ Selection.endDate sel < D0 + days →
      let st' := onMouseUp (generateDateRange days D0) st in
      ∃ sel', selection st' = Some sel'
        ∧ Selection.resourceId sel' = Selection.resourceId sel
        ∧ Selection.startDate sel' ≤ Selection.endDate sel'
        ∧ (Selection.startDate sel ≤ Selection.endDate sel → sel' = sel)
        ∧ (Selection.endDate sel < Selection.startDate sel →
           sel' = Selection.mk (Selection.resourceId sel)
                    (Selection.endDate sel) (Selection.startDate sel))
        ∧ mouseDownRef st' = false
        ∧ isSelecting st' = false
        ∧ pendingModalTimers st' = S (pendingModalTimers st))
  ∧ (10 < days →
     ∀ (st0 : State) (resourceId : string),
       selection
         (onMouseUp (generateDateRange days D0)
            (handleCellMouseEnter (D0 + 5) resourceId
               (handleCellMouseDown (D0 + 10) resourceId st0)))
       = Some (Selection.mk resourceId (D0 + 5) (D0 + 10))).
Proof.
  split.
  - intros st sel Hdown Hsel Hs He st'. subst st'.
    unfold onMouseUp. rewrite Hdown, Hsel. cbn [negb].
    rewrite !getDateIndex_generateDateRange.
    destruct sel as [r s e]. cbn [Selection.startDate Selection.endDate
                                   Selection.resourceId] in *.
    eexists. split; [reflexivity |].
    cbn [Selection.startDate Selection.endDate Selection.resourceId
         mouseDownRef isSelecting pendingModalTimers].
    repeat split; try (intros; f_equal); zcases.
  - intros Hdays st0 r.
    unfold handleCellMouseEnter, handleCellMouseDown, differs_from_ref.
    cbn [mouseDownRef isSelecting startResourceIdRef selection negb orb].
    rewrite String.eqb_refl. cbn [negb].
    unfold onMouseUp.
    cbn [mouseDownRef selection negb Selection.startDate Selection.endDate
         Selection.resourceId].
    rewrite !getDateIndex_generateDateRange. zcases.
Qed.

Lemma C7_selection_normalization_witness :
  let st := mkState true (Some 20) (Some "R1"%string)
              (Some (Selection.mk "R1" 20 15)) None true false 0 in
  ∃ sel', selection (onMouseUp (generateDateRange 30 10) st) = Some sel'
    ∧ Selection.resourceId sel' = "R1"%string
    ∧ Selection.startDate sel' ≤ Selection.endDate sel'
    ∧ sel' = Selection.mk "R1" 15 20.
Proof.
  intros st.
  destruct (proj1 (C7_selection_normalization 30 10) st (Selection.mk "R1" 20 15))
    as (sel' & Hsel & Hres & Hle & _ & Hswap & _).
  - reflexivity.
  - reflexivity.
  - cbn. lia.
  - cbn. lia.
  - exists sel'. split; [exact Hsel |]. split; [exact Hres |]. split; [exact Hle |].
    apply Hswap. cbn. lia.
Defined.

(** After pointer-up on an active selection, the scheduled callback opens
    the modal. *)
Lemma modal_opens_after_pointer_up (dates : list DayKey) (st : State) (sel : Selection.t) :
  mouseDownRef st = true → selection st = Some sel →
  modalOpen (modalTimerFires (onMouseUp dates st)) = true.
Proof.
  intros Hdown Hsel. unfold onMouseUp. rewrite Hdown, Hsel. reflexivity.
Qed.

(** Closing the modal clears the selection and the pointer-down flag. *)
Lemma handleModalClose_clears (st : State) :
  selection (handleModalClose st) = None
  ∧ mouseDownRef (handleModalClose st) = false
  ∧ modalOpen (handleModalClose st) = false.
Proof. repeat split. Qed.

(** C9. Pointer-up with no pointer-down recorded, or with no selection, is
    a no-op: the whole state (selection, flags, modal, scheduled timers) is
    unchanged. *)
Theorem C9_stray_pointer_up_is_noop (dates : list DayKey) (st : State) :
  mouseDownRef st = false ∨ selection st = None →
  onMouseUp dates st = st.
Proof.
  intros [H | H]; unfold onMouseUp; rewrite H; cbn [negb].
  - reflexivity.
  - destruct (negb (mouseDownRef st)); reflexivity.
Qed.

Lemma C9_stray_pointer_up_is_noop_witness :
  onMouseUp (generateDateRange 30 10) initialState = initialState
  ∧ modalOpen (onMouseUp (generateDateRange 30 10) initialState) = false.
Proof.
  assert (H : onMouseUp (generateDateRange 30 10) initialState = initialState).
  { apply (C9_stray_pointer_up_is_noop (generateDateRange 30 10) initialState).
    left. reflexivity. }
  split; [exact H |]. rewrite H. reflexivity.
Defined.

End SchedulerFacts.

(** ** Drag relocation *)

Module DragFacts.
Import DateUtils DateFacts JsString Drag.

Lemma ceil_div_days (k : Z) : ceil_div (k * MS_PER_DAY) (1000 * 60 * 60 * 24) = k.
Proof.
  unfold ceil_div. change (1000 * 60 * 60 * 24) with MS_PER_DAY.
  replace (- (k * MS_PER_DAY)) with ((- k) * MS_PER_DAY) by lia.
  rewrite Z.div_mul by (pose proof MS_PER_DAY_pos; lia). lia.
Qed.

(** What [handleBookingDragEnd] computes for a booking being dragged and a
    resolved target. *)
Lemma handleBookingDragEnd_moved (dragState : DragState) (booking : Booking.t)
    (targetDate : DayKey) (targetResourceId : string) :
  isDragging dragState = true →
  draggedBooking dragState = Some booking →
  truthy targetResourceId = true →
  handleBookingDragEnd dragState (Some targetDate) targetResourceId
  = (Some (booking,
           mkMovedTo targetResourceId targetDate
             (targetDate + (Booking.endDate booking - Booking.startDate booking))),
     idleDragState).
Proof.
  intros Hdrag Hbooking Hres. unfold handleBookingDragEnd.
  rewrite Hdrag, Hbooking, Hres. cbn [negb]. cbv zeta.
  replace (getTime (Booking.endDate booking) - getTime (Booking.startDate booking))
    with ((Booking.endDate booking - Booking.startDate booking) * MS_PER_DAY)
    by (unfold getTime; lia).
  rewrite ceil_div_days.
  replace ((Booking.endDate booking - Booking.startDate booking) * 24 * 60 * 60 * 1000)
    with ((Booking.endDate booking - Booking.startDate booking) * MS_PER_DAY)
    by (unfold MS_PER_DAY; lia).
  rewrite toISODate_shift. reflexivity.
Qed.

(** C8. Ending the drag of a booking with [startDate < endDate] on a
    resolved drop target reports the move to the target's resource with
    [startDate] the target's date and [endDate] that date plus
    [endDate - startDate] of the dragged booking (so the duration is kept),
    through [handleBookingDragEnd] and through the pointer-up handler,
    whether the target was recorded during the move or found under the
    pointer at release; the drag state is reset.  In particular a booking
    with [startDate = D2], [endDate = D5] dropped on [D9] is reported with
    [startDate = D9], [endDate = D12]. *)
Theorem C8_drag_duration_preserved (dragState : DragState) (booking : Booking.t) :
  isDragging dragState = true →
  draggedBooking dragState = Some booking →
  Booking.startDate booking < Booking.endDate booking →
  (∀ (targetDate : DayKey) (targetResourceId : string),
      truthy targetResourceId = true →
      ∃ moved,
        handleBookingDragEnd dragState (Some targetDate) targetResourceId
        = (Some (booking, moved), idleDragState)
        ∧ to_resourceId moved = targetResourceId
        ∧ to_startDate moved = targetDate
        ∧ to_endDate moved
          = targetDate + (Booking.endDate booking - Booking.startDate booking)
        ∧ to_endDate moved - to_startDate moved
          = Booking.endDate booking - Booking.startDate booking)
  ∧ (∀ (underPointer : option DropTarget) (t : DropTarget),
      dropTarget dragState = Some t
      ∨ (dropTarget dragState = None ∧ underPointer = Some t) →
      truthy (resourceId t) = true →
      onMouseUp_dragging dragState underPointer
      = (Some (booking,
               mkMovedTo (resourceId t) (date t)
                 (date t + (Booking.endDate booking - Booking.startDate booking))),
         idleDragState))
  ∧ (∀ D0 : DayKey,
      Booking.startDate booking = D0 + 2 →
      Booking.endDate booking = D0 + 5 →
      ∀ targetResourceId, truthy targetResourceId = true →
      handleBookingDragEnd dragState (Some (D0 + 9)) targetResourceId
      = (Some (booking, mkMovedTo targetResourceId (D0 + 9) (D0 + 12)),
         idleDragState)).
Proof.
  intros Hdrag Hbooking Hlt. split; [| split].
  - intros targetDate targetResourceId Hres. eexists. split.
    + apply handleBookingDragEnd_moved; assumption.
    + cbn. repeat split. lia.
  - intros underPointer t Ht Hres. unfold onMouseUp_dragging.
    assert (Hfinal : match dropTarget dragState with
                     | Some t' => Some t'
                     | None => underPointer
                     end = Some t).
    { destruct Ht as [-> | [-> ->]]; reflexivity. }
    rewrite Hfinal. apply handleBookingDragEnd_moved; assumption.
  - intros D0 Hs He targetResourceId Hres.
    rewrite (handleBookingDragEnd_moved dragState booking) by assumption.
    rewrite Hs, He.
    replace (D0 + 9 + (D0 + 5 - (D0 + 2))) with (D0 + 12) by lia. reflexivity.
Qed.

Lemma C8_drag_duration_preserved_witness :
  let booking := Booking.mk "b7" (Some "1007") "R1" 12 15 "Smith" "" in
  handleBookingDragEnd (handleBookingDragStart booking) (Some 19) "R4"
  = (Some (booking, mkMovedTo "R4" 19 22), idleDragState).
Proof.
  intros booking.
  apply (proj2 (proj2 (C8_drag_duration_preserved
                         (handleBookingDragStart booking) booking
                         eq_refl eq_refl eq_refl)) 10).
  - reflexivity.
  - reflexivity.
  - reflexivity.
Defined.

End DragFacts.

(** ** More on the timeline *)

Module TimelineProps.
Import DateUtils DateFacts.

Lemma findIndex_from_spec {A : Type} (p : A → bool) (l : list A) :
  ∀ k,
    (findIndex_from p l k = -1 ∧ ∀ x, x ∈ l → p x = false) ∨
    (∃ (n : nat) x,
        findIndex_from p l k = k + Z.of_nat n
        ∧ l !! n = Some x ∧ p x = true
        ∧ ∀ (j : nat) y, (j < n)%nat → l !! j = Some y → p y = false).
Proof.
  induction l as [|a l IH]; intros k; cbn [findIndex_from].
  - left. split; [reflexivity |]. intros x Hx. by apply not_elem_of_nil in Hx.
  - destruct (p a) eqn:Hpa.
    + right. exists 0%nat, a. split; [lia |]. split; [reflexivity |].
      split; [exact Hpa |]. intros j y Hj. lia.
    + destruct (IH (k + 1)) as [[Hnone Hall] | (n & x & Hidx & Hlook & Hpx & Hfirst)].
      * left. split; [exact Hnone |]. intros x Hx.
        apply elem_of_cons in Hx as [-> | Hx]; auto.
      * right. exists (S n), x. split; [lia |]. split; [exact Hlook |].
        split; [exact Hpx |]. intros j y Hj Hy. destruct j as [|j].
        -- cbn in Hy. inversion Hy; subst. exact Hpa.
        -- cbn in Hy. apply (Hfirst j y); [lia | exact Hy].
Qed.

(** [generateDateRange(days, start)] is the window of consecutive days
    from [start]: it has [days] entries (none when [days] is not positive),
    entry [i] is [start] plus [i] days, and nothing lies outside
    [0 .. days - 1]. *)
Theorem generateDateRange_consecutive_days (days : Z) (start : DayKey) :
  len (generateDateRange days start) = Z.max 0 days
  ∧ (∀ i, 0 ≤ i < days → at_index (generateDateRange days start) i = Some (addDays start i))
  ∧ (∀ i, i < 0 ∨ days ≤ i → at_index (generateDateRange days start) i = None)
  ∧ (∀ d, d ∈ generateDateRange days start ↔ start ≤ d < start + days).
Proof.
  split; [apply len_generateDateRange |]. split; [| split].
  - intros i Hi. rewrite at_index_generateDateRange. unfold addDays. zcases.
  - intros i Hi. rewrite at_index_generateDateRange. zcases.
  - intros d. split.
    + intros Hd. apply list_elem_of_lookup in Hd as [n Hn].
      unfold generateDateRange in Hn.
      assert (Hlen : (n < Z.to_nat days)%nat).
      { apply lookup_lt_Some in Hn. by rewrite loop_length in Hn. }
      rewrite loop_lookup in Hn by exact Hlen. inversion Hn; subst. lia.
    + intros Hd. apply list_elem_of_lookup. exists (Z.to_nat (d - start)).
      unfold generateDateRange. rewrite loop_lookup by lia. f_equal. lia.
Qed.

(** [getDateIndex] on any list of keys: the result is [-1] exactly when the
    key does not occur; otherwise it is the position of the first
    occurrence. *)
Theorem getDateIndex_first_occurrence (dateStr : DayKey) (dates : list DayKey) :
  (getDateIndex dateStr dates = -1 ∧ dateStr ∉ dates) ∨
  (0 ≤ getDateIndex dateStr dates < len dates
   ∧ at_index dates (getDateIndex dateStr dates) = Some dateStr
   ∧ ∀ j, 0 ≤ j < getDateIndex dateStr dates → at_index dates j ≠ Some dateStr).
Proof.
  unfold getDateIndex, findIndex.
  destruct (findIndex_from_spec (fun d => d =? dateStr) dates 0)
    as [[Hnone Hall] | (n & x & Hidx & Hlook & Hpx & Hfirst)].
  - left. split; [exact Hnone |]. intros Hin. specialize (Hall _ Hin).
    rewrite Z.eqb_refl in Hall. discriminate.
  - right. apply Z.eqb_eq in Hpx. subst x. rewrite Hidx.
    assert (Hlen : (n < length dates)%nat) by (eapply lookup_lt_Some; exact Hlook).
    unfold len, at_index. split; [lia |]. split.
    + destruct (Z.ltb_spec (0 + Z.of_nat n) 0); [lia |].
      replace (Z.to_nat (0 + Z.of_nat n)) with n by lia. exact Hlook.
    + intros j Hj Habs. destruct (Z.ltb_spec j 0); [lia |].
      specialize (Hfirst (Z.to_nat j) dateStr ltac:(lia) Habs).
      rewrite Z.eqb_refl in Hfirst. discriminate.
Qed.

(** Column and day determine each other on a generated window: the column
    of the day in column [i] is [i], and a day has a column exactly when it
    is one of the window's days. *)
Theorem window_column_round_trip (days : Z) (start : DayKey) :
  (∀ i d, at_index (generateDateRange days start) i = Some d →
          getDateIndex d (generateDateRange days start) = i)
  ∧ (∀ d, getDateIndex d (generateDateRange days start) ≠ -1 →
          at_index (generateDateRange days start)
            (getDateIndex d (generateDateRange days start)) = Some d)
  ∧ (∀ d, getDateIndex d (generateDateRange days start) = -1
          ↔ d < start ∨ start + days ≤ d).
Proof.
  split; [| split].
  - intros i d Hat. rewrite at_index_generateDateRange in Hat.
    rewrite getDateIndex_generateDateRange.
    destruct (Z.leb_spec 0 i), (Z.ltb_spec i days); cbn [andb] in Hat;
      try discriminate.
    inversion Hat; subst. zcases.
  - intros d Hd. rewrite getDateIndex_generateDateRange in *.
    rewrite at_index_generateDateRange.
    destruct (Z.leb_spec start d), (Z.ltb_spec d (start + days)); cbn [andb] in *;
      try contradiction.
    zcases. f_equal. lia.
  - intros d. rewrite getDateIndex_generateDateRange. zcases; split; lia.
Qed.

End TimelineProps.

(** ** More on the booking layout *)

Module LayoutProps.
Import DateUtils DateFacts Layout LayoutFacts.

(** On a window of [days] consecutive days, [BookingBlock] draws a booking
    with [startDate < endDate] exactly when one of its nights
    [startDate .. endDate - 1] falls in the window, and the block then lies
    on exactly the columns of those nights: it is clipped at both ends of
    the window and never reaches the checkout day. *)
Theorem BookingBlock_covers_exactly_the_nights (days : Z) (start : DayKey) (cw : Z)
    (b : Booking.t) :
  0 < days → Booking.startDate b < Booking.endDate b →
  (is_Some (BookingBlock b (generateDateRange days start) cw)
   ↔ Booking.startDate b < start + days ∧ start < Booking.endDate b)
  ∧ (∀ c, row_covers (generateDateRange days start) cw b c
          ↔ 0 ≤ c < days ∧ Booking.startDate b ≤ start + c < Booking.endDate b)
  ∧ (∀ blk, BookingBlock b (generateDateRange days start) cw = Some blk →
            0 ≤ visibleStartIndex blk ≤ visibleEndIndex blk
            ∧ visibleEndIndex blk < days
            ∧ 1 ≤ span blk ≤ days
            ∧ left_px blk = visibleStartIndex blk * cw
            ∧ width_px blk = span blk * cw).
Proof.
  intros Hdays Hlt. split; [| split].
  - rewrite BookingBlock_window by assumption.
    destruct (Z.ltb_spec (Booking.startDate b) (start + days)),
             (Z.ltb_spec start (Booking.endDate b)); cbn [andb]; split;
      try (intros [? ?]; discriminate); try lia; eauto.
  - intros c. by apply row_covers_window.
  - intros blk Hblk. rewrite BookingBlock_window in Hblk by assumption.
    destruct (Z.ltb_spec (Booking.startDate b) (start + days)),
             (Z.ltb_spec start (Booking.endDate b)); cbn [andb] in Hblk;
      try discriminate.
    inversion Hblk; subst blk; clear Hblk. cbn. repeat split; lia.
Qed.

Lemma BookingBlock_covers_exactly_the_nights_witness :
  let b := Booking.mk "b1" (Some "1001") "R1" 8 13 "Smith" "note" in
  is_Some (BookingBlock b (generateDateRange 30 10) 100)
  ∧ row_covers (generateDateRange 30 10) 100 b 2
  ∧ ¬ row_covers (generateDateRange 30 10) 100 b 3.
Proof.
  intros b.
  destruct (BookingBlock_covers_exactly_the_nights 30 10 100 b) as (Hvis & Hcov & _).
  - lia.
  - cbn. lia.
  - split; [apply Hvis; cbn; lia |]. split.
    + apply Hcov. cbn. lia.
    + intros H. apply Hcov in H. cbn in H. lia.
Defined.

(** The grid rendering ([cellRenderer] with [GridBookingCell]) and the row
    rendering ([BookingBlock]) put a booking on the same columns; in the
    grid the booking is hosted by one cell only, the one of its first
    visible night. *)
Theorem grid_and_row_rendering_agree (days : Z) (start : DayKey) (cw : Z)
    (b : Booking.t) (bookings : list Booking.t) :
  0 < days → Booking.startDate b < Booking.endDate b → b ∈ bookings →
  (∀ c, grid_covers (generateDateRange days start) bookings cw b c
        ↔ row_covers (generateDateRange days start) cw b c)
  ∧ (∀ c0 g, 0 ≤ c0 < days →
       (b, g) ∈ cellRenderer_bookings (generateDateRange days start) bookings cw
                  (Booking.resourceId b) (c0 + 1) →
       c0 = Z.max 0 (Booking.startDate b - start)
       ∧ ∃ blk, BookingBlock b (generateDateRange days start) cw = Some blk
                ∧ g = Some (mkGridBlock (visibleStartIndex blk) (visibleEndIndex blk)
                              (span blk) (width_px blk))
                ∧ visibleStartIndex blk = c0).
Proof.
  intros Hdays Hlt Hin. split.
  - intros c. rewrite grid_covers_window, row_covers_window by assumption.
    reflexivity.
  - intros c0 g Hc0 Hel.
    apply cellRenderer_bookings_elem in Hel as (_ & _ & Hov & Hfirst & Hg).
    apply (cellFilter_overlaps_BookingBlock _ _ cw) in Hov.
    rewrite GridBookingCell_BookingBlock in Hg.
    rewrite BookingBlock_window in Hov, Hg |- * by assumption.
    destruct (Z.ltb_spec (Booking.startDate b) (start + days)),
             (Z.ltb_spec start (Booking.endDate b));
      cbn [andb] in *; try (destruct Hov; discriminate).
    apply cellFilter_firstVisible_window in Hfirst; [| lia | lia].
    split; [exact Hfirst |]. eexists. split; [reflexivity |].
    split; [exact Hg |]. cbn. lia.
Qed.

Lemma grid_and_row_rendering_agree_witness :
  let b := Booking.mk "b1" (Some "1001") "R1" 8 13 "Smith" "note" in
  grid_covers (generateDateRange 30 10) [b] 100 b 2
  ↔ row_covers (generateDateRange 30 10) 100 b 2.
Proof.
  intros b.
  apply (proj1 (grid_and_row_rendering_agree 30 10 100 b [b]
                  ltac:(lia) ltac:(cbn; lia)
                  ltac:(apply list_elem_of_singleton; reflexivity))).
Defined.

(** A booking with [startDate = endDate] (what a click on one cell without
    movement creates): [BookingBlock] draws it across the whole window when
    the day is the first day of the window or the day after its last day,
    with a span of zero columns when it is any other day of the window, and
    not at all otherwise. *)
Theorem BookingBlock_zero_night_booking (days : Z) (start : DayKey) (cw : Z)
    (b : Booking.t) :
  0 < days → Booking.endDate b = Booking.startDate b →
  let d := Booking.startDate b in
  let dates := generateDateRange days start in
  (d = start ∨ d = start + days →
   BookingBlock b dates cw = Some (mkBlock 0 (days - 1) (0 * cw) days (days * cw)))
  ∧ (start < d < start + days →
     BookingBlock b dates cw
     = Some (mkBlock (d - start) (d - start - 1) ((d - start) * cw) 0 (0 * cw)))
  ∧ (d < start ∨ start + days < d → BookingBlock b dates cw = None).
Proof.
  intros Hdays Heq d dates. subst d dates.
  unfold BookingBlock. rewrite Heq. on_window.
  rewrite (Z.max_r 0 days) by lia.
  split; [| split]; intros Hd; zcases; repeat (f_equal; try lia).
Qed.

Lemma BookingBlock_zero_night_booking_witness :
  let b := Booking.mk "b9" None "R1" 10 10 "Click" "note" in
  BookingBlock b (generateDateRange 30 10) 100
  = Some (mkBlock 0 (30 - 1) (0 * 100) 30 (30 * 100)).
Proof.
  intros b.
  apply (proj1 (BookingBlock_zero_night_booking 30 10 100 b ltac:(lia) eq_refl)).
  left. reflexivity.
Defined.

End LayoutProps.

(** ** The earlier layout code *)

Module LegacyLayoutProps.
Import DateUtils DateFacts Layout LayoutFacts.

(** The earlier [BookingBlock], on a window of consecutive days: a booking
    is drawn on some column only when its checkout day [endDate] is a day of
    the window, and then from its first visible day up to and including the
    checkout day.  A booking whose checkout day lies after the window is on
    no column, even when it starts inside the window. *)
Theorem legacy_BookingBlock_needs_checkout_in_window (days : Z) (start : DayKey)
    (cw : Z) (b : Booking.t) (c : Z) :
  0 < days → Booking.startDate b ≤ Booking.endDate b →
  legacy_covers (generateDateRange days start) cw b c
  ↔ start ≤ Booking.endDate b < start + days
    ∧ 0 ≤ c
    ∧ Booking.startDate b ≤ start + c ≤ Booking.endDate b.
Proof.
  intros Hdays Hle. unfold legacy_covers, BookingBlock_legacy. on_window.
  rewrite (Z.max_r 0 days) by lia. split.
  - intros (blk & Hblk & Hc). revert Hblk Hc. zcases; intros Hblk Hc;
      try discriminate; inversion Hblk; subst blk; clear Hblk;
      unfold covers in Hc; cbn in Hc;
      apply andb_true_iff in Hc as [Ha Hb];
      apply Z.leb_le in Ha; apply Z.ltb_lt in Hb; lia.
  - intros (He & Hc & Hs).
    zcases; (eexists; split; [reflexivity |]);
      unfold covers; cbn; apply andb_true_iff;
      (split; [apply Z.leb_le | apply Z.ltb_lt]); lia.
Qed.

Lemma legacy_BookingBlock_needs_checkout_in_window_witness :
  let inside := Booking.mk "b1" (Some "1001") "R1" 12 15 "Smith" "note" in
  let past_end := Booking.mk "b2" (Some "1002") "R1" 35 45 "Jones" "note" in
  legacy_covers (generateDateRange 30 10) 100 inside 5
  ∧ ¬ legacy_covers (generateDateRange 30 10) 100 past_end 25.
Proof.
  intros inside past_end. split.
  - apply (legacy_BookingBlock_needs_checkout_in_window 30 10 100 inside 5);
      cbn; lia.
  - intros H.
    apply (legacy_BookingBlock_needs_checkout_in_window 30 10 100 past_end 25) in H;
      cbn in *; lia.
Defined.

Lemma legacy_cell_elem (dates : list DayKey) (bookings : list Booking.t) (cw : Z)
    (rowId : string) (col : Z) (b : Booking.t) (blk : LegacyGrid.CellBlock) :
  (b, blk) ∈ LegacyGrid.cellRenderer_bookings dates bookings cw rowId col
  ↔ b ∈ bookings
    ∧ Booking.resourceId b = rowId
    ∧ eq_undef (Some (Booking.startDate b)) (at_index dates (col - 1)) = true
    ∧ blk = LegacyGrid.mkCellBlock
              (indexOf dates (Booking.endDate b) - indexOf dates (Booking.startDate b))
              ((indexOf dates (Booking.endDate b) - indexOf dates (Booking.startDate b))
               * cw).
Proof.
  unfold LegacyGrid.cellRenderer_bookings. rewrite list_elem_of_fmap. split.
  - intros [b' [Heq Hin]]. inversion Heq; subst; clear Heq.
    apply list_elem_of_In, filter_In in Hin as [Hin Hf].
    apply andb_true_iff in Hf as [H1 H2]. apply String.eqb_eq in H1.
    apply list_elem_of_In in Hin. auto.
  - intros (Hin & H1 & H2 & ->). exists b. split; [reflexivity |].
    apply list_elem_of_In, filter_In. split; [by apply list_elem_of_In |].
    apply andb_true_iff. split; [by apply String.eqb_eq | exact H2].
Qed.

(** The grid cell of the drag-and-drop variant, on a window of consecutive
    days: a booking is drawn on some column only when both its first day and
    its checkout day are days of the window, and then on exactly its nights
    [startDate .. endDate - 1].  A booking that starts before the window or
    checks out after its last day is on no column, even when some of its
    nights are in the window. *)
Theorem legacy_grid_needs_both_ends_in_window (days : Z) (start : DayKey) (cw : Z)
    (b : Booking.t) (bookings : list Booking.t) (c : Z) :
  0 < days → b ∈ bookings →
  LegacyGrid.grid_covers (generateDateRange days start) bookings cw b c
  ↔ start ≤ Booking.startDate b
    ∧ Booking.endDate b < start + days
    ∧ Booking.startDate b ≤ start + c < Booking.endDate b.
Proof.
  intros Hdays Hin. unfold LegacyGrid.grid_covers. split.
  - intros (c0 & blk & Hel & Hc0 & Hc).
    apply legacy_cell_elem in Hel as (_ & _ & Hdate & ->).
    rewrite len_generateDateRange in Hc0.
    replace (c0 + 1 - 1) with c0 in Hdate by lia.
    cbn [LegacyGrid.cell_duration] in Hc. revert Hdate Hc. on_window.
    zcases; intros Hdate Hc; try discriminate; lia.
  - intros (Hs & He & Hc).
    exists (Booking.startDate b - start). eexists. split; [| split].
    + apply legacy_cell_elem. split; [exact Hin |]. split; [reflexivity |].
      split; [| reflexivity].
      replace (Booking.startDate b - start + 1 - 1) with (Booking.startDate b - start)
        by lia.
      on_window. zcases.
    + rewrite len_generateDateRange. lia.
    + cbn [LegacyGrid.cell_duration]. on_window. zcases.
Qed.

Lemma legacy_grid_needs_both_ends_in_window_witness :
  let inside := Booking.mk "b1" (Some "1001") "R1" 12 15 "Smith" "note" in
  let early := Booking.mk "b2" (Some "1002") "R1" 8 15 "Jones" "note" in
  LegacyGrid.grid_covers (generateDateRange 30 10) [inside; early] 100 inside 3
  ∧ ¬ LegacyGrid.grid_covers (generateDateRange 30 10) [inside; early] 100 early 3.
Proof.
  intros inside early. split.
  - apply (legacy_grid_needs_both_ends_in_window 30 10 100 inside [inside; early] 3).
    + lia.
    + apply list_elem_of_here.
    + cbn. lia.
  - intros H.
    apply (legacy_grid_needs_both_ends_in_window 30 10 100 early [inside; early] 3) in H.
    + cbn in H. lia.
    + lia.
    + apply list_elem_of_further, list_elem_of_here.
Defined.

End LegacyLayoutProps.

(** ** More on filtering, flattening and expand / collapse *)

Module RowsProps.
Import JsString Rows RowsFacts Expand RowOrder.

Lemma group_eta (g : ResourceGroup.t) :
  ResourceGroup.mk (ResourceGroup.id g) (ResourceGroup.name g)
    (ResourceGroup.expanded g) (ResourceGroup.children g) = g.
Proof. destruct g; reflexivity. Qed.

Lemma spec_flatten_app (gs1 gs2 : list ResourceGroup.t) :
  spec_flatten (gs1 ++ gs2) = spec_flatten gs1 ++ spec_flatten gs2.
Proof.
  induction gs1 as [|g gs1 IH]; [reflexivity |].
  cbn [app spec_flatten]. rewrite IH. by rewrite <- app_assoc.
Qed.

Lemma handleToggleExpand_other (parentId : string) (gs : list ResourceGroup.t) :
  (∀ g, g ∈ gs → ResourceGroup.id g ≠ parentId) →
  handleToggleExpand parentId gs = gs.
Proof.
  intros Hne. unfold handleToggleExpand. induction gs as [|g gs IH]; [reflexivity |].
  cbn [map]. rewrite IH by (intros x Hx; apply Hne; by apply list_elem_of_further).
  destruct (String.eqb_spec (ResourceGroup.id g) parentId) as [Heq | _];
    [| reflexivity].
  exfalso. exact (Hne g (list_elem_of_here _ _) Heq).
Qed.

(** Toggling a group twice gives the resource tree back; a toggle keeps
    the number and order of the groups, their ids, names and children. *)
Theorem handleToggleExpand_twice (parentId : string) (resources : list ResourceGroup.t) :
  handleToggleExpand parentId (handleToggleExpand parentId resources) = resources
  ∧ length (handleToggleExpand parentId resources) = length resources
  ∧ map ResourceGroup.id (handleToggleExpand parentId resources)
    = map ResourceGroup.id resources
  ∧ map ResourceGroup.name (handleToggleExpand parentId resources)
    = map ResourceGroup.name resources
  ∧ map ResourceGroup.children (handleToggleExpand parentId resources)
    = map ResourceGroup.children resources.
Proof.
  unfold handleToggleExpand. split; [| split; [| split; [| split]]].
  - induction resources as [|g gs IH]; [reflexivity |].
    cbn [map]. rewrite IH. f_equal.
    destruct (String.eqb_spec (ResourceGroup.id g) parentId) as [Heq | Hne].
    + cbn [ResourceGroup.id]. rewrite <- Heq, String.eqb_refl.
      cbn. rewrite negb_involutive. apply group_eta.
    + apply String.eqb_neq in Hne. rewrite Hne. reflexivity.
  - apply length_map.
  - rewrite map_map. apply map_ext. intros g.
    destruct (String.eqb _ _); reflexivity.
  - rewrite map_map. apply map_ext. intros g.
    destruct (String.eqb _ _); reflexivity.
  - rewrite map_map. apply map_ext. intros g.
    destruct (String.eqb _ _); reflexivity.
Qed.

(** With no filter set, toggling the one group that has the id [parentId]
    changes the rows of that group only: the rows of the groups before and
    after it stay, and the group shows its header alone when it becomes
    collapsed, its header followed by all its children when it becomes
    expanded. *)
Theorem toggle_changes_only_the_rows_of_the_group (parentId : string)
    (before after : list ResourceGroup.t) (g : ResourceGroup.t)
    (bookings : list Booking.t) :
  ResourceGroup.id g = parentId →
  (∀ x, x ∈ before ++ after → ResourceGroup.id x ≠ parentId) →
  let toggled :=
    ResourceGroup.mk (ResourceGroup.id g) (ResourceGroup.name g)
      (negb (ResourceGroup.expanded g)) (ResourceGroup.children g) in
  visibleRows (before ++ g :: after) bookings "" ""
  = Some (spec_flatten before
          ++ ParentRow g
             :: (if ResourceGroup.expanded g
                 then map (fun c => ChildRow c parentId) (children_or_empty g)
                 else [])
          ++ spec_flatten after)
  ∧ visibleRows (handleToggleExpand parentId (before ++ g :: after)) bookings "" ""
    = Some (spec_flatten before
            ++ ParentRow toggled
               :: (if ResourceGroup.expanded g
                   then []
                   else map (fun c => ChildRow c parentId) (children_or_empty g))
            ++ spec_flatten after).
Proof.
  intros Hid Hother toggled. subst toggled.
  assert (Hflat : ∀ rs, visibleRows rs bookings "" "" = Some (spec_flatten rs)).
  { intros rs. unfold visibleRows. cbn [truthy]. by rewrite flat_map_no_search. }
  rewrite !Hflat. split.
  - rewrite spec_flatten_app. cbn [spec_flatten]. rewrite Hid.
    unfold children_or_empty. reflexivity.
  - unfold handleToggleExpand. rewrite map_app. cbn [map].
    fold (handleToggleExpand parentId before). fold (handleToggleExpand parentId after).
    rewrite !handleToggleExpand_other
      by (intros x Hx; apply Hother; apply elem_of_app; auto).
    rewrite Hid, String.eqb_refl, spec_flatten_app. cbn [spec_flatten].
    cbn [ResourceGroup.expanded ResourceGroup.children ResourceGroup.id].
    unfold children_or_empty. destruct (ResourceGroup.expanded g); reflexivity.
Qed.

Lemma toggle_changes_only_the_rows_of_the_group_witness :
  let r1 := Resource.mk "R1" "Room-1" in
  let g1 := ResourceGroup.mk "G1" "Block 1" true (Some [r1]) in
  let g2 := ResourceGroup.mk "G2" "Block 2" false (Some [Resource.mk "R2" "Room-2"]) in
  visibleRows (handleToggleExpand "G1" ([] ++ g1 :: [g2])) [] "" ""
  = Some (spec_flatten []
          ++ ParentRow (ResourceGroup.mk "G1" "Block 1" false (Some [r1]))
             :: [] ++ spec_flatten [g2]).
Proof.
  intros r1 g1 g2.
  apply (proj2 (toggle_changes_only_the_rows_of_the_group "G1" [] [g2] g1 []
                  eq_refl
                  ltac:(intros x Hx; apply list_elem_of_singleton in Hx; subst x;
                        discriminate))).
Defined.

(** While a booking-ID filter is set, expanding or collapsing a group has
    no effect on the rows: every surviving group is shown expanded. *)
Theorem toggle_has_no_effect_under_booking_filter (parentId : string)
    (resources : list ResourceGroup.t) (bookings : list Booking.t)
    (searchTerm selectedBookingId : string) :
  truthy selectedBookingId = true →
  visibleRows (handleToggleExpand parentId resources) bookings searchTerm
    selectedBookingId
  = visibleRows resources bookings searchTerm selectedBookingId.
Proof.
  intros Hsel. unfold visibleRows. rewrite Hsel.
  destruct (matchingBookings selectedBookingId bookings) as [matching|];
    [| reflexivity].
  assert (Hsame : filterByBookingId (matchingResourceIds matching)
                    (handleToggleExpand parentId resources)
                  = filterByBookingId (matchingResourceIds matching) resources).
  { unfold filterByBookingId, handleToggleExpand. rewrite map_map. f_equal.
    apply map_ext. intros g. unfold children_or_empty.
    destruct (String.eqb _ _); reflexivity. }
  rewrite Hsame. reflexivity.
Qed.

Lemma toggle_has_no_effect_under_booking_filter_witness :
  let g := ResourceGroup.mk "G1" "Block 1" false (Some [Resource.mk "R1" "Room-1"]) in
  let b := Booking.mk "77" (Some "77") "R1" 0 3 "Smith" "note" in
  visibleRows (handleToggleExpand "G1" [g]) [b] "" "7" = visibleRows [g] [b] "" "7".
Proof.
  intros g b.
  apply (toggle_has_no_effect_under_booking_filter "G1" [g] [b] "" "7"). reflexivity.
Defined.

(** *** Search *)

Lemma lower_char_idem (c : ascii) : lower_char (lower_char c) = lower_char c.
Proof. destruct c as [[] [] [] [] [] [] [] []]; reflexivity. Qed.

Lemma toLowerCase_idem (s : string) : toLowerCase (toLowerCase s) = toLowerCase s.
Proof.
  induction s as [|c s IH]; [reflexivity |].
  cbn [toLowerCase]. by rewrite lower_char_idem, IH.
Qed.

Lemma truthy_toLowerCase (s : string) : truthy (toLowerCase s) = truthy s.
Proof. destruct s; reflexivity. Qed.

(** The search does not depend on the case of the term typed: the term and
    its lower-case form give the same rows. *)
Theorem search_term_case_is_ignored (resources : list ResourceGroup.t)
    (bookings : list Booking.t) (searchTerm selectedBookingId : string) :
  visibleRows resources bookings (toLowerCase searchTerm) selectedBookingId
  = visibleRows resources bookings searchTerm selectedBookingId.
Proof.
  unfold visibleRows, filterBySearchTerm, rowsOfParent.
  rewrite truthy_toLowerCase, toLowerCase_idem. reflexivity.
Qed.

(** The rows of one group under a search term. *)
Lemma rowsOfParent_elem_search (s : string) (g : ResourceGroup.t) (r : VisibleRow) :
  truthy s = true →
  r ∈ rowsOfParent s g
  ↔ r = ParentRow g
    ∨ ∃ c, r = ChildRow c (ResourceGroup.id g)
           ∧ ResourceGroup.expanded g = true
           ∧ c ∈ children_or_empty g
           ∧ includes (toLowerCase (Resource.name c)) (toLowerCase s) = true.
Proof.
  intros Hs. unfold rowsOfParent. rewrite Hs. cbn [negb orb].
  destruct (ResourceGroup.expanded g); cbn [negb].
  - rewrite elem_of_cons, list_elem_of_fmap. split.
    + intros [-> | (c & -> & Hc)]; [by left |].
      apply elem_of_List_filter in Hc as [Hc Hm]. right. eauto.
    + intros [-> | (c & -> & _ & Hc & Hm)]; [by left |].
      right. exists c. split; [reflexivity |]. by apply elem_of_List_filter.
  - rewrite list_elem_of_singleton. split.
    + intros ->. by left.
    + intros [-> | (c & _ & Habs & _)]; [reflexivity | discriminate].
Qed.

(** With a search term and no booking-ID filter, the rows are: the header
    of every group whose name, or one of whose children's names, contains
    the term (whatever the case of either), and under each such header that
    is expanded, the children whose own name contains the term.  No child
    whose name does not contain the term is shown. *)
Theorem search_rows_characterised (resources : list ResourceGroup.t)
    (bookings : list Booking.t) (searchTerm : string) :
  truthy searchTerm = true →
  ∃ rows, visibleRows resources bookings searchTerm "" = Some rows
    ∧ (∀ g, ParentRow g ∈ rows
            ↔ g ∈ resources
              ∧ (includes (toLowerCase (ResourceGroup.name g))
                   (toLowerCase searchTerm) = true
                 ∨ someChildMatches searchTerm g = true))
    ∧ (∀ c pid, ChildRow c pid ∈ rows
                ↔ ∃ g, g ∈ resources
                       ∧ ResourceGroup.id g = pid
                       ∧ ResourceGroup.expanded g = true
                       ∧ c ∈ children_or_empty g
                       ∧ includes (toLowerCase (Resource.name c))
                           (toLowerCase searchTerm) = true).
Proof.
  intros Hs. unfold visibleRows. cbn [truthy]. rewrite Hs.
  eexists. split; [reflexivity |].
  assert (Hfilt : ∀ g, g ∈ filterBySearchTerm searchTerm resources
            ↔ g ∈ resources
              ∧ (includes (toLowerCase (ResourceGroup.name g))
                   (toLowerCase searchTerm) = true
                 ∨ someChildMatches searchTerm g = true)).
  { intros g. unfold filterBySearchTerm. rewrite elem_of_List_filter.
    unfold someChildMatches. rewrite orb_true_iff. reflexivity. }
  assert (Hrow : ∀ r, r ∈ flat_map (rowsOfParent searchTerm)
                            (filterBySearchTerm searchTerm resources)
            ↔ ∃ g, g ∈ filterBySearchTerm searchTerm resources
                   ∧ r ∈ rowsOfParent searchTerm g).
  { intros r. rewrite list_elem_of_In, in_flat_map.
    split; intros (g & Hg & Hr); exists g.
    - by rewrite !list_elem_of_In.
    - by rewrite <- !list_elem_of_In. }
  split.
  - intros g. rewrite Hrow. split.
    + intros (g' & Hg' & Hr). apply rowsOfParent_elem_search in Hr; [| exact Hs].
      destruct Hr as [Heq | (c & Habs & _)]; [| discriminate].
      inversion Heq; subst g'. by apply Hfilt.
    + intros Hg. exists g. split; [by apply Hfilt |].
      apply rowsOfParent_elem_search; [exact Hs | by left].
  - intros c pid. rewrite Hrow. split.
    + intros (g & Hg & Hr). apply rowsOfParent_elem_search in Hr; [| exact Hs].
      destruct Hr as [Habs | (c' & Heq & Hexp & Hc & Hm)]; [discriminate |].
      inversion Heq; subst c' pid. apply Hfilt in Hg as [Hg _].
      exists g. auto.
    + intros (g & Hg & Hid & Hexp & Hc & Hm). exists g. split.
      * apply Hfilt. split; [exact Hg |]. right. unfold someChildMatches.
        apply existsb_exists. exists c. split; [by apply list_elem_of_In | exact Hm].
      * apply rowsOfParent_elem_search; [exact Hs |]. right. exists c.
        rewrite Hid. auto.
Qed.

Lemma search_rows_characterised_witness :
  let r1 := Resource.mk "R1" "Room-1 Garden" in
  let r2 := Resource.mk "R2" "Room-2 Ocean" in
  let g := ResourceGroup.mk "G1" "Block 1" true (Some [r1; r2]) in
  ∃ rows, visibleRows [g] [] "OCEAN" "" = Some rows
    ∧ ParentRow g ∈ rows ∧ ChildRow r2 "G1" ∈ rows ∧ ChildRow r1 "G1" ∉ rows.
Proof.
  intros r1 r2 g.
  destruct (search_rows_characterised [g] [] "OCEAN" eq_refl)
    as (rows & Hrows & Hparent & Hchild).
  exists rows. split; [exact Hrows |]. split; [| split].
  - apply Hparent. split; [apply list_elem_of_here |]. right. reflexivity.
  - apply Hchild. exists g. split; [apply list_elem_of_here |].
    repeat split. apply list_elem_of_further, list_elem_of_here.
  - intros H. apply Hchild in H as (g' & _ & _ & _ & _ & Hm).
    vm_compute in Hm. discriminate.
Defined.

(** *** Order *)

Lemma List_filter_sublist {A : Type} (f : A → bool) (l : list A) :
  List.filter f l `sublist_of` l.
Proof.
  induction l as [|x l IH]; cbn [List.filter]; [constructor |].
  destruct (f x); by constructor.
Qed.

Lemma subtree_refl (gs : list ResourceGroup.t) : subtree gs gs.
Proof.
  induction gs as [|g gs IH]; constructor; [| exact IH].
  split; reflexivity.
Qed.

Lemma subtree_filter (p : ResourceGroup.t → bool) (gs' gs : list ResourceGroup.t) :
  subtree gs' gs → subtree (List.filter p gs') gs.
Proof.
  induction 1 as [| g gs' gs _ IH | g' g gs' gs Hg _ IH]; cbn [List.filter].
  - constructor.
  - by constructor.
  - destruct (p g'); by constructor.
Qed.

Lemma subtree_filterByBookingId (ids : gset string) (rs : list ResourceGroup.t) :
  subtree (filterByBookingId ids rs) rs.
Proof.
  unfold filterByBookingId. induction rs as [|g rs IH]; [constructor |].
  cbn [map List.filter ResourceGroup.children].
  destruct (0 <? _)%Z; [| by constructor].
  constructor; [| exact IH]. split; [reflexivity |].
  unfold children_or_empty at 1. cbn [ResourceGroup.children].
  apply List_filter_sublist.
Qed.

Lemma rowsOfParent_keys (s : string) (g' g : ResourceGroup.t) :
  trimmed g' g →
  map rowKey (rowsOfParent s g')
  `sublist_of`
  map rowKey
    (ParentRow g
     :: map (fun c => ChildRow c (ResourceGroup.id g)) (children_or_empty g)).
Proof.
  intros [Hid Hsub]. unfold rowsOfParent.
  destruct (ResourceGroup.expanded g'); cbn [negb map rowKey]; rewrite Hid.
  - apply sublist_skip. rewrite !map_map. cbn [rowKey].
    transitivity (map (fun c => @inr string _ (ResourceGroup.id g, Resource.id c))
                    (children_or_empty g')).
    + apply (fmap_sublist (fun c => @inr string _ (ResourceGroup.id g, Resource.id c))).
      apply List_filter_sublist.
    + apply (fmap_sublist (fun c => @inr string _ (ResourceGroup.id g, Resource.id c))).
      exact Hsub.
  - apply sublist_skip, sublist_nil_l.
Qed.

Lemma subtree_keys (s : string) (gs' gs : list ResourceGroup.t) :
  subtree gs' gs →
  map rowKey (flat_map (rowsOfParent s) gs')
  `sublist_of` map rowKey (spec_flatten (expandAll gs)).
Proof.
  induction 1 as [| g gs' gs _ IH | g' g gs' gs Hg _ IH].
  - constructor.
  - cbn [expandAll map spec_flatten ResourceGroup.expanded ResourceGroup.id
         ResourceGroup.children].
    apply sublist_cons. rewrite map_app. by apply sublist_inserts_l.
  - cbn [flat_map expandAll map spec_flatten ResourceGroup.expanded ResourceGroup.id
         ResourceGroup.children].
    rewrite map_app.
    change (map rowKey (rowsOfParent s g') ++ map rowKey (flat_map (rowsOfParent s) gs')
            `sublist_of`
            map rowKey
              ((ParentRow (ResourceGroup.mk (ResourceGroup.id g) (ResourceGroup.name g)
                             true (ResourceGroup.children g))
                :: map (fun c => ChildRow c (ResourceGroup.id g)) (children_or_empty g))
               ++ spec_flatten (expandAll gs))).
    rewrite map_app. apply sublist_app; [| exact IH].
    exact (rowsOfParent_keys s g' g Hg).
Qed.

(** Filters and collapsed groups only take rows away: whatever the search
    term, the booking-ID filter and the expanded flags, the rows shown are,
    in the same order, some of the rows of the whole tree with every group
    expanded (rows compared by the id of their group and their own id). *)
Theorem visible_rows_keep_the_order_of_the_tree (resources : list ResourceGroup.t)
    (bookings : list Booking.t) (searchTerm selectedBookingId : string)
    (rows : list VisibleRow) :
  visibleRows resources bookings searchTerm selectedBookingId = Some rows →
  map rowKey rows `sublist_of` map rowKey (spec_flatten (expandAll resources))
  ∧ (length rows ≤ length (spec_flatten (expandAll resources)))%nat.
Proof.
  intros Hrows.
  assert (Hsub : map rowKey rows
                 `sublist_of` map rowKey (spec_flatten (expandAll resources))).
  { unfold visibleRows in Hrows.
    destruct (truthy selectedBookingId).
    - destruct (matchingBookings selectedBookingId bookings) as [matching|];
        [| discriminate].
      inversion Hrows; subst rows; clear Hrows. apply subtree_keys.
      destruct (truthy searchTerm).
      + apply subtree_filter, subtree_filterByBookingId.
      + apply subtree_filterByBookingId.
    - inversion Hrows; subst rows; clear Hrows. apply subtree_keys.
      destruct (truthy searchTerm).
      + apply subtree_filter, subtree_refl.
      + apply subtree_refl. }
  split; [exact Hsub |].
  apply sublist_length in Hsub. by rewrite !length_map in Hsub.
Qed.

Lemma visible_rows_keep_the_order_of_the_tree_witness :
  let r1 := Resource.mk "R1" "Room-1 Garden" in
  let r2 := Resource.mk "R2" "Room-2 Ocean" in
  let g1 := ResourceGroup.mk "G1" "Block 1" false (Some [r1; r2]) in
  let g2 := ResourceGroup.mk "G2" "Block 2" true (Some [Resource.mk "R3" "Room-3 Ocean"]) in
  let b := Booking.mk "77" (Some "77") "R2" 0 3 "Smith" "note" in
  let rows :=
    [ParentRow (ResourceGroup.mk "G1" "Block 1" true (Some [r2])); ChildRow r2 "G1"] in
  visibleRows [g1; g2] [b] "ocean" "7" = Some rows
  ∧ map rowKey rows `sublist_of` map rowKey (spec_flatten (expandAll [g1; g2])).
Proof.
  intros r1 r2 g1 g2 b rows.
  assert (Hrows : visibleRows [g1; g2] [b] "ocean" "7" = Some rows)
    by (vm_compute; reflexivity).
  split; [exact Hrows |].
  exact (proj1 (visible_rows_keep_the_order_of_the_tree [g1; g2] [b] "ocean" "7" rows
                  Hrows)).
Defined.

End RowsProps.

(** ** The booking-ID suggestions, the page's bookings and the form *)

Module FormProps.
Import DateUtils DateFacts JsString Rows RowsFacts Scheduler Modal Page Suggestions.

Lemma prefix_refl (s : string) : String.prefix s s = true.
Proof.
  induction s as [|c s IH]; [reflexivity |].
  cbn [String.prefix]. destruct (Ascii.ascii_dec c c); [exact IH | contradiction].
Qed.

Lemma includes_refl (s : string) : includes s s = true.
Proof. destruct s; cbn [includes]; rewrite prefix_refl; reflexivity. Qed.

Lemma includes_truthy (s sub : string) :
  includes s sub = true → truthy sub = true → truthy s = true.
Proof. destruct s, sub; cbn; intros; try discriminate; reflexivity. Qed.

Lemma elem_of_take_source {A : Type} (n : nat) (l : list A) (x : A) :
  x ∈ take n l → x ∈ l.
Proof. intros H. by apply (sublist_subseteq _ _ (sublist_take l n)). Qed.

Lemma bookingSuggestions_is_Some (selectedBookingId : string)
    (bookings : list Booking.t) :
  is_Some (bookingSuggestions selectedBookingId bookings)
  ↔ truthy selectedBookingId = false
    ∨ ∀ b, b ∈ bookings → is_Some (Booking.booking_id b).
Proof.
  unfold bookingSuggestions.
  destruct (truthy selectedBookingId) eqn:Hsel; cbn [negb].
  - rewrite <- (matchingBookings_is_Some selectedBookingId).
    destruct (matchingBookings selectedBookingId bookings); split.
    + intros _. right. eauto.
    + eauto.
    + intros [? ?]; discriminate.
    + intros [? | [? ?]]; discriminate.
  - split; [by left | eauto].
Qed.

Lemma bookingSuggestions_elem (selectedBookingId : string) (bookings : list Booking.t)
    (suggestions : list Suggestion) (s : Suggestion) :
  bookingSuggestions selectedBookingId bookings = Some suggestions →
  s ∈ suggestions →
  ∃ b, b ∈ bookings
       ∧ Booking.booking_id b = Some (suggestion_id s)
       ∧ Booking.resourceId b = suggestion_resourceId s
       ∧ includes (suggestion_id s) selectedBookingId = true.
Proof.
  unfold bookingSuggestions. intros Hs Hin.
  destruct (truthy selectedBookingId) eqn:Hsel; cbn [negb] in Hs.
  - destruct (matchingBookings selectedBookingId bookings) as [matching|] eqn:Hm;
      [| discriminate].
    inversion Hs; subst suggestions; clear Hs.
    apply list_elem_of_fmap in Hin as (b & -> & Hb).
    apply elem_of_take_source in Hb.
    apply (matchingBookings_elem _ _ _ Hm) in Hb as [Hb (sid & Hid & Hinc)].
    exists b. cbn [suggestion_id suggestion_resourceId]. rewrite Hid. auto.
  - inversion Hs; subst. by apply not_elem_of_nil in Hin.
Qed.

(** The suggestion list: it is computed exactly when the booking-ID box is
    empty or every booking carries a [booking_id] (as for the rows); it is
    empty for an empty box; it never has more than 10 entries; and every
    entry comes from a booking whose [booking_id] contains the text typed. *)
Theorem bookingSuggestions_sound (selectedBookingId : string) (bookings : list Booking.t) :
  (is_Some (bookingSuggestions selectedBookingId bookings)
   ↔ truthy selectedBookingId = false
     ∨ ∀ b, b ∈ bookings → is_Some (Booking.booking_id b))
  ∧ (truthy selectedBookingId = false →
     bookingSuggestions selectedBookingId bookings = Some [])
  ∧ ∀ suggestions,
      bookingSuggestions selectedBookingId bookings = Some suggestions →
      (length suggestions ≤ 10)%nat
      ∧ ∀ s, s ∈ suggestions →
          ∃ b, b ∈ bookings
               ∧ Booking.booking_id b = Some (suggestion_id s)
               ∧ Booking.resourceId b = suggestion_resourceId s
               ∧ includes (suggestion_id s) selectedBookingId = true.
Proof.
  split; [apply bookingSuggestions_is_Some |]. split.
  - unfold bookingSuggestions. intros ->. reflexivity.
  - intros suggestions Hs. split.
    + unfold bookingSuggestions in Hs.
      destruct (truthy selectedBookingId); cbn [negb] in Hs.
      * destruct (matchingBookings selectedBookingId bookings) as [matching|];
          [| discriminate].
        inversion Hs; subst suggestions. rewrite length_map, length_take. lia.
      * inversion Hs; subst. cbn. lia.
    + intros s Hin. exact (bookingSuggestions_elem _ _ _ _ Hs Hin).
Qed.

(** Choosing a suggestion while the search box is empty shows the row of
    the booking's resource: if that resource is a child of a group of the
    tree, the rows contain the header of that group and the row of that
    child. *)
Theorem picked_suggestion_shows_its_resource (resources : list ResourceGroup.t)
    (bookings : list Booking.t) (typed : string) (suggestions : list Suggestion)
    (s : Suggestion) (g : ResourceGroup.t) (c : Resource.t) :
  bookingSuggestions typed bookings = Some suggestions →
  s ∈ suggestions →
  g ∈ resources → c ∈ children_or_empty g →
  Resource.id c = suggestion_resourceId s →
  ∃ rows,
    visibleRows_in resources bookings (pickSuggestion s (mkFilterState "" typed))
    = Some rows
    ∧ ChildRow c (ResourceGroup.id g) ∈ rows
    ∧ ∃ p, ParentRow p ∈ rows ∧ ResourceGroup.id p = ResourceGroup.id g.
Proof.
  intros Hsugg Hs Hg Hc Hid.
  pose proof (bookingSuggestions_is_Some typed bookings) as Htotal.
  destruct (bookingSuggestions_elem _ _ _ _ Hsugg Hs) as (b & Hb & Hbid & Hres & Hinc).
  assert (Htyped : truthy typed = true).
  { destruct (truthy typed) eqn:E; [reflexivity |].
    unfold bookingSuggestions in Hsugg. rewrite E in Hsugg. cbn in Hsugg.
    inversion Hsugg; subst. by apply not_elem_of_nil in Hs. }
  assert (Hsid : truthy (suggestion_id s) = true)
    by (eapply includes_truthy; eassumption).
  assert (Hids : ∀ b', b' ∈ bookings → is_Some (Booking.booking_id b')).
  { destruct (proj1 Htotal (mk_is_Some _ _ Hsugg)) as [E | H]; [congruence | exact H]. }
  destruct (proj2 (matchingBookings_is_Some (suggestion_id s) bookings) Hids)
    as [matching Hm].
  assert (Hbm : b ∈ matching).
  { apply (matchingBookings_elem _ _ _ Hm). split; [exact Hb |].
    exists (suggestion_id s). split; [exact Hbid | apply includes_refl]. }
  unfold visibleRows_in, pickSuggestion.
  cbn [applyFilterAction searchTerm selectedBookingId].
  unfold visibleRows. rewrite Hsid, Hm. cbn [truthy].
  eexists. split; [reflexivity |].
  set (ids := matchingResourceIds matching).
  assert (Hrid : Resource.id c ∈ ids).
  { unfold ids, matchingResourceIds. apply elem_of_list_to_set, list_elem_of_fmap.
    exists b. split; [congruence | exact Hbm]. }
  set (kept := List.filter (fun child => bool_decide (Resource.id child ∈ ids))
                 (children_or_empty g)).
  set (g' := ResourceGroup.mk (ResourceGroup.id g) (ResourceGroup.name g) true
               (Some kept)).
  assert (Hkept : c ∈ kept).
  { apply elem_of_List_filter. split; [exact Hc | by apply bool_decide_eq_true]. }
  assert (Hg' : g' ∈ filterByBookingId ids resources).
  { unfold filterByBookingId. apply elem_of_List_filter. split.
    - apply list_elem_of_fmap. exists g. split; [reflexivity | exact Hg].
    - cbn. destruct kept; [by apply not_elem_of_nil in Hkept | reflexivity]. }
  assert (Hrow : ∀ r, r ∈ rowsOfParent "" g' →
            r ∈ flat_map (rowsOfParent "") (filterByBookingId ids resources)).
  { intros r Hr. apply list_elem_of_In, in_flat_map. exists g'.
    split; by apply list_elem_of_In. }
  split.
  - apply Hrow. rewrite rowsOfParent_no_search. cbn [ResourceGroup.expanded].
    apply list_elem_of_further, list_elem_of_fmap. exists c. split; [reflexivity |].
    exact Hkept.
  - exists g'. split; [| reflexivity]. apply Hrow.
    rewrite rowsOfParent_no_search. apply list_elem_of_here.
Qed.

Lemma picked_suggestion_shows_its_resource_witness :
  let r1 := Resource.mk "R1" "Room-1" in
  let g := ResourceGroup.mk "G1" "Block 1" false (Some [r1]) in
  let b := Booking.mk "771" (Some "771") "R1" 0 3 "Smith" "note" in
  ∃ rows,
    visibleRows_in [g] [b] (pickSuggestion (mkSuggestion "771" "R1") (mkFilterState "" "7"))
    = Some rows
    ∧ ChildRow r1 "G1" ∈ rows
    ∧ ∃ p, ParentRow p ∈ rows ∧ ResourceGroup.id p = "G1"%string.
Proof.
  intros r1 g b.
  apply (picked_suggestion_shows_its_resource [g] [b] "7"
           [mkSuggestion "771" "R1"] (mkSuggestion "771" "R1") g r1).
  - vm_compute. reflexivity.
  - apply list_elem_of_here.
  - apply list_elem_of_here.
  - apply list_elem_of_here.
  - reflexivity.
Defined.

(** *** [validBookings] *)

Lemma leafIds_children (cs : list Resource.t) (acc : gset string) (x : string) :
  x ∈ foldl (fun acc child => {[Resource.id child]} ∪ acc) acc cs
  ↔ x ∈ acc ∨ ∃ c, c ∈ cs ∧ Resource.id c = x.
Proof.
  revert acc. induction cs as [|c cs IH]; intros acc; cbn [foldl].
  - split; [by left |]. intros [H | (c & Hc & _)]; [exact H |].
    by apply not_elem_of_nil in Hc.
  - rewrite IH, elem_of_union, elem_of_singleton. split.
    + intros [[-> | H] | (c' & Hc' & Hid)].
      * right. exists c. split; [apply list_elem_of_here | reflexivity].
      * by left.
      * right. exists c'. split; [by apply list_elem_of_further | exact Hid].
    + intros [H | (c' & Hc' & Hid)]; [left; by right |].
      apply elem_of_cons in Hc' as [-> | Hc'].
      * left. left. by symmetry.
      * right. eauto.
Qed.

Lemma leafIds_groups (rs : list ResourceGroup.t) (acc : gset string) (x : string) :
  x ∈ foldl
        (fun acc parent =>
           foldl (fun acc child => {[Resource.id child]} ∪ acc) acc
             (children_or_empty parent))
        acc rs
  ↔ x ∈ acc ∨ ∃ g c, g ∈ rs ∧ c ∈ children_or_empty g ∧ Resource.id c = x.
Proof.
  revert acc. induction rs as [|g rs IH]; intros acc; cbn [foldl].
  - split; [by left |]. intros [H | (g & c & Hg & _)]; [exact H |].
    by apply not_elem_of_nil in Hg.
  - rewrite IH, leafIds_children. split.
    + intros [[H | (c & Hc & Hid)] | (g' & c & Hg' & Hc & Hid)].
      * by left.
      * right. exists g, c. split; [apply list_elem_of_here | auto].
      * right. exists g', c. split; [by apply list_elem_of_further | auto].
    + intros [H | (g' & c & Hg' & Hc & Hid)]; [left; by left |].
      apply elem_of_cons in Hg' as [-> | Hg'].
      * left. right. eauto.
      * right. eauto.
Qed.

Lemma validBookings_elem (resourcesLoaded : bool) (resources : list ResourceGroup.t)
    (bookings : list Booking.t) (b : Booking.t) :
  b ∈ validBookings resourcesLoaded resources bookings
  ↔ resourcesLoaded = true
    ∧ b ∈ bookings
    ∧ ∃ g c, g ∈ resources ∧ c ∈ children_or_empty g
             ∧ Resource.id c = Booking.resourceId b.
Proof.
  unfold validBookings. destruct resourcesLoaded; cbn [negb].
  - rewrite elem_of_List_filter, bool_decide_eq_true.
    unfold leafIds. rewrite leafIds_groups. split.
    + intros [Hb [Habs | H]]; [by apply not_elem_of_empty in Habs | auto].
    + intros (_ & Hb & H). auto.
  - split.
    + intros H. by apply not_elem_of_nil in H.
    + intros [? _]. discriminate.
Qed.

(** [validBookings] keeps, in their order, exactly the bookings whose
    [resourceId] is the id of a child of some group; nothing is shown
    before the resources are loaded; a booking made on a group's own row
    (its [resourceId] is no child's id) is dropped. *)
Theorem validBookings_keeps_bookings_of_leaf_resources (resourcesLoaded : bool)
    (resources : list ResourceGroup.t) (bookings : list Booking.t) :
  (∀ b, b ∈ validBookings resourcesLoaded resources bookings
        ↔ resourcesLoaded = true
          ∧ b ∈ bookings
          ∧ ∃ g c, g ∈ resources ∧ c ∈ children_or_empty g
                   ∧ Resource.id c = Booking.resourceId b)
  ∧ validBookings resourcesLoaded resources bookings `sublist_of` bookings
  ∧ validBookings resourcesLoaded resources
      (validBookings resourcesLoaded resources bookings)
    = validBookings resourcesLoaded resources bookings.
Proof.
  split; [intros b; apply validBookings_elem |].
  unfold validBookings. destruct resourcesLoaded; cbn [negb].
  - split.
    + apply RowsProps.List_filter_sublist.
    + induction bookings as [|b bs IH]; [reflexivity |].
      cbn [List.filter].
      destruct (bool_decide (Booking.resourceId b ∈ leafIds resources)) eqn:E.
      * cbn [List.filter]. rewrite E, IH. reflexivity.
      * exact IH.
  - split; [apply sublist_nil_l | reflexivity].
Qed.

(** *** The form *)

(** After a range selection on a window ([pointer-down] on day [a],
    [pointer-enter] on day [b] of the same row, [pointer-up], the modal
    timer), pressing confirm with a name that is not blank hands
    [onBookingCreate] the row's id with the two days in order and the text
    typed, carrying neither [id] nor [booking_id]; the form showed
    [|b - a| + 1] days; afterwards there is no selection and the modal is
    closed.  With a blank name nothing is handed over and nothing
    changes. *)
Theorem confirm_after_selection (days : Z) (D0 a b : DayKey) (resourceId : string)
    (bookingName notes : string) (st0 : State) :
  selectedBooking st0 = None →
  D0 ≤ a < D0 + days → D0 ≤ b < D0 + days →
  let st :=
    modalTimerFires
      (onMouseUp (generateDateRange days D0)
         (handleCellMouseEnter b resourceId (handleCellMouseDown a resourceId st0))) in
  modalOpen st = true
  ∧ dayCount (selectedBooking st) (selection st) = Some (Z.abs (b - a) + 1)
  ∧ (truthy (trim bookingName) = true →
     confirmPressed bookingName notes st
     = (Some (BookingData.mk None None resourceId (Z.min a b) (Z.max a b)
                bookingName notes),
        handleModalClose st)
     ∧ selection (handleModalClose st) = None
     ∧ modalOpen (handleModalClose st) = false)
  ∧ (truthy (trim bookingName) = false →
     confirmPressed bookingName notes st = (None, st)).
Proof.
  intros Hnone Ha Hb st. subst st.
  unfold handleCellMouseEnter, handleCellMouseDown, differs_from_ref.
  cbn [mouseDownRef isSelecting startResourceIdRef selection negb orb].
  rewrite String.eqb_refl. cbn [negb].
  unfold onMouseUp.
  cbn [mouseDownRef selection negb Selection.startDate Selection.endDate
       Selection.resourceId selectedBooking pendingModalTimers].
  rewrite !getDateIndex_generateDateRange.
  unfold modalTimerFires. cbn [pendingModalTimers].
  cbn [modalOpen selectedBooking selection mouseDownRef isSelecting
       startDateRef startResourceIdRef].
  rewrite Hnone. unfold confirmPressed, handleConfirm, dayCount, modalData.
  cbn [selectedBooking selection].
  unfold SelectionView.daysBetween.
  split; [reflexivity |]. split; [| split].
  - zcases; cbn; f_equal; lia.
  - intros ->. unfold handleModalClose.
    cbn [mouseDownRef startDateRef startResourceIdRef pendingModalTimers selection
         modalOpen].
    repeat split. zcases; cbn; repeat f_equal; lia.
  - intros ->. reflexivity.
Qed.

Lemma confirm_after_selection_witness :
  let st :=
    modalTimerFires
      (onMouseUp (generateDateRange 30 10)
         (handleCellMouseEnter 13 "R1" (handleCellMouseDown 11 "R1" initialState))) in
  confirmPressed "Smith" "late arrival" st
  = (Some (BookingData.mk None None "R1" 11 13 "Smith" "late arrival"),
     handleModalClose st).
Proof.
  intros st.
  destruct (confirm_after_selection 30 10 11 13 "R1" "Smith" "late arrival"
              initialState eq_refl ltac:(lia) ltac:(lia))
    as (_ & _ & Hok & _).
  exact (proj1 (Hok eq_refl)).
Defined.

(** The form is drawn exactly when the modal is open and some visible row
    carries the resource id of the booking or selection it is opened on
    (the first such row is the one shown); with the modal open on a
    selection whose row is not among the visible rows, nothing is drawn. *)
Theorem form_needs_a_visible_row (isOpen : bool) (rows : list VisibleRow)
    (booking : option Booking.t) (selection : option Selection.t) :
  (rendered isOpen booking selection (shownResource rows booking selection) = true
   ↔ isOpen = true
     ∧ ∃ rid, shownResourceId booking selection = Some rid
              ∧ ∃ r, r ∈ rows ∧ rowId r = rid)
  ∧ (∀ r, shownResource rows booking selection = Some r →
       ∃ (i : nat), rows !! i = Some r
         ∧ shownResourceId booking selection = Some (rowId r)
         ∧ ∀ (j : nat) r', (j < i)%nat → rows !! j = Some r' → rowId r' ≠ rowId r).
Proof.
  assert (Hfind : ∀ rid (l : list VisibleRow),
            match List.find (fun r => String.eqb (rowId r) rid) l with
            | Some r => ∃ (i : nat), l !! i = Some r ∧ rowId r = rid
                          ∧ ∀ (j : nat) r', (j < i)%nat → l !! j = Some r' →
                              rowId r' ≠ rid
            | None => ∀ r, r ∈ l → rowId r ≠ rid
            end).
  { intros rid l. induction l as [|x l IH]; cbn [List.find].
    - intros r Hr. by apply not_elem_of_nil in Hr.
    - destruct (String.eqb_spec (rowId x) rid) as [Heq | Hne].
      + exists 0%nat. split; [reflexivity |]. split; [exact Heq |]. intros j r' Hj. lia.
      + destruct (List.find _ l) as [r|].
        * destruct IH as (i & Hi & Hid & Hfirst). exists (S i).
          split; [exact Hi |]. split; [exact Hid |].
          intros j r' Hj Hr'. destruct j as [|j].
          -- cbn in Hr'. inversion Hr'; subst. exact Hne.
          -- apply (Hfirst j r'); [lia | exact Hr'].
        * intros r Hr. apply elem_of_cons in Hr as [-> | Hr]; [exact Hne | by apply IH]. }
  unfold rendered, shownResource. split.
  - destruct (shownResourceId booking selection) as [rid|] eqn:Hrid.
    + assert (Hdata : ∃ d, modalData booking selection = Some d).
      { unfold shownResourceId, modalData in *.
        destruct booking; [eauto |]. destruct selection; [eauto | discriminate]. }
      destruct Hdata as [d ->]. specialize (Hfind rid rows).
      destruct isOpen; cbn [andb];
        [| split; [discriminate | intros [Habs _]; discriminate]].
      destruct (List.find _ rows) as [r|].
      * split; [| reflexivity].
        intros _. split; [reflexivity |]. exists rid. split; [reflexivity |].
        destruct Hfind as (i & Hi & Hid & _). exists r.
        split; [by eapply list_elem_of_lookup_2 | exact Hid].
      * split; [discriminate |].
        intros (_ & rid' & Heq & r & Hr & Hid). injection Heq as <-.
        exfalso. exact (Hfind r Hr Hid).
    + split.
      * rewrite andb_false_r. discriminate.
      * intros (_ & rid & Habs & _). discriminate.
  - intros r Hr. destruct (shownResourceId booking selection) as [rid|];
      [| discriminate].
    specialize (Hfind rid rows). rewrite Hr in Hfind.
    destruct Hfind as (i & Hi & Hid & Hfirst). exists i. rewrite Hid.
    split; [exact Hi |]. split; [reflexivity | exact Hfirst].
Qed.

(** A booking created through the form carries no [booking_id].  Once
    it is among the page's bookings (its resource is a child of some group,
    so [validBookings] keeps it), any text typed in the booking-ID box makes
    both the row computation and the suggestion list throw. *)
Theorem created_booking_breaks_the_booking_filter (resources : list ResourceGroup.t)
    (bookings : list Booking.t) (st : State) (bookingName notes : string)
    (data : BookingData.t) (searchTerm selectedBookingId : string) :
  selectedBooking st = None →
  fst (confirmPressed bookingName notes st) = Some data →
  (∃ g c, g ∈ resources ∧ c ∈ children_or_empty g
          ∧ Resource.id c = BookingData.resourceId data) →
  truthy selectedBookingId = true →
  let bookings' := validBookings true resources (handleBookingCreate bookings data) in
  visibleRows resources bookings' searchTerm selectedBookingId = None
  ∧ bookingSuggestions selectedBookingId bookings' = None.
Proof.
  intros Hnone Hdata Hleaf Hsel bookings'.
  assert (Hbid : BookingData.booking_id data = None).
  { unfold confirmPressed, handleConfirm in Hdata. rewrite Hnone in Hdata.
    destruct (truthy (trim bookingName)); [| discriminate].
    destruct (modalData None (selection st)) as [[[r s] e]|]; [| discriminate].
    cbn in Hdata. inversion Hdata; subst. reflexivity. }
  set (created := Booking.mk
         (match BookingData.id data with
          | Some i => i
          | None => pretty (length bookings + 1)%nat
          end)
         (BookingData.booking_id data) (BookingData.resourceId data)
         (BookingData.startDate data) (BookingData.endDate data)
         (BookingData.text data) (BookingData.notes data)).
  assert (Hin : created ∈ bookings').
  { apply validBookings_elem.
    split; [reflexivity |]. split; [| exact Hleaf].
    unfold handleBookingCreate. apply elem_of_app. right. apply list_elem_of_here. }
  assert (Hnot : matchingBookings selectedBookingId bookings' = None).
  { destruct (matchingBookings selectedBookingId bookings') as [m|] eqn:Hm;
      [| reflexivity].
    exfalso.
    pose proof (proj1 (matchingBookings_is_Some selectedBookingId bookings')
                  ltac:(rewrite Hm; eauto) created Hin) as [x Hx].
    cbn in Hx. rewrite Hbid in Hx. discriminate. }
  split.
  - unfold visibleRows. rewrite Hsel, Hnot. reflexivity.
  - unfold bookingSuggestions. rewrite Hsel, Hnot. reflexivity.
Qed.

Lemma created_booking_breaks_the_booking_filter_witness :
  let g := ResourceGroup.mk "G1" "Block 1" true (Some [Resource.mk "R1" "Room-1"]) in
  let st :=
    modalTimerFires
      (onMouseUp (generateDateRange 30 10)
         (handleCellMouseEnter 13 "R1" (handleCellMouseDown 11 "R1" initialState))) in
  let data := BookingData.mk None None "R1" 11 13 "Smith" "late arrival" in
  visibleRows [g] (validBookings true [g] (handleBookingCreate [] data)) "" "5" = None.
Proof.
  intros g st data.
  refine (proj1 (created_booking_breaks_the_booking_filter [g] [] st "Smith"
                   "late arrival" data "" "5" eq_refl eq_refl _ eq_refl)).
  exists g, (Resource.mk "R1" "Room-1").
  split; [apply list_elem_of_here |]. split; [apply list_elem_of_here | reflexivity].
Defined.

(** Confirming the form opened on an existing booking does not replace
    that booking: [handleBookingCreate] appends a booking with the same
    [id], [booking_id], resource and dates and the new text and notes, and
    leaves every earlier booking, the edited one included, in place. *)
Theorem editing_appends_a_copy (bookings : list Booking.t) (b : Booking.t)
    (bookingName notes : string) (st0 : State) :
  truthy (trim bookingName) = true →
  ∃ data,
    fst (confirmPressed bookingName notes (handleBookingClick b st0)) = Some data
    ∧ handleBookingCreate bookings data
      = bookings
        ++ [Booking.mk (Booking.id b) (Booking.booking_id b) (Booking.resourceId b)
              (Booking.startDate b) (Booking.endDate b) bookingName notes]
    ∧ take (length bookings) (handleBookingCreate bookings data) = bookings.
Proof.
  intros Hname. unfold confirmPressed, handleBookingClick, handleConfirm, modalData.
  cbn [selectedBooking selection]. rewrite Hname.
  eexists. split; [reflexivity |].
  unfold handleBookingCreate. cbn. split; [reflexivity |].
  by rewrite take_app_length.
Qed.

Lemma editing_appends_a_copy_witness :
  let b := Booking.mk "771" (Some "771") "R1" 11 13 "Smith" "note" in
  ∃ data,
    fst (confirmPressed "Smith-Jones" "note" (handleBookingClick b initialState))
    = Some data
    ∧ handleBookingCreate [b] data
      = [b] ++ [Booking.mk "771" (Some "771") "R1" 11 13 "Smith-Jones" "note"]
    ∧ take (length [b]) (handleBookingCreate [b] data) = [b].
Proof.
  intros b.
  apply (editing_appends_a_copy [b] b "Smith-Jones" "note" initialState). reflexivity.
Defined.

End FormProps.

(** ** How the selection is shown *)

Module SelectionProps.
Import DateUtils DateFacts Scheduler SelectionView.

(** The overlay does not depend on the direction of the drag, and
    pointer-up (which puts the two days in order) leaves it where it was,
    on any list of dates. *)
Theorem overlay_ignores_direction (dates : list DayKey) (cellWidth : Z) :
  (∀ r a b, SelectionOverlay (Some (Selection.mk r a b)) dates cellWidth
            = SelectionOverlay (Some (Selection.mk r b a)) dates cellWidth)
  ∧ (∀ st, SelectionOverlay (selection (onMouseUp dates st)) dates cellWidth
           = SelectionOverlay (selection st) dates cellWidth).
Proof.
  assert (Hsym : ∀ r r' a b,
            SelectionOverlay (Some (Selection.mk r a b)) dates cellWidth
            = SelectionOverlay (Some (Selection.mk r' b a)) dates cellWidth).
  { intros r r' a b. unfold SelectionOverlay.
    cbn [Selection.startDate Selection.endDate].
    rewrite (orb_comm (getDateIndex a dates =? -1)).
    rewrite (Z.min_comm (getDateIndex a dates)), (Z.max_comm (getDateIndex a dates)).
    reflexivity. }
  split; [intros r a b; apply Hsym |].
  intros st. unfold onMouseUp.
  destruct (selection st) as [[r a b]|] eqn:Hsel;
    destruct (negb (mouseDownRef st)); rewrite ?Hsel; try reflexivity.
  cbn [selection Selection.startDate Selection.endDate Selection.resourceId].
  destruct (getDateIndex a dates <=? getDateIndex b dates); [reflexivity |].
  apply Hsym.
Qed.

(** On a window of consecutive days and for a selection whose two days are
    in the window, the overlay of the selected row spans [|end - start| + 1]
    columns (the day count the form shows once the days are in order), and
    the cells the row highlights are exactly the cells under the overlay;
    no other row has an overlay or a highlighted cell. *)
Theorem highlight_and_overlay_agree (days : Z) (D0 : DayKey) (cellWidth : Z)
    (sel : Selection.t) :
  D0 ≤ Selection.startDate sel < D0 + days →
  D0 ≤ Selection.endDate sel < D0 + days →
  let dates := generateDateRange days D0 in
  (∃ ov, row_overlay (Selection.resourceId sel) (Some sel) dates cellWidth = Some ov
         ∧ overlay_span ov = Z.abs (Selection.endDate sel - Selection.startDate sel) + 1
         ∧ overlay_span ov
           = daysBetween (Z.min (Selection.startDate sel) (Selection.endDate sel))
               (Z.max (Selection.startDate sel) (Selection.endDate sel))
         ∧ overlay_left ov = minIndex ov * cellWidth
         ∧ overlay_width ov = overlay_span ov * cellWidth
         ∧ ∀ c, 0 ≤ c < days →
             (cell_isSelected (Selection.resourceId sel) (Some sel) (D0 + c) = true
              ↔ minIndex ov ≤ c ≤ maxIndex ov))
  ∧ (∀ rid, rid ≠ Selection.resourceId sel →
       row_overlay rid (Some sel) dates cellWidth = None
       ∧ ∀ d, cell_isSelected rid (Some sel) d = false).
Proof.
  intros Hs He dates. subst dates. split.
  - unfold row_overlay, hasSelection. rewrite String.eqb_refl.
    unfold SelectionOverlay. rewrite !getDateIndex_generateDateRange.
    destruct sel as [r a b]. cbn [Selection.startDate Selection.endDate
                                   Selection.resourceId] in *.
    replace ((D0 <=? a) && (a <? D0 + days)) with true by (symmetry; zcases).
    replace ((D0 <=? b) && (b <? D0 + days)) with true by (symmetry; zcases).
    replace (a - D0 =? -1) with false by (symmetry; zcases).
    replace (b - D0 =? -1) with false by (symmetry; zcases).
    cbn [orb]. eexists. split; [reflexivity |].
    cbn [overlay_span overlay_left overlay_width minIndex maxIndex].
    unfold daysBetween. split; [lia |]. split; [lia |].
    split; [reflexivity |]. split; [reflexivity |].
    intros c Hc. unfold cell_isSelected, hasSelection, isDateInSelection, sort2.
    cbn [Selection.startDate Selection.endDate Selection.resourceId].
    rewrite String.eqb_refl. cbn [andb].
    destruct (Z.ltb_spec b a); cbn [fst snd];
      rewrite andb_true_iff, !Z.leb_le; lia.
  - intros rid Hrid. unfold row_overlay, cell_isSelected, hasSelection.
    assert (Hne : String.eqb (Selection.resourceId sel) rid = false)
      by (apply String.eqb_neq; congruence).
    rewrite Hne. split; reflexivity.
Qed.

Lemma highlight_and_overlay_agree_witness :
  let sel := Selection.mk "R1" 20 15 in
  ∃ ov, row_overlay "R1" (Some sel) (generateDateRange 30 10) 100 = Some ov
        ∧ overlay_span ov = 6
        ∧ (cell_isSelected "R1" (Some sel) (10 + 7) = true ↔ minIndex ov ≤ 7 ≤ maxIndex ov).
Proof.
  intros sel.
  destruct (highlight_and_overlay_agree 30 10 100 sel ltac:(cbn; lia) ltac:(cbn; lia))
    as [(ov & Hov & Hspan & _ & _ & _ & Hcells) _].
  exists ov. split; [exact Hov |]. split; [exact Hspan |].
  apply Hcells. lia.
Defined.

Lemma last_cons_default {A : Type} (x d : A) (l : list A) :
  List.last (x :: l) d = List.last l x.
Proof.
  revert x d. induction l as [|y l IH]; intros x d; [reflexivity |].
  change (List.last (x :: y :: l) d) with (List.last (y :: l) d).
  rewrite (IH y d). symmetry. apply IH.
Qed.

Lemma enter_on_selected_row (a e0 d : DayKey) (r : string) (st : State) :
  mouseDownRef st = true → isSelecting st = true →
  startResourceIdRef st = Some r →
  selection st = Some (Selection.mk r a e0) →
  selection (handleCellMouseEnter d r st) = Some (Selection.mk r a d)
  ∧ mouseDownRef (handleCellMouseEnter d r st) = true
  ∧ isSelecting (handleCellMouseEnter d r st) = true
  ∧ startResourceIdRef (handleCellMouseEnter d r st) = Some r.
Proof.
  intros Hd Hi Hr Hsel. unfold handleCellMouseEnter, differs_from_ref.
  rewrite Hd, Hi, Hr, String.eqb_refl, Hsel. cbn. auto.
Qed.

Lemma enter_on_other_row (d : DayKey) (r rid : string) (st : State) :
  rid ≠ r → startResourceIdRef st = Some r →
  handleCellMouseEnter d rid st = st.
Proof.
  intros Hne Hr. unfold handleCellMouseEnter, differs_from_ref. rewrite Hr.
  apply String.eqb_neq in Hne. rewrite Hne. cbn [negb].
  destruct (negb (mouseDownRef st) || negb (isSelecting st)); reflexivity.
Qed.

Lemma enters_keep_row_and_anchor (a : DayKey) (r : string)
    (enters : list (DayKey * string)) :
  ∀ st e0,
    mouseDownRef st = true → isSelecting st = true →
    startResourceIdRef st = Some r →
    selection st = Some (Selection.mk r a e0) →
    selection (foldl (fun st e => handleCellMouseEnter (fst e) (snd e) st) st enters)
    = Some (Selection.mk r a
              (List.last
                 (map fst (List.filter (fun e => String.eqb (snd e) r) enters)) e0))
    ∧ mouseDownRef (foldl (fun st e => handleCellMouseEnter (fst e) (snd e) st) st enters)
      = true
    ∧ isSelecting (foldl (fun st e => handleCellMouseEnter (fst e) (snd e) st) st enters)
      = true
    ∧ startResourceIdRef
        (foldl (fun st e => handleCellMouseEnter (fst e) (snd e) st) st enters)
      = Some r.
Proof.
  induction enters as [|[d rid] enters IH]; intros st e0 Hd Hi Hr Hsel.
  - cbn. auto.
  - cbn [foldl fst snd List.filter].
    destruct (String.eqb_spec rid r) as [-> | Hne].
    + destruct (enter_on_selected_row a e0 d r st Hd Hi Hr Hsel)
        as (H1 & H2 & H3 & H4).
      cbn [map fst]. rewrite last_cons_default. by apply IH.
    + rewrite (enter_on_other_row d r rid st Hne Hr). by apply IH.
Qed.

(** During a selection gesture the row and the first day never change:
    after pointer-down on day [a] of row [r] and any sequence of
    pointer-enter events, the selection is on row [r], starts on [a] and
    ends on the day of the last pointer-enter that was on row [r] (on [a]
    if there was none); pointer-enters on other rows are ignored. *)
Theorem selection_stays_on_its_row (a : DayKey) (r : string) (st0 : State)
    (enters : list (DayKey * string)) :
  let st :=
    foldl (fun st e => handleCellMouseEnter (fst e) (snd e) st)
      (handleCellMouseDown a r st0) enters in
  selection st
  = Some (Selection.mk r a
            (List.last
               (map fst (List.filter (fun e => String.eqb (snd e) r) enters)) a))
  ∧ mouseDownRef st = true ∧ isSelecting st = true
  ∧ startResourceIdRef st = Some r.
Proof.
  cbv zeta. apply enters_keep_row_and_anchor; reflexivity.
Qed.

End SelectionProps.

(** ** Click or drag *)

Module ClickOrDragProps.
Import ClickOrDrag.

Lemma run_not_listening (g : Gesture) (evs : list Event) :
  listening g = false → run g evs = [].
Proof.
  revert g. induction evs as [|ev evs IH]; intros g Hg; [reflexivity |].
  cbn [run]. unfold dispatch. rewrite Hg. cbn. by apply IH.
Qed.

(** One press on a booking invokes at most one callback, whatever document
    events follow: never a drag start and a click, and never the same
    callback twice. *)
Theorem gesture_invokes_at_most_one_callback (g : Gesture) (evs : list Event) :
  (length (run g evs) ≤ 1)%nat
  ∧ (run g evs = [] ∨ run g evs = [BookingDragStart] ∨ run g evs = [BookingClick]).
Proof.
  assert (H : run g evs = [] ∨ run g evs = [BookingDragStart]
              ∨ run g evs = [BookingClick]).
  { revert g. induction evs as [|ev evs IH]; intros g; [by left |].
    cbn [run]. unfold dispatch. destruct (listening g) eqn:Hl.
    - destruct ev as [now x y | now].
      + unfold handleMouseMove. destruct (_ || _).
        * rewrite run_not_listening by reflexivity. right. by left.
        * cbn [app]. apply IH.
      + unfold handleMouseUp. rewrite run_not_listening by reflexivity.
        destruct (_ <? _); [right; by right | by left].
    - cbn [app]. apply IH. }
  split; [| exact H].
  destruct H as [-> | [-> | ->]]; cbn; lia.
Qed.

(** What decides a press at time [t0]: moves that stay within 5 pixels and
    200 ms change nothing; the first move beyond either threshold starts a
    drag; a release starts nothing and counts as a click only if it comes
    less than 200 ms after the press.  So a press held for 200 ms or more
    and released without a move beyond the thresholds is neither a click
    nor a drag. *)
Theorem gesture_outcome (t0 x0 y0 : Z) (quiet rest : list Event) :
  Forall (withinThresholds (handleMouseDown t0 x0 y0)) quiet →
  (∀ t, run (handleMouseDown t0 x0 y0) (quiet ++ MouseUp t :: rest)
        = if t - t0 <? 200 then [BookingClick] else [])
  ∧ (∀ t x y,
       25 < (x - x0) * (x - x0) + (y - y0) * (y - y0) ∨ 200 < t - t0 →
       run (handleMouseDown t0 x0 y0) (quiet ++ MouseMove t x y :: rest)
       = [BookingDragStart])
  ∧ run (handleMouseDown t0 x0 y0) quiet = [].
Proof.
  intros Hquiet. unfold handleMouseDown in *.
  assert (Hskip : ∀ tail,
            run (mkGesture t0 (x0, y0) true) (quiet ++ tail)
            = run (mkGesture t0 (x0, y0) true) tail).
  { intros tail. induction Hquiet as [|ev quiet Hev _ IH]; [reflexivity |].
    cbn [app run]. unfold dispatch. cbn [listening].
    destruct ev as [now x y | now]; [| destruct Hev].
    cbn in Hev. destruct Hev as [Hd Ht]. unfold handleMouseMove.
    cbn [startPos startTime fst snd].
    replace (25 <? _) with false by (symmetry; apply Z.ltb_ge; exact Hd).
    replace (200 <? now - t0) with false by (symmetry; apply Z.ltb_ge; exact Ht).
    cbn [orb app]. exact IH. }
  split; [| split].
  - intros t. rewrite Hskip. cbn [run]. unfold dispatch, handleMouseUp.
    cbn [listening startTime].
    rewrite run_not_listening by reflexivity. by rewrite app_nil_r.
  - intros t x y Hbeyond. rewrite Hskip. cbn [run]. unfold dispatch, handleMouseMove.
    cbn [listening startTime startPos fst snd].
    assert (Hor : (25 <? (x - x0) * (x - x0) + (y - y0) * (y - y0))
                  || (200 <? t - t0) = true).
    { apply orb_true_iff. destruct Hbeyond; [left | right]; by apply Z.ltb_lt. }
    rewrite Hor. by rewrite run_not_listening.
  - rewrite <- (app_nil_r quiet). rewrite Hskip. reflexivity.
Qed.

Lemma gesture_outcome_witness :
  run (handleMouseDown 1000 40 40) ([MouseMove 1050 42 41] ++ MouseUp 1300 :: []) = []
  ∧ run (handleMouseDown 1000 40 40) ([MouseMove 1050 42 41] ++ MouseUp 1100 :: [])
    = [BookingClick].
Proof.
  assert (Hq : Forall (withinThresholds (handleMouseDown 1000 40 40))
                 [MouseMove 1050 42 41]).
  { constructor; [cbn; lia | constructor]. }
  split.
  - exact (proj1 (gesture_outcome 1000 40 40 [MouseMove 1050 42 41] [] Hq) 1300).
  - exact (proj1 (gesture_outcome 1000 40 40 [MouseMove 1050 42 41] [] Hq) 1100).
Defined.

End ClickOrDragProps.

(** ** The drag-and-drop variant as a whole *)

Module DragSchedulerProps.
Import DateUtils DateFacts JsString Drag DragFacts DragScheduler.

Lemma state_eta (st : State) :
  mkState (sel st) (dragState st) (dragStartPosRef st) = st.
Proof. destruct st; reflexivity. Qed.

Lemma run_app (dates : list DayKey) (evs1 evs2 : list Event) :
  ∀ st,
    run dates st (evs1 ++ evs2)
    = (fst (run dates (fst (run dates st evs1)) evs2),
       snd (run dates st evs1) ++ snd (run dates (fst (run dates st evs1)) evs2)).
Proof.
  induction evs1 as [|ev evs1 IH]; intros st.
  - cbn [app run fst snd]. by destruct (run dates st evs2).
  - cbn [app run]. destruct (step dates st ev) as [st1 out1].
    rewrite IH. destruct (run dates st1 evs1) as [st2 out2]. cbn [fst snd].
    by rewrite app_assoc.
Qed.

(** While the button is held during a drag, the handlers only record the
    pointer: nothing is reported and the selection state is untouched. *)
Lemma held_events_during_drag (dates : list DayKey) (b : Booking.t)
    (held : list Event) :
  ∀ st,
    isDragging (dragState st) = true →
    draggedBooking (dragState st) = Some b →
    forallb whileHeld held = true →
    snd (run dates st held) = []
    ∧ sel (fst (run dates st held)) = sel st
    ∧ isDragging (dragState (fst (run dates st held))) = true
    ∧ draggedBooking (dragState (fst (run dates st held))) = Some b
    ∧ dragStartPosRef (fst (run dates st held)) = dragStartPosRef st.
Proof.
  induction held as [|ev held IH]; intros st Hdrag Hb Hheld; [cbn; auto |].
  cbn [forallb] in Hheld. apply andb_true_iff in Hheld as [Hev Hheld].
  cbn [run].
  assert (Hstep : ∃ st1, step dates st ev = (st1, [])
            ∧ sel st1 = sel st ∧ isDragging (dragState st1) = true
            ∧ draggedBooking (dragState st1) = Some b
            ∧ dragStartPosRef st1 = dragStartPosRef st).
  { destruct ev; try discriminate; cbn [step].
    - unfold handleCellMouseEnter. rewrite Hdrag. eexists. split; [reflexivity |].
      cbn. rewrite ?Hdrag. auto.
    - unfold handleBookingDragMove. rewrite Hdrag. cbn [negb].
      eexists. split; [reflexivity |]. cbn. rewrite ?Hdrag. auto.
    - unfold handleBookingClick. rewrite Hdrag. eexists. split; [reflexivity |]. auto. }
  destruct Hstep as (st1 & -> & Hs & Hd1 & Hb1 & Hr1).
  destruct (IH st1 Hd1 Hb1 Hheld) as (H1 & H2 & H3 & H4 & H5).
  destruct (run dates st1 held) as [st2 out2]. cbn [fst snd] in *.
  subst out2. repeat split; congruence.
Qed.

(** A drag never touches the range selection and always ends: from the
    press on a booking to the release, whatever cells the pointer enters
    and wherever it moves, the selection state is as before, the drag state
    is reset, and at most one move is reported; a reported move is for the
    dragged booking and keeps its number of nights. *)
Theorem drag_leaves_selection_and_ends (dates : list DayKey) (st : State)
    (b : Booking.t) (held : list Event) (underPointer : option DropTarget) :
  isDragging (dragState st) = true →
  draggedBooking (dragState st) = Some b →
  forallb whileHeld held = true →
  let result := run dates st (held ++ [MouseReleased underPointer]) in
  sel (fst result) = sel st
  ∧ dragState (fst result) = idleDragState
  ∧ (length (snd result) ≤ 1)%nat
  ∧ ∀ b' m, (b', m) ∈ snd result →
      b' = b
      ∧ to_endDate m - to_startDate m = Booking.endDate b - Booking.startDate b.
Proof.
  intros Hdrag Hb Hheld result. subst result. rewrite run_app.
  destruct (held_events_during_drag dates b held st Hdrag Hb Hheld)
    as (Hout & Hsel & Hd1 & Hb1 & _).
  rewrite Hout. cbn [app fst snd run step].
  set (st1 := fst (run dates st held)) in *.
  unfold onMouseUp. rewrite Hd1. unfold onMouseUp_dragging.
  destruct (match dropTarget (dragState st1) with
            | Some t => Some t
            | None => underPointer
            end) as [t|].
  - destruct (truthy (resourceId t)) eqn:Ht.
    + rewrite (handleBookingDragEnd_moved _ b (date t) (resourceId t) Hd1 Hb1 Ht).
      cbn. split; [exact Hsel |]. split; [reflexivity |]. split; [lia |].
      intros b' m Hin. apply list_elem_of_singleton in Hin. inversion Hin; subst.
      cbn. split; [reflexivity | lia].
    + unfold handleBookingDragEnd. rewrite Hd1, Hb1, Ht. cbn.
      split; [exact Hsel |]. split; [reflexivity |]. split; [lia |].
      intros b' m Hin. by apply not_elem_of_nil in Hin.
  - cbn. split; [exact Hsel |]. split; [reflexivity |]. split; [lia |].
    intros b' m Hin. by apply not_elem_of_nil in Hin.
Qed.

Lemma drag_leaves_selection_and_ends_witness :
  let b := Booking.mk "b7" (Some "1007") "R1" 12 15 "Smith" "note" in
  let st := handleBookingDragStart b 40 40
              (mkState Scheduler.initialState idleDragState (0, 0)) in
  let result :=
    run (generateDateRange 30 10) st
      ([MouseMoved 60 40 None; CellMouseEnter 19 "R4"] ++ [MouseReleased None]) in
  sel (fst result) = Scheduler.initialState
  ∧ dragState (fst result) = idleDragState
  ∧ snd result = [(b, mkMovedTo "R4" 19 22)].
Proof.
  intros b st result.
  destruct (drag_leaves_selection_and_ends (generateDateRange 30 10) st b
              [MouseMoved 60 40 None; CellMouseEnter 19 "R4"] None
              eq_refl eq_refl eq_refl) as (Hsel & Hidle & _ & _).
  split; [exact Hsel |]. split; [exact Hidle |]. vm_compute. reflexivity.
Defined.

(** When the pointer has left every date cell (the last move found no cell
    under it) and is released there, the drag is abandoned: nothing is
    reported and only the drag state changes.  Dropping a booking on its
    own first day reports its own dates. *)
Theorem release_outside_abandons_the_drag (dates : list DayKey) (st : State)
    (b : Booking.t) :
  isDragging (dragState st) = true →
  draggedBooking (dragState st) = Some b →
  (∀ x y,
      run dates st [MouseMoved x y None; MouseReleased None]
      = (mkState (sel st) idleDragState (dragStartPosRef st), []))
  ∧ (∀ resourceId underPointer,
       truthy resourceId = true →
       run dates st [CellMouseEnter (Booking.startDate b) resourceId;
                     MouseReleased underPointer]
       = (mkState (sel st) idleDragState (dragStartPosRef st),
          [(b, mkMovedTo resourceId (Booking.startDate b) (Booking.endDate b))])).
Proof.
  intros Hdrag Hb. split.
  - intros x y. cbn [run step]. unfold handleBookingDragMove. rewrite Hdrag.
    cbn [negb]. unfold onMouseUp. cbn [dragState isDragging].
    rewrite ?Hdrag. unfold onMouseUp_dragging. cbn. reflexivity.
  - intros rid u Hrid. cbn [run step]. unfold handleCellMouseEnter. rewrite Hdrag.
    unfold onMouseUp. cbn [dragState isDragging]. rewrite ?Hdrag.
    unfold onMouseUp_dragging. cbn [dropTarget date resourceId].
    rewrite (handleBookingDragEnd_moved _ b (Booking.startDate b) rid);
      [| reflexivity | exact Hb | exact Hrid].
    cbn [sel dragStartPosRef app]. repeat f_equal. lia.
Qed.

Lemma release_outside_abandons_the_drag_witness :
  let b := Booking.mk "b7" (Some "1007") "R1" 12 15 "Smith" "note" in
  let st := handleBookingDragStart b 40 40
              (mkState Scheduler.initialState idleDragState (0, 0)) in
  run (generateDateRange 30 10) st [MouseMoved 900 5 None; MouseReleased None]
  = (mkState (sel st) idleDragState (dragStartPosRef st), []).
Proof.
  intros b st.
  apply (proj1 (release_outside_abandons_the_drag (generateDateRange 30 10) st b
                  eq_refl eq_refl)).
Defined.

(** As long as no booking is pressed, the variant with drag-and-drop
    selects exactly like the scheduler without it: the drag handlers do
    nothing, report nothing and leave the drag state as it was. *)
Theorem without_a_drag_selection_is_unchanged (dates : list DayKey) (evs : list Event) :
  ∀ st,
    isDragging (dragState st) = false →
    forallb (fun ev => negb (isBookingMouseDown ev)) evs = true →
    run dates st evs
    = (mkState (foldl (plainStep dates) (sel st) evs) (dragState st)
         (dragStartPosRef st),
       []).
Proof.
  induction evs as [|ev evs IH]; intros st Hdrag Hevs.
  - cbn. by rewrite state_eta.
  - cbn [forallb] in Hevs. apply andb_true_iff in Hevs as [Hev Hevs].
    cbn [run foldl].
    assert (Hstep : step dates st ev
                    = (mkState (plainStep dates (sel st) ev) (dragState st)
                         (dragStartPosRef st), [])).
    { destruct ev; try discriminate; cbn [step plainStep].
      - reflexivity.
      - unfold handleCellMouseEnter. rewrite Hdrag. reflexivity.
      - unfold handleBookingDragMove. rewrite Hdrag. cbn [negb].
        by rewrite state_eta.
      - unfold handleBookingClick. rewrite Hdrag. reflexivity.
      - unfold onMouseUp. rewrite Hdrag. reflexivity. }
    rewrite Hstep. rewrite IH by assumption. reflexivity.
Qed.

Lemma without_a_drag_selection_is_unchanged_witness :
  let st := mkState Scheduler.initialState idleDragState (0, 0) in
  let evs := [CellMouseDown 20 "R1"; MouseMoved 5 5 None; CellMouseEnter 15 "R1";
              MouseReleased None] in
  run (generateDateRange 30 10) st evs
  = (mkState (foldl (plainStep (generateDateRange 30 10)) (sel st) evs) (dragState st)
       (dragStartPosRef st), []).
Proof.
  intros st evs.
  apply (without_a_drag_selection_is_unchanged (generateDateRange 30 10) evs st);
    reflexivity.
Defined.

End DragSchedulerProps.

(** ** The debounced selection *)

Module DebouncedProps.
Import DateUtils DateFacts Debounced.

Lemma debounced_enter_on_row (d : DayKey) (r : string) (st : State) :
  mouseDownRef st = true → isSelecting st = true → startResourceIdRef st = Some r →
  handleCellMouseEnter d r st
  = mkState true (startDateRef st) (Some r) (selection st) true (modalOpen st)
      (Some d) (pendingModalTimers st).
Proof.
  intros Hd Hi Hr. unfold handleCellMouseEnter, Scheduler.differs_from_ref.
  rewrite Hd, Hi, Hr, String.eqb_refl. reflexivity.
Qed.

Lemma debounced_burst (r : string) (burst : list DayKey) :
  ∀ st,
    mouseDownRef st = true → isSelecting st = true → startResourceIdRef st = Some r →
    foldl (fun st d => handleCellMouseEnter d r st) st burst
    = mkState true (startDateRef st) (Some r) (selection st) true (modalOpen st)
        (match burst with
         | [] => pendingEnter st
         | d :: ds => Some (List.last ds d)
         end)
        (pendingModalTimers st).
Proof.
  induction burst as [|d ds IH]; intros st Hd Hi Hr.
  - cbn. destruct st; cbn in *; subst; reflexivity.
  - cbn [foldl]. rewrite (debounced_enter_on_row d r st Hd Hi Hr).
    rewrite IH by reflexivity. cbn [startDateRef selection modalOpen pendingEnter
                                     pendingModalTimers].
    destruct ds as [|d' ds']; [reflexivity |].
    by rewrite SelectionProps.last_cons_default.
Qed.

(** Pointer-enters are coalesced: after pointer-down on day [a] of row [r],
    a burst of pointer-enters on that row leaves the selection on [a]
    alone until the pending timeout runs, which applies the last day of
    the burst only.  If the pointer is released before the timeout runs,
    the pending pointer-enter is discarded: the selection stays [a .. a]
    and that is what the form receives. *)
Theorem debounced_enters_are_coalesced (dates : list DayKey) (a d : DayKey)
    (ds : list DayKey) (r : string) (st0 : State) :
  let st := foldl (fun st d => handleCellMouseEnter d r st)
              (handleCellMouseDown a r st0) (d :: ds) in
  selection st = Some (Selection.mk r a a)
  ∧ selection (debounceFires st) = Some (Selection.mk r a (List.last ds d))
  ∧ pendingEnter (debounceFires st) = None
  ∧ selection (handleMouseUp dates st) = Some (Selection.mk r a a)
  ∧ pendingEnter (handleMouseUp dates st) = None
  ∧ debounceFires (handleMouseUp dates st) = handleMouseUp dates st.
Proof.
  cbv zeta. rewrite (debounced_burst r (d :: ds)) by reflexivity.
  cbn [handleCellMouseDown selection startDateRef modalOpen pendingModalTimers].
  unfold debounceFires, handleMouseUp.
  cbn [pendingEnter selection mouseDownRef isSelecting andb Selection.resourceId
       Selection.startDate Selection.endDate].
  rewrite Z.leb_refl. repeat split.
Qed.

End DebouncedProps.
